(** * Avistamientos: a shallow embedding of [avistamientos.py]

    The module answers queries over a list of sightings
    ([Avistamiento] named tuples).  Python values are embedded as follows:

    - [int] is [Z]; [len] of a list is [Z.of_nat (length _)];
    - [str] is the [string] of the bytes of its UTF-8 encoding: equality,
      hashing, the order [<] and the test [in] of two strings are those
      of their encodings; [len] counts code points ([len_str]); the case
      mapping of [str.lower] is that of the interpreter's Unicode
      database and is a parameter of the development ([lower]);
    - [datetime] and [date] are records of integer fields, compared as the
      tuples of their fields, as CPython's [datetime] does;
    - [float] is binary64 ([spec_float]); the quotient [int / int] of
      3.5 is rounded to it ([truediv_float]); the percentages and the
      mean lengths of 4.7 and 4.8 are kept as the exact rationals in
      [Qc] that CPython rounds ([truediv]);
    - [set] is [gset], [dict], [defaultdict] and [Counter] are [gmap];
    - a call either returns or raises: [result];
    - the module [coordenadas] is not part of the sources: the type
      [Coordenadas], its ordering and the function [distancia] are
      parameters of the development. *)

From Stdlib Require Import ZArith QArith Qcanon List Sorted Permutation.
From Stdlib Require Import String Ascii Bool SpecFloat.
From stdpp Require Import gmap strings list fin_maps sorting.

Open Scope Z_scope.

(** ** Python built-ins *)

Module Py.

Inductive exception : Set :=
| ValueError          (* max() arg is an empty sequence *)
| ZeroDivisionError   (* division by zero *)
| KeyError            (* d[k] on a dict without the key k *)
| OverflowError.      (* integer division result too large for a float *)

(** Outcome of a call: a returned value or a raised exception. *)
Inductive result (A : Type) : Type :=
| Return (a : A)
| Raise (e : exception).
Arguments Return {A} a.
Arguments Raise {A} e.

(** Sequencing: an exception ends the call. *)
#[global] Instance result_bind : MBind result := λ A B k m,
  match m with
  | Return a => k a
  | Raise e => Raise e
  end.

(** [for x in xs: s = body x s], stopping at the first exception. *)
Fixpoint for_each {A S} (xs : list A) (body : A → S → result S) (s : S)
  : result S :=
  match xs with
  | [] => Return s
  | x :: xs' => s' ← body x s; for_each xs' body s'
  end.

(** [len]. *)
Definition len {A} (l : list A) : Z := Z.of_nat (length l).

(** [sum] of a list of integers. *)
Definition sum (l : list Z) : Z := foldl Z.add 0 l.

(** [a / b] on integers in exact arithmetic: the rational quotient,
    before CPython rounds it to binary64. *)
Definition truediv (a b : Z) : result Qc :=
  if b =? 0 then Raise ZeroDivisionError
  else Return (Qc_of_Z a / Qc_of_Z b)%Qc.

(** An integer as the operand of a floating-point operation, not yet
    rounded: mantissa [|n|], exponent 0. *)
Definition operand (n : Z) : spec_float :=
  match n with
  | 0 => S754_zero false
  | Z.pos p => S754_finite false p 0
  | Z.neg p => S754_finite true p 0
  end.

(** [a / b] on integers as CPython evaluates it: the quotient of the
    two integers rounded once to the nearest binary64, ties to even;
    [OverflowError] when it rounds beyond the largest binary64. *)
Definition truediv_float (a b : Z) : result spec_float :=
  if b =? 0 then Raise ZeroDivisionError
  else match SFdiv 53 1024 (operand a) (operand b) with
       | S754_infinity _ => Raise OverflowError
       | q => Return q
       end.

(** [max(xs, key=...)]: the first element whose key no later element
    exceeds; [gt y m] is the test [key(y) > key(m)].  An empty
    argument raises [ValueError]. *)
Definition max_by {A} (gt : A → A → bool) (xs : list A) : result A :=
  match xs with
  | [] => Raise ValueError
  | x :: xs' => Return (foldl (fun m y => if gt y m then y else m) x xs')
  end.

(** Stable insertion of [x] behind every element that is not greater. *)
Fixpoint insert_sorted {A} (lt : A → A → bool) (x : A) (l : list A)
  : list A :=
  match l with
  | [] => [x]
  | y :: l' => if lt x y then x :: y :: l' else y :: insert_sorted lt x l'
  end.

(** The stable ascending sort behind [sorted] and [list.sort]; [lt] is
    the only comparison the sort uses. *)
Definition sort_asc {A} (lt : A → A → bool) (l : list A) : list A :=
  foldl (fun acc x => insert_sorted lt x acc) [] l.

(** [sorted(l, reverse=r)] and [l.sort(reverse=r)]: with [reverse=True]
    CPython reverses the list, sorts it ascending and reverses it
    again, which keeps equal elements in their original order. *)
Definition sorted {A} (lt : A → A → bool) (reverse : bool) (l : list A)
  : list A :=
  if reverse then rev (sort_asc lt (rev l)) else sort_asc lt l.

(** [l[:n]]: a negative [n] counts from the end. *)
Definition slice_to {A} (l : list A) (n : Z) : list A :=
  if n <? 0 then take (Z.to_nat (len l + n)) l else take (Z.to_nat n) l.

(** [d[k]] on a [dict]. *)
Definition getitem `{Countable K} {V} (d : gmap K V) (k : K) : result V :=
  match d !! k with
  | Some v => Return v
  | None => Raise KeyError
  end.

(** [d[k]] on a [defaultdict] whose factory returns [dflt]. *)
Definition getitem_default `{Countable K} {V} (dflt : V) (d : gmap K V)
    (k : K) : V :=
  default dflt (d !! k).

(** [d.items()], in some order. *)
Definition items `{Countable K} {V} (d : gmap K V) : list (K * V) :=
  map_to_list d.

(** [Counter(xs)]. *)
Definition Counter `{Countable K} (xs : list K) : gmap K Z :=
  foldl (λ c x, <[x := getitem_default 0 c x + 1]> c) ∅ xs.

(** Comparison of two tuples of integers, field by field. *)
Fixpoint cmp_fields (xs ys : list Z) : comparison :=
  match xs, ys with
  | [], [] => Eq
  | [], _ :: _ => Lt
  | _ :: _, [] => Gt
  | x :: xs', y :: ys' =>
      match x ?= y with
      | Eq => cmp_fields xs' ys'
      | c => c
      end
  end.

(** A byte [10xxxxxx], which continues a code point. *)
Definition is_continuation (c : ascii) : bool :=
  let n := nat_of_ascii c in (128 <=? n)%nat && (n <? 192)%nat.

(** [len(s)] on strings: the number of code points, one for each byte
    that does not continue one. *)
Fixpoint len_str (s : string) : Z :=
  match s with
  | EmptyString => 0
  | String c s' => (if is_continuation c then 0 else 1) + len_str s'
  end.

Fixpoint prefixb (p s : string) : bool :=
  match p, s with
  | EmptyString, _ => true
  | String _ _, EmptyString => false
  | String a p', String b s' => Ascii.eqb a b && prefixb p' s'
  end.

(** [p in s] on strings: an encoding occurs in another one only at
    the boundaries of code points. *)
Fixpoint contains (p s : string) : bool :=
  prefixb p s ||
  match s with
  | EmptyString => false
  | String _ s' => contains p s'
  end.

End Py.
Import Py.

(** ** [datetime] and [date] *)

Record date : Set := mk_date { dyear : Z; dmonth : Z; dday : Z }.

Record datetime : Set := mk_datetime {
  year : Z; month : Z; day : Z;
  hour : Z; minute : Z; second : Z; microsecond : Z
}.

(** [dt.date()]. *)
Definition date_of (dt : datetime) : date :=
  mk_date (year dt) (month dt) (day dt).

Definition date_fields (d : date) : list Z := [dyear d; dmonth d; dday d].

Definition datetime_fields (dt : datetime) : list Z :=
  [year dt; month dt; day dt; hour dt; minute dt; second dt; microsecond dt].

Definition date_cmp (a b : date) : comparison :=
  cmp_fields (date_fields a) (date_fields b).

Definition datetime_cmp (a b : datetime) : comparison :=
  cmp_fields (datetime_fields a) (datetime_fields b).

(** [a <= b] on dates. *)
Definition date_le (a b : date) : bool :=
  match date_cmp a b with Gt => false | _ => true end.

(** [a < b] and [a > b] on datetimes. *)
Definition datetime_lt (a b : datetime) : bool :=
  match datetime_cmp a b with Lt => true | _ => false end.

Definition datetime_gt (a b : datetime) : bool := datetime_lt b a.

(** [datetime._is_leap]. *)
Definition is_leap (y : Z) : bool :=
  (y mod 4 =? 0) && (negb (y mod 100 =? 0) || (y mod 400 =? 0)).

(** [datetime._days_before_year]. *)
Definition days_before_year (y : Z) : Z :=
  let y' := y - 1 in y' * 365 + y' / 4 - y' / 100 + y' / 400.

(** [datetime._DAYS_BEFORE_MONTH], index 0 unused. *)
Definition DAYS_BEFORE_MONTH : list Z :=
  [-1; 0; 31; 59; 90; 120; 151; 181; 212; 243; 273; 304; 334].

(** [datetime._days_before_month]. *)
Definition days_before_month (y m : Z) : Z :=
  nth (Z.to_nat m) DAYS_BEFORE_MONTH 0
  + (if (2 <? m) && is_leap y then 1 else 0).

(** [date.toordinal]. *)
Definition toordinal (d : date) : Z :=
  days_before_year (dyear d) + days_before_month (dyear d) (dmonth d) + dday d.

(** [(a - b).days] on dates. *)
Definition days_between (a b : date) : Z := toordinal a - toordinal b.

#[global] Instance date_eq_dec : EqDecision date.
Proof. solve_decision. Defined.

#[global] Instance datetime_eq_dec : EqDecision datetime.
Proof. solve_decision. Defined.

#[global] Instance date_countable : Countable date :=
  inj_countable' (λ d, (dyear d, dmonth d, dday d))
                 (λ t, mk_date t.1.1 t.1.2 t.2)
                 (λ d, match d with mk_date _ _ _ => eq_refl end).

#[global] Instance datetime_countable : Countable datetime :=
  inj_countable'
    (λ t, (year t, month t, day t, hour t, minute t, second t, microsecond t))
    (λ p, mk_datetime p.1.1.1.1.1.1 p.1.1.1.1.1.2 p.1.1.1.1.2 p.1.1.1.2
                      p.1.1.2 p.1.2 p.2)
    (λ t, match t with mk_datetime _ _ _ _ _ _ _ => eq_refl end).

(** ** Comparisons of the built-in types *)

(** [a > b] on strings. *)
Definition str_gt (a b : string) : bool :=
  match String.compare a b with Gt => true | _ => false end.

(** [a < b] on strings. *)
Definition str_lt (a b : string) : bool :=
  match String.compare a b with Lt => true | _ => false end.

(** [a > b] on tuples [(int, str)]: the first differing component
    decides. *)
Definition tuple_gt (a b : Z * string) : bool :=
  if negb (a.1 =? b.1) then a.1 >? b.1
  else if negb (bool_decide (a.2 = b.2)) then str_gt a.2 b.2
  else false.

(** The default [radio=0.5] as a binary64 value. *)
Definition radio_por_defecto : spec_float :=
  S754_finite false 4503599627370496 (-53).

(** The default [n=3]. *)
Definition n_por_defecto : Z := 3.

(** ** The sightings and the queries *)

Section Model.

Context {Coordenadas : Type} `{Countable Coordenadas}.

(** [a < b] on [Coordenadas] and [distancia(a, b)], both from the
    module [coordenadas]. *)
Variable Coordenadas_lt : Coordenadas → Coordenadas → bool.
Variable distancia : Coordenadas → Coordenadas → spec_float.

(** [s.lower()], the case mapping of the interpreter's Unicode
    database on the encoded string; the statements hold for every
    function in its place. *)
Variable lower : string → string.

Record Avistamiento : Type := mk_Avistamiento {
  fechahora : datetime;
  ciudad : string;
  estado : string;
  forma : string;
  duracion : Z;
  comentarios : string;
  ubicacion : Coordenadas
}.

#[global] Instance Avistamiento_eq_dec : EqDecision Avistamiento.
Proof. solve_decision. Defined.

#[global] Instance Avistamiento_countable : Countable Avistamiento :=
  inj_countable'
    (λ a, (fechahora a, ciudad a, estado a, forma a, duracion a,
           comentarios a, ubicacion a))
    (λ p, mk_Avistamiento p.1.1.1.1.1.1 p.1.1.1.1.1.2 p.1.1.1.1.2
                          p.1.1.1.2 p.1.1.2 p.1.2 p.2)
    (λ a, match a with mk_Avistamiento _ _ _ _ _ _ _ => eq_refl end).

(** [a < b] on the named tuples: the first differing field decides. *)
Definition Avistamiento_lt (a b : Avistamiento) : bool :=
  if negb (bool_decide (fechahora a = fechahora b))
  then datetime_lt (fechahora a) (fechahora b)
  else if negb (bool_decide (ciudad a = ciudad b))
  then str_lt (ciudad a) (ciudad b)
  else if negb (bool_decide (estado a = estado b))
  then str_lt (estado a) (estado b)
  else if negb (bool_decide (forma a = forma b))
  then str_lt (forma a) (forma b)
  else if negb (duracion a =? duracion b)
  then duracion a <? duracion b
  else if negb (bool_decide (comentarios a = comentarios b))
  then str_lt (comentarios a) (comentarios b)
  else if negb (bool_decide (ubicacion a = ubicacion b))
  then Coordenadas_lt (ubicacion a) (ubicacion b)
  else false.

(** *** 2.4 Sightings near a location *)

Definition avistamientos_cercanos_ubicacion
    (avistamientos : list Avistamiento) (ubic : Coordenadas)
    (radio : spec_float) : gset Avistamiento :=
  foldl (λ res a,
           if SFltb (distancia (ubicacion a) ubic) radio
           then {[a]} ∪ res else res)
        ∅ avistamientos.

Definition avistamientos_cercanos_ubicacion2
    (avistamientos : list Avistamiento) (ubic : Coordenadas)
    (radio : spec_float) : gset Avistamiento :=
  list_to_set
    (filter (λ a, SFltb (distancia (ubicacion a) ubic) radio = true)
            avistamientos).

(** *** 3.1 Longest sighting of a shape *)

Definition avistamiento_mayor_duracion
    (avistamientos : list Avistamiento) (f : string)
    : result Avistamiento :=
  let avistamientos_forma :=
    foldl (λ acc a, if bool_decide (forma a = f) then acc ++ [a] else acc)
          [] avistamientos in
  max_by (λ y m, duracion y >? duracion m) avistamientos_forma.

Definition avistamiento_mayor_duracion2
    (avistamientos : list Avistamiento) (f : string)
    : result Avistamiento :=
  max_by (λ y m, duracion y >? duracion m)
         (filter (λ a, forma a = f) avistamientos).

(** *** 3.2 Longest sighting near a point *)

Definition avistamiento_cercano_mayor_duracion
    (avistamientos : list Avistamiento) (coordenadas : Coordenadas)
    (radio : spec_float) : result (option (Z * string)) :=
  let cercanos :=
    avistamientos_cercanos_ubicacion avistamientos coordenadas radio in
  if 0 <? Z.of_nat (size cercanos)
  then
    r ← max_by tuple_gt
          ((λ a, (duracion a, comentarios a)) <$> elements cercanos);
    Return (Some r)
  else Return None.

(** *** 3.3 Sightings between two dates *)

(** [a >= b] on dates. *)
Definition date_ge (a b : date) : bool :=
  match date_cmp a b with Lt => false | _ => true end.

Definition en_rango (fecha_inicial fecha_final : option date)
    (a : Avistamiento) : bool :=
  match fecha_inicial with
  | None => true
  | Some fi => date_le fi (date_of (fechahora a))
  end
  &&
  match fecha_final with
  | None => true
  | Some ff => date_ge ff (date_of (fechahora a))
  end.

Definition avistamientos_fechas
    (avistamientos : list Avistamiento)
    (fecha_inicial fecha_final : option date) : list Avistamiento :=
  let avistamientos_fechas :=
    foldl (λ acc a,
             if en_rango fecha_inicial fecha_final a
             then acc ++ [a] else acc)
          [] avistamientos in
  sorted (λ a b, datetime_lt (fechahora a) (fechahora b)) true
         avistamientos_fechas.

(** *** 3.4 Longest comment of a year *)

Definition comentario_mas_largo
    (avistamientos : list Avistamiento) (anyo : Z) (palabra : string)
    : result Avistamiento :=
  let avistamientos_filtrado :=
    foldl (λ acc a,
             if (year (fechahora a) =? anyo)
                && contains (lower palabra) (lower (comentarios a))
             then acc ++ [a] else acc)
          [] avistamientos in
  max_by (λ y m, len_str (comentarios y) >? len_str (comentarios m))
         avistamientos_filtrado.

(** *** 3.5 Mean number of days between consecutive sightings *)

Definition media_dias_entre_avistamientos
    (avistamientos : list Avistamiento) (anyo : option Z)
    : result (option spec_float) :=
  let avistamientos_anyo :=
    match anyo with
    | None => avistamientos
    | Some y => filter (λ a, year (fechahora a) = y) avistamientos
    end in
  let avistamientos_anyo := sorted Avistamiento_lt false avistamientos_anyo in
  let dias :=
    foldl (λ dias p,
             dias ++ [days_between (date_of (fechahora p.2))
                                    (date_of (fechahora p.1))])
          [] (zip avistamientos_anyo (drop 1 avistamientos_anyo)) in
  if 0 <? len dias
  then q ← truediv_float (sum dias) (len dias); Return (Some q)
  else Return None.

(** *** 4.1 Sightings by date *)

Definition avistamientos_por_fecha (avistamientos : list Avistamiento)
    : result (gmap date (gset Avistamiento)) :=
  for_each avistamientos
    (λ a res,
       let d := date_of (fechahora a) in
       let res := if bool_decide (res !! d = None)
                  then <[d := ∅]> res else res in
       s ← getitem res d;
       Return (<[d := {[a]} ∪ s]> res))
    ∅.

(** *** 4.3 Number of sightings per year *)

Definition numero_avistamientos_por_año (avistamientos : list Avistamiento)
    : result (gmap Z Z) :=
  for_each avistamientos
    (λ a res,
       let y := year (fechahora a) in
       let res := if bool_decide (res !! y = None)
                  then <[y := 0]> res else res in
       c ← getitem res y;
       Return (<[y := c + 1]> res))
    ∅.

(** *** 4.7 Mean comment length per state *)

Definition longitud_media_comentarios_por_estado
    (avistamientos : list Avistamiento) : result (gmap string Qc) :=
  let longitudes_comentarios_por_estado :=
    foldl (λ d a,
             <[estado a := getitem_default [] d (estado a)
                           ++ [len_str (comentarios a)]]> d)
          (∅ : gmap string (list Z)) avistamientos in
  for_each (items longitudes_comentarios_por_estado)
    (λ '(estado, longitudes) res,
       q ← truediv (sum longitudes) (len longitudes);
       Return (<[estado := q]> res))
    ∅.

(** *** 4.8 Percentage of sightings per shape *)

Definition porc_avistamientos_por_forma (avistamientos : list Avistamiento)
    : result (gmap string Qc) :=
  let conteo_por_formas := Counter (forma <$> avistamientos) in
  let total_avistamientos := len avistamientos in
  for_each (items conteo_por_formas)
    (λ '(forma, conteo) res,
       q ← truediv (100 * conteo) total_avistamientos;
       Return (<[forma := q]> res))
    ∅.

(** *** 4.8 bis: the definition of the same name that takes a year *)

Definition porc_avistamientos_por_forma_bis
    (avistamientos : list Avistamiento) (año : Z)
    : result (gmap string Qc) :=
  let conteo_por_formas :=
    Counter (forma <$> filter (λ a, year (fechahora a) = año)
                              avistamientos) in
  let total_avistamientos := sum ((items conteo_por_formas).*2) in
  for_each (items conteo_por_formas)
    (λ '(forma, conteo) res,
       q ← truediv (100 * conteo) total_avistamientos;
       Return (<[forma := q]> res))
    ∅.

(** *** 4.9 Longest sightings per state *)

Definition avistamientos_mayor_duracion_por_estado
    (avistamientos : list Avistamiento) (n : Z)
    : gmap string (list Avistamiento) :=
  let avistamientos_por_estados :=
    foldl (λ d av,
             <[estado av := getitem_default [] d (estado av) ++ [av]]> d)
          (∅ : gmap string (list Avistamiento)) avistamientos in
  foldl (λ d '(estado, avistamientos_estado),
           let avistamientos_estado :=
             sorted (λ a b, duracion a <? duracion b) true
                    avistamientos_estado in
           <[estado := slice_to avistamientos_estado n]> d)
        avistamientos_por_estados (items avistamientos_por_estados).

(** *** 4.13 Most recent sighting per state

    The dictionary of lists is overwritten key by key with the
    timestamps, so its values are lists or timestamps. *)

Definition avistamiento_mas_reciente_por_estado
    (avistamientos : list Avistamiento)
    : result (gmap string (list Avistamiento + datetime)) :=
  let avistamientos_por_estados :=
    foldl (λ d av,
             <[estado av := getitem_default [] d (estado av) ++ [av]]> d)
          (∅ : gmap string (list Avistamiento)) avistamientos in
  for_each (items avistamientos_por_estados)
    (λ '(estado, avistamientos_estado) d,
       m ← max_by (λ y m, datetime_gt (fechahora y) (fechahora m))
                  avistamientos_estado;
       Return (<[estado := inr (fechahora m)]> d))
    (inl <$> avistamientos_por_estados).

End Model.

Arguments Avistamiento : clear implicits.
Arguments mk_Avistamiento {Coordenadas}.

(** ** Instances of the parameters for the examples *)

Module Coordenadas_ejemplo.

(** Modelled from the spec: [Coordenadas], a latitude and a longitude,
    both floating point (section 3; the module that declares the type
    is not part of the sources). *)
Record Coordenadas : Set := mk_Coordenadas {
  latitud : spec_float;
  longitud : spec_float
}.

#[global] Instance spec_float_eq_dec : EqDecision spec_float.
Proof. solve_decision. Defined.

#[global] Instance spec_float_countable : Countable spec_float :=
  inj_countable'
    (λ x, match x with
          | S754_zero s => inl (inl s)
          | S754_infinity s => inl (inr s)
          | S754_nan => inr (inl ())
          | S754_finite s m e => inr (inr (s, m, e))
          end)
    (λ y, match y with
          | inl (inl s) => S754_zero s
          | inl (inr s) => S754_infinity s
          | inr (inl _) => S754_nan
          | inr (inr (s, m, e)) => S754_finite s m e
          end)
    (λ x, match x with
          | S754_zero _ | S754_infinity _ | S754_nan
          | S754_finite _ _ _ => eq_refl
          end).

#[global] Instance Coordenadas_eq_dec : EqDecision Coordenadas.
Proof. solve_decision. Defined.

#[global] Instance Coordenadas_countable : Countable Coordenadas :=
  inj_countable' (λ c, (latitud c, longitud c))
                 (λ p, mk_Coordenadas p.1 p.2)
                 (λ c, match c with mk_Coordenadas _ _ => eq_refl end).

(** The binary64 value of an integer. *)
Definition float_of_Z (n : Z) : spec_float :=
  binary_normalize 53 1024 n 0 false.

(** Modelled from the spec: the planar metric of section 4.1, the
    Euclidean distance on raw latitude and longitude, in binary64. *)
Definition distancia (a b : Coordenadas) : spec_float :=
  let dlat := SFsub 53 1024 (latitud a) (latitud b) in
  let dlon := SFsub 53 1024 (longitud a) (longitud b) in
  SFsqrt 53 1024
    (SFadd 53 1024 (SFmul 53 1024 dlat dlat) (SFmul 53 1024 dlon dlon)).

(** [a < b] on the pair of floats. *)
Definition Coordenadas_lt (a b : Coordenadas) : bool :=
  if negb (SFeqb (latitud a) (latitud b))
  then SFltb (latitud a) (latitud b)
  else if negb (SFeqb (longitud a) (longitud b))
  then SFltb (longitud a) (longitud b)
  else false.

Definition en (lat lon : Z) : Coordenadas :=
  mk_Coordenadas (float_of_Z lat) (float_of_Z lon).

Definition el (y m d : Z) : datetime := mk_datetime y m d 21 30 0 0.

(** Three sightings, on 2020-01-01, 2020-01-10 and 2020-01-20. *)
Definition a1 : Avistamiento Coordenadas :=
  mk_Avistamiento (el 2020 1 1) "reno" "nv" "circle" 120
                  "bright light" (en 39 (-120)).
Definition a2 : Avistamiento Coordenadas :=
  mk_Avistamiento (el 2020 1 10) "fresno" "ca" "light" 300
                  "Orange LIGHT moving" (en 37 (-120)).
Definition a3 : Avistamiento Coordenadas :=
  mk_Avistamiento (el 2020 1 20) "davis" "ca" "light" 300
                  "a light" (en 38 (-122)).

Definition ejemplo : list (Avistamiento Coordenadas) := [a1; a2; a3].

(** A sighting on day [d] of January 2020. *)
Definition visto (d : Z) : Avistamiento Coordenadas :=
  mk_Avistamiento (el 2020 1 d) "reno" "nv" "circle" 120
                  "bright light" (en 39 (-120)).

(** [str.lower] on text in ASCII, as the comments and the words of
    the examples are: [A]-[Z] become [a]-[z]. *)
Fixpoint lower_ascii (s : string) : string :=
  match s with
  | EmptyString => EmptyString
  | String c s' =>
      let n := nat_of_ascii c in
      String (if (65 <=? n)%nat && (n <=? 90)%nat
              then ascii_of_nat (n + 32) else c)
             (lower_ascii s')
  end.

End Coordenadas_ejemplo.

(** ** Vocabulary of the statements *)

(** [a <= b] on timestamps and on dates, as propositions. *)
Definition datetime_le (a b : datetime) : Prop := datetime_cmp a b ≠ Gt.
Definition date_leq (a b : date) : Prop := date_cmp a b ≠ Gt.

(** The lexicographic order on pairs [(duration, comments)]: duration
    first, then comments, both ascending. *)
Definition tuple_le (q p : Z * string) : Prop :=
  q.1 < p.1 ∨ (q.1 = p.1 ∧ String.compare q.2 p.2 ≠ Gt).

(** Day differences between neighbours of a list of dates. *)
Fixpoint gaps (ds : list date) : list Z :=
  match ds with
  | d1 :: (d2 :: _) as ds' => days_between d2 d1 :: gaps ds'
  | _ => []
  end.

(** Arithmetic mean of a list of integers, as an exact rational. *)
Definition mean (l : list Z) : Qc :=
  (Qc_of_Z (foldr Z.add 0%Z l) / Qc_of_Z (Z.of_nat (length l)))%Qc.

(** Sum of the values of a mapping to rationals. *)
Definition sum_values `{Countable K} (m : gmap K Qc) : Qc :=
  foldr Qcplus 0%Qc (map_to_list m).*2.

(** [a] may stand before [b] when the keys ascend, and when they
    descend; [klt] is [<] on the keys. *)
Definition asc {A K} (key : A → K) (klt : K → K → bool) (a b : A) : Prop :=
  klt (key b) (key a) = false.

Definition desc {A K} (key : A → K) (klt : K → K → bool) (a b : A) : Prop :=
  klt (key a) (key b) = false.

(** The records [comentario_mas_largo] chooses among: seen in the year
    [anyo], with [palabra] in the comments once [lower] has mapped
    both. *)
Definition elegible_comentario {C} (lower : string → string) (anyo : Z)
    (palabra : string) (a : Avistamiento C) : Prop :=
  year (fechahora a) = anyo
  ∧ contains (lower palabra) (lower (comentarios a)) = true.

(** The outcome of [sum(l) / len(l)]: the mean of the integers [l],
    rounded to binary64. *)
Definition mean_float (l : list Z) : result spec_float :=
  truediv_float (foldr Z.add 0%Z l) (Z.of_nat (length l)).

(** The rational that a finite binary64 value stands for. *)
Definition value_of (x : spec_float) : option Qc :=
  match x with
  | S754_zero _ => Some 0%Qc
  | S754_finite s m e =>
      let v := if 0 <=? e then inject_Z (Z.pos m * 2 ^ e)
               else (Z.pos m # Pos.pow 2 (Z.to_pos (- e)))%Q in
      Some (Q2Qc (if s then (- v)%Q else v))
  | _ => None
  end.

(** The date [d] lies in the inclusive range; [None] leaves a side open. *)
Definition dentro_de (fecha_inicial fecha_final : option date) (d : date)
    : Prop :=
  (∀ i, fecha_inicial = Some i → date_leq i d)
  ∧ (∀ f, fecha_final = Some f → date_leq d f).

(** ** The remaining queries

    [max] and [Counter.most_common] return the first entry of largest
    count in the order in which the keys were inserted, so the counters
    they read are kept as lists of pairs in insertion order. *)

Module Odict.

(** [d.get(k)]. *)
Fixpoint get {K V} `{EqDecision K} (d : list (K * V)) (k : K) : option V :=
  match d with
  | [] => None
  | (k', v) :: d' => if decide (k' = k) then Some v else get d' k
  end.

(** [d[k] = v]: a key that is present keeps its place, a new key goes
    to the end. *)
Fixpoint put {K V} `{EqDecision K} (d : list (K * V)) (k : K) (v : V)
  : list (K * V) :=
  match d with
  | [] => [(k, v)]
  | (k', v') :: d' =>
      if decide (k' = k) then (k', v) :: d' else (k', v') :: put d' k v
  end.

(** [Counter(xs).items()]. *)
Definition Counter_items {K} `{EqDecision K} (xs : list K) : list (K * Z) :=
  foldl (λ c x, put c x (default 0 (get c x) + 1)) [] xs.

(** [c.most_common(1)]: [heapq.nlargest(1, ...)] is [max] with a
    default. *)
Definition most_common_1 {K} (c : list (K * Z)) : list (K * Z) :=
  match max_by (λ y m, y.2 >? m.2) c with
  | Return t => [t]
  | Raise _ => []
  end.

End Odict.

(** Outcome of code whose only exception is that of indexing a list. *)
Inductive indexing (A : Type) : Type :=
| Indexed (a : A)
| IndexError.
Arguments Indexed {A} a.
Arguments IndexError {A}.

#[global] Instance indexing_bind : MBind indexing := λ A B k m,
  match m with
  | Indexed a => k a
  | IndexError => IndexError
  end.

(** [l[i]]: a negative index counts from the end. *)
Definition list_getitem {A} (l : list A) (i : Z) : indexing A :=
  let j := if i <? 0 then i + len l else i in
  if j <? 0 then IndexError
  else match l !! Z.to_nat j with
       | Some x => Indexed x
       | None => IndexError
       end.

(** [for x in xs: s = body x s], stopping at the first [IndexError]. *)
Fixpoint for_each_indexing {A S} (xs : list A) (body : A → S → indexing S)
    (s : S) : indexing S :=
  match xs with
  | [] => Indexed s
  | x :: xs' => s' ← body x s; for_each_indexing xs' body s'
  end.

(** The list [meses] of 4.2 and 4.4. *)
Definition meses : list string :=
  ["Enero"; "Febrero"; "Marzo"; "Abril"; "Mayo"; "Junio"; "Julio"; "Agosto";
   "Septiembre"; "Octubre"; "Noviembre"; "Diciembre"].

Section Model_more.

Context {Coordenadas : Type} `{Countable Coordenadas}.

(** *** 2.1 Number of sightings on a date *)

Definition numero_avistamientos_fecha
    (avistamientos : list (Avistamiento Coordenadas)) (fecha : date) : Z :=
  foldl (λ contador a,
           if bool_decide (date_of (fechahora a) = fecha)
           then contador + 1 else contador)
        0 avistamientos.

Definition numero_avistamientos_fecha2
    (avistamientos : list (Avistamiento Coordenadas)) (fecha : date) : Z :=
  len ((λ _, ()) <$> filter (λ a, date_of (fechahora a) = fecha)
                            avistamientos).

(** *** 2.2 Number of shapes seen in a set of states *)

Definition formas_estados
    (avistamientos : list (Avistamiento Coordenadas)) (estados : gset string)
    : Z :=
  let conjunto_formas : gset string :=
    foldl (λ s a, if bool_decide (estado a ∈ estados)
                  then {[forma a]} ∪ s else s)
          ∅ avistamientos in
  Z.of_nat (size conjunto_formas).

Definition formas_estados2
    (avistamientos : list (Avistamiento Coordenadas)) (estados : gset string)
    : Z :=
  Z.of_nat (size (list_to_set
                    (forma <$> filter (λ a, estado a ∈ estados)
                                      avistamientos) : gset string)).

(** *** 2.3 Total duration of the sightings of a state *)

Definition duracion_total
    (avistamientos : list (Avistamiento Coordenadas)) (e : string) : Z :=
  foldl (λ d a, if bool_decide (estado a = e) then d + duracion a else d)
        0 avistamientos.

Definition duracion_total2
    (avistamientos : list (Avistamiento Coordenadas)) (e : string) : Z :=
  sum (duracion <$> filter (λ a, estado a = e) avistamientos).

(** *** 4.1 with [defaultdict] *)

Definition avistamientos_por_fecha2
    (avistamientos : list (Avistamiento Coordenadas))
    : gmap date (gset (Avistamiento Coordenadas)) :=
  foldl (λ res a,
           <[date_of (fechahora a)
               := {[a]} ∪ getitem_default ∅ res (date_of (fechahora a))]> res)
        ∅ avistamientos.

(** *** 4.2 Shapes per month *)

Definition formas_por_mes (avistamientos : list (Avistamiento Coordenadas))
    : indexing (gmap string (gset string)) :=
  for_each_indexing avistamientos
    (λ a res,
       mes ← list_getitem meses (month (fechahora a) - 1);
       Indexed (<[mes := {[forma a]} ∪ getitem_default ∅ res mes]> res))
    ∅.

(** *** 4.3 with [Counter] and with [defaultdict] *)

Definition numero_avistamientos_por_año2
    (avistamientos : list (Avistamiento Coordenadas)) : gmap Z Z :=
  Counter ((λ a, year (fechahora a)) <$> avistamientos).

Definition numero_avistamientos_por_año3
    (avistamientos : list (Avistamiento Coordenadas)) : gmap Z Z :=
  foldl (λ res a,
           <[year (fechahora a)
               := getitem_default 0 res (year (fechahora a)) + 1]> res)
        ∅ avistamientos.

(** *** 4.4 Number of sightings per month of the year *)

Definition num_avistamientos_por_mes
    (avistamientos : list (Avistamiento Coordenadas))
    : indexing (gmap string Z) :=
  for_each_indexing avistamientos
    (λ av res,
       clave ← list_getitem meses (month (fechahora av) - 1);
       Indexed (<[clave := getitem_default 0 res clave + 1]> res))
    ∅.

(** *** 4.5 State with the most sightings *)

Definition estado_mas_avistamientos
    (avistamientos : list (Avistamiento Coordenadas)) : result string :=
  let conteo_por_estado := Odict.Counter_items (estado <$> avistamientos) in
  t ← max_by (λ y m, y.2 >? m.2) conteo_por_estado;
  Return t.1.

(** *** 4.6 Hour of the day with the most sightings *)

Definition hora_mas_avistamientos
    (avistamientos : list (Avistamiento Coordenadas)) : indexing Z :=
  let c := Odict.Counter_items ((λ a, hour (fechahora a)) <$> avistamientos) in
  t ← list_getitem (Odict.most_common_1 c) 0;
  Indexed t.1.

End Model_more.

(** Name of the month of number [m], for [m] from 1 to 12. *)
Definition nombre_mes (m : Z) : string :=
  default "" (meses !! Z.to_nat (m - 1)).

(** The distinct elements of [xs] in the order of their first
    occurrence. *)
Definition first_occ {K} `{EqDecision K} (xs : list K) : list K :=
  foldl (λ acc x, if decide (x ∈ acc) then acc else acc ++ [x]) [] xs.

(** Number of occurrences of [k] in [xs]. *)
Definition count_of {K} `{EqDecision K} (k : K) (xs : list K) : Z :=
  len (filter (λ x, x = k) xs).

(** ** Lists as objects

    The queries above take the records as a value.  In Python the
    argument is a reference to a list object that [append] and [sort]
    change in place and that an assignment aliases.  Every query is
    embedded once more over a heap of list objects: a command maps a
    heap to a result and a heap, or to [None] when it reads a reference
    that is not allocated or holds a list of another kind, or when a loop
    runs out of fuel.  Sets, dictionaries and counters cannot be the
    list passed in and stay values. *)

Module Heap.

(** References are positive numbers. *)
Abbreviation loc := positive.

(** A list object holds records, integers or [None]s. *)
Inductive object (A : Type) : Type :=
| Records (l : list A)
| Integers (l : list Z)
| Nones (l : list unit).
Arguments Records {A} l.
Arguments Integers {A} l.
Arguments Nones {A} l.

(** A heap maps the allocated references to their objects. *)
Abbreviation heap A := (gmap loc (object A)).

Definition cmd (A X : Type) : Type := heap A → option (X * heap A).

#[global] Instance cmd_ret {A} : MRet (cmd A) := λ X x h, Some (x, h).

#[global] Instance cmd_bind {A} : MBind (cmd A) := λ X Y k m h,
  match m h with
  | Some (x, h') => k x h'
  | None => None
  end.

(** A new list object with the records [l]. *)
Definition new_list {A} (l : list A) : cmd A loc := λ h,
  let r := fresh (dom h) in Some (r, <[r := Records l]> h).

(** [[]], for integers and for [None]s. *)
Definition new_integers {A} : cmd A loc := λ h,
  let r := fresh (dom h) in Some (r, <[r := Integers []]> h).

Definition new_nones {A} : cmd A loc := λ h,
  let r := fresh (dom h) in Some (r, <[r := Nones []]> h).

(** The elements of the object [r]. *)
Definition read {A} (r : loc) : cmd A (list A) := λ h,
  match h !! r with
  | Some (Records l) => Some (l, h)
  | _ => None
  end.

Definition read_integers {A} (r : loc) : cmd A (list Z) := λ h,
  match h !! r with
  | Some (Integers l) => Some (l, h)
  | _ => None
  end.

Definition read_nones {A} (r : loc) : cmd A (list unit) := λ h,
  match h !! r with
  | Some (Nones l) => Some (l, h)
  | _ => None
  end.

(** [r.append(x)]. *)
Definition append {A} (r : loc) (x : A) : cmd A unit := λ h,
  match h !! r with
  | Some (Records l) => Some ((), <[r := Records (l ++ [x])]> h)
  | _ => None
  end.

Definition append_integer {A} (r : loc) (n : Z) : cmd A unit := λ h,
  match h !! r with
  | Some (Integers l) => Some ((), <[r := Integers (l ++ [n])]> h)
  | _ => None
  end.

Definition append_none {A} (r : loc) : cmd A unit := λ h,
  match h !! r with
  | Some (Nones l) => Some ((), <[r := Nones (l ++ [()])]> h)
  | _ => None
  end.

(** [r.sort(key=..., reverse=...)], in place. *)
Definition sort_in_place {A} (lt : A → A → bool) (reverse : bool) (r : loc)
    : cmd A unit := λ h,
  match h !! r with
  | Some (Records l) => Some ((), <[r := Records (sorted lt reverse l)]> h)
  | _ => None
  end.

(** [sorted(r)]: a new list object. *)
Definition sorted_copy {A} (lt : A → A → bool) (reverse : bool) (r : loc)
    : cmd A loc :=
  l ← read r; new_list (sorted lt reverse l).

(** [r[:n]]: a new list object. *)
Definition slice_to_copy {A} (r : loc) (n : Z) : cmd A loc :=
  l ← read r; new_list (slice_to l n).

(** [r[1:]]: a new list object. *)
Definition slice_from_1_copy {A} (r : loc) : cmd A loc :=
  l ← read r; new_list (drop 1 l).

(** [for x in r: s = body x s].  The iterator holds the reference and
    an index, and reads the object anew at every step. *)
Fixpoint for_from {A S} (fuel : nat) (r : loc) (i : nat)
    (body : A → S → cmd A S) (s : S) : cmd A S := λ h,
  match fuel with
  | O => None
  | Datatypes.S fuel' =>
      match h !! r with
      | Some (Records l) =>
          match l !! i with
          | None => Some (s, h)
          | Some x =>
              match body x s h with
              | Some (s', h') => for_from fuel' r (Datatypes.S i) body s' h'
              | None => None
              end
          end
      | _ => None
      end
  end.

Definition for_in {A S} (fuel : nat) (r : loc) (body : A → S → cmd A S)
    (s : S) : cmd A S :=
  for_from fuel r 0 body s.

(** The same loop with a body that may raise: the exception ends the
    loop and is the outcome. *)
Fixpoint for_from_result {A S} (fuel : nat) (r : loc) (i : nat)
    (body : A → S → cmd A (result S)) (s : S) : cmd A (result S) := λ h,
  match fuel with
  | O => None
  | Datatypes.S fuel' =>
      match h !! r with
      | Some (Records l) =>
          match l !! i with
          | None => Some (Return s, h)
          | Some x =>
              match body x s h with
              | Some (Return s', h') =>
                  for_from_result fuel' r (Datatypes.S i) body s' h'
              | Some (Raise e, h') => Some (Raise e, h')
              | None => None
              end
          end
      | _ => None
      end
  end.

Definition for_in_result {A S} (fuel : nat) (r : loc)
    (body : A → S → cmd A (result S)) (s : S) : cmd A (result S) :=
  for_from_result fuel r 0 body s.

(** The same loop with a body that may fail with [IndexError]. *)
Fixpoint for_from_indexing {A S} (fuel : nat) (r : loc) (i : nat)
    (body : A → S → cmd A (indexing S)) (s : S) : cmd A (indexing S) := λ h,
  match fuel with
  | O => None
  | Datatypes.S fuel' =>
      match h !! r with
      | Some (Records l) =>
          match l !! i with
          | None => Some (Indexed s, h)
          | Some x =>
              match body x s h with
              | Some (Indexed s', h') =>
                  for_from_indexing fuel' r (Datatypes.S i) body s' h'
              | Some (IndexError, h') => Some (IndexError, h')
              | None => None
              end
          end
      | _ => None
      end
  end.

Definition for_in_indexing {A S} (fuel : nat) (r : loc)
    (body : A → S → cmd A (indexing S)) (s : S) : cmd A (indexing S) :=
  for_from_indexing fuel r 0 body s.

(** [for x, y in zip(r1, r2): s = body x y s]. *)
Fixpoint for_zip_from {A S} (fuel : nat) (r1 r2 : loc) (i : nat)
    (body : A → A → S → cmd A S) (s : S) : cmd A S := λ h,
  match fuel with
  | O => None
  | Datatypes.S fuel' =>
      match h !! r1, h !! r2 with
      | Some (Records l1), Some (Records l2) =>
          match l1 !! i, l2 !! i with
          | Some x, Some y =>
              match body x y s h with
              | Some (s', h') =>
                  for_zip_from fuel' r1 r2 (Datatypes.S i) body s' h'
              | None => None
              end
          | _, _ => Some (s, h)
          end
      | _, _ => None
      end
  end.

Definition for_zip {A S} (fuel : nat) (r1 r2 : loc)
    (body : A → A → S → cmd A S) (s : S) : cmd A S :=
  for_zip_from fuel r1 r2 0 body s.

(** [for x in xs: s = body x s] over the pairs of a dictionary. *)
Fixpoint for_items {A B S} (xs : list B) (body : B → S → cmd A S) (s : S)
    : cmd A S :=
  match xs with
  | [] => mret s
  | x :: xs' => s' ← body x s; for_items xs' body s'
  end.

(** The same loop with a body that may raise. *)
Fixpoint for_items_result {A B S} (xs : list B)
    (body : B → S → cmd A (result S)) (s : S) : cmd A (result S) := λ h,
  match xs with
  | [] => Some (Return s, h)
  | x :: xs' =>
      match body x s h with
      | Some (Return s', h') => for_items_result xs' body s' h'
      | Some (Raise e, h') => Some (Raise e, h')
      | None => None
      end
  end.

(** The records of the object [r], when it holds records. *)
Definition records_at {A} (h : heap A) (r : loc) : option (list A) :=
  match h !! r with
  | Some (Records l) => Some l
  | _ => None
  end.

(** The heap [h'] keeps every object of [h] as it was. *)
Definition preserves {A} (h h' : heap A) : Prop :=
  ∀ r o, h !! r = Some o → h' !! r = Some o.

End Heap.

Section Model_heap.

Import Heap.

Context {Coordenadas : Type} `{Countable Coordenadas}.
Variable Coordenadas_lt : Coordenadas → Coordenadas → bool.
Variable distancia : Coordenadas → Coordenadas → spec_float.
Variable lower : string → string.

Let Av : Type := Avistamiento Coordenadas.

(** In each query [avistamientos] is the reference passed in. *)

(** *** 2.1 *)

Definition numero_avistamientos_fecha_heap (fuel : nat)
    (avistamientos : loc) (fecha : date) : cmd Av Z :=
  for_in fuel avistamientos
    (λ a contador,
       mret (if bool_decide (date_of (fechahora a) = fecha)
             then contador + 1 else contador))
    0.

(** The comprehension builds a list of [None]s. *)
Definition numero_avistamientos_fecha2_heap (fuel : nat)
    (avistamientos : loc) (fecha : date) : cmd Av Z :=
  nones ← new_nones;
  _ ← for_in fuel avistamientos
        (λ a (_ : unit),
           if bool_decide (date_of (fechahora a) = fecha)
           then append_none nones
           else mret ())
        ();
  l ← read_nones nones;
  mret (len l).

(** *** 2.2 *)

Definition formas_estados_heap (fuel : nat) (avistamientos : loc)
    (estados : gset string) : cmd Av Z :=
  conjunto_formas ←
    for_in fuel avistamientos
      (λ a (conjunto_formas : gset string),
         mret (if bool_decide (estado a ∈ estados)
               then {[forma a]} ∪ conjunto_formas else conjunto_formas))
      ∅;
  mret (Z.of_nat (size conjunto_formas)).

(** The set comprehension runs the same loop. *)
Definition formas_estados2_heap (fuel : nat) (avistamientos : loc)
    (estados : gset string) : cmd Av Z :=
  formas ←
    for_in fuel avistamientos
      (λ a (formas : gset string),
         mret (if bool_decide (estado a ∈ estados)
               then {[forma a]} ∪ formas else formas))
      ∅;
  mret (Z.of_nat (size formas)).

(** *** 2.3 *)

Definition duracion_total_heap (fuel : nat) (avistamientos : loc)
    (e : string) : cmd Av Z :=
  for_in fuel avistamientos
    (λ a duracion_,
       mret (if bool_decide (estado a = e)
             then duracion_ + duracion a else duracion_))
    0.

(** [sum] adds up what the generator yields, one record at a time. *)
Definition duracion_total2_heap (fuel : nat) (avistamientos : loc)
    (e : string) : cmd Av Z :=
  for_in fuel avistamientos
    (λ a total,
       mret (if bool_decide (estado a = e)
             then total + duracion a else total))
    0.

(** *** 2.4 *)

Definition avistamientos_cercanos_ubicacion_heap (fuel : nat)
    (avistamientos : loc) (ubic : Coordenadas) (radio : spec_float)
    : cmd Av (gset Av) :=
  for_in fuel avistamientos
    (λ a (res : gset Av),
       mret (if SFltb (distancia (ubicacion a) ubic) radio
             then {[a]} ∪ res else res))
    ∅.

Definition avistamientos_cercanos_ubicacion2_heap (fuel : nat)
    (avistamientos : loc) (ubic : Coordenadas) (radio : spec_float)
    : cmd Av (gset Av) :=
  for_in fuel avistamientos
    (λ a (res : gset Av),
       mret (if SFltb (distancia (ubicacion a) ubic) radio
             then {[a]} ∪ res else res))
    ∅.

(** *** 3.1 *)

Definition avistamiento_mayor_duracion_heap (fuel : nat)
    (avistamientos : loc) (f : string) : cmd Av (result Av) :=
  avistamientos_forma ← new_list [];
  _ ← for_in fuel avistamientos
        (λ a (_ : unit),
           if bool_decide (forma a = f)
           then append avistamientos_forma a
           else mret ())
        ();
  l ← read avistamientos_forma;
  mret (max_by (λ y m, duracion y >? duracion m) l).

(** [max] consumes the generator, which is no list object: the
    records it yields are kept as a value. *)
Definition avistamiento_mayor_duracion2_heap (fuel : nat)
    (avistamientos : loc) (f : string) : cmd Av (result Av) :=
  yielded ←
    for_in fuel avistamientos
      (λ a (yielded : list Av),
         mret (if bool_decide (forma a = f)
               then yielded ++ [a] else yielded))
      [];
  mret (max_by (λ y m, duracion y >? duracion m) yielded).

(** *** 3.2 *)

Definition avistamiento_cercano_mayor_duracion_heap (fuel : nat)
    (avistamientos : loc) (coordenadas : Coordenadas) (radio : spec_float)
    : cmd Av (result (option (Z * string))) :=
  cercanos ←
    avistamientos_cercanos_ubicacion_heap fuel avistamientos coordenadas
      radio;
  mret (if 0 <? Z.of_nat (size cercanos)
        then
          r ← max_by tuple_gt
                ((λ a, (duracion a, comentarios a)) <$> elements cercanos);
          Return (Some r)
        else Return None).

(** *** 3.3 *)

Definition avistamientos_fechas_heap (fuel : nat) (avistamientos : loc)
    (fecha_inicial fecha_final : option date) : cmd Av loc :=
  avistamientos_fechas ← new_list [];
  _ ← for_in fuel avistamientos
        (λ a (_ : unit),
           if en_rango fecha_inicial fecha_final a
           then append avistamientos_fechas a
           else mret ())
        ();
  _ ← sort_in_place (λ a b, datetime_lt (fechahora a) (fechahora b)) true
        avistamientos_fechas;
  mret avistamientos_fechas.

(** *** 3.4 *)

Definition comentario_mas_largo_heap (fuel : nat) (avistamientos : loc)
    (anyo : Z) (palabra : string) : cmd Av (result Av) :=
  avistamientos_filtrado ← new_list [];
  _ ← for_in fuel avistamientos
        (λ a (_ : unit),
           if (year (fechahora a) =? anyo)
              && contains (lower palabra) (lower (comentarios a))
           then append avistamientos_filtrado a
           else mret ())
        ();
  l ← read avistamientos_filtrado;
  mret (max_by (λ y m, len_str (comentarios y) >? len_str (comentarios m))
               l).

(** *** 3.5

    Without a year [avistamientos_anyo] is the argument itself. *)

Definition media_dias_entre_avistamientos_heap (fuel : nat)
    (avistamientos : loc) (anyo : option Z)
    : cmd Av (result (option spec_float)) :=
  avistamientos_anyo ←
    match anyo with
    | None => mret avistamientos
    | Some y =>
        r ← new_list [];
        _ ← for_in fuel avistamientos
              (λ a (_ : unit),
                 if bool_decide (year (fechahora a) = y)
                 then append r a else mret ())
              ();
        mret r
    end;
  avistamientos_anyo ←
    sorted_copy (Avistamiento_lt Coordenadas_lt) false avistamientos_anyo;
  dias ← new_integers;
  cola ← slice_from_1_copy avistamientos_anyo;
  _ ← for_zip fuel avistamientos_anyo cola
        (λ a1 a2 (_ : unit),
           append_integer dias
             (days_between (date_of (fechahora a2))
                           (date_of (fechahora a1))))
        ();
  dias ← read_integers dias;
  mret (if 0 <? len dias
        then q ← truediv_float (sum dias) (len dias); Return (Some q)
        else Return None).

(** *** 4.1 *)

Definition avistamientos_por_fecha_heap (fuel : nat) (avistamientos : loc)
    : cmd Av (result (gmap date (gset Av))) :=
  for_in_result fuel avistamientos
    (λ a res,
       mret (let d := date_of (fechahora a) in
             let res := if bool_decide (res !! d = None)
                        then <[d := ∅]> res else res in
             s ← getitem res d;
             Return (<[d := {[a]} ∪ s]> res)))
    ∅.

Definition avistamientos_por_fecha2_heap (fuel : nat) (avistamientos : loc)
    : cmd Av (gmap date (gset Av)) :=
  for_in fuel avistamientos
    (λ a res,
       mret (<[date_of (fechahora a)
                 := {[a]} ∪ getitem_default ∅ res (date_of (fechahora a))]>
               res))
    ∅.

(** *** 4.2 *)

Definition formas_por_mes_heap (fuel : nat) (avistamientos : loc)
    : cmd Av (indexing (gmap string (gset string))) :=
  for_in_indexing fuel avistamientos
    (λ a res,
       mret (mes ← list_getitem meses (month (fechahora a) - 1);
             Indexed (<[mes := {[forma a]} ∪ getitem_default ∅ res mes]>
                        res)))
    ∅.

(** The body of [formas_por_mes2] sets the locale and is [pass]. *)
Definition formas_por_mes2_heap (avistamientos : loc) : cmd Av unit :=
  mret ().

(** *** 4.3 *)

Definition numero_avistamientos_por_año_heap (fuel : nat)
    (avistamientos : loc) : cmd Av (result (gmap Z Z)) :=
  for_in_result fuel avistamientos
    (λ a res,
       mret (let y := year (fechahora a) in
             let res := if bool_decide (res !! y = None)
                        then <[y := 0]> res else res in
             c ← getitem res y;
             Return (<[y := c + 1]> res)))
    ∅.

(** [Counter] counts what the generator yields. *)
Definition numero_avistamientos_por_año2_heap (fuel : nat)
    (avistamientos : loc) : cmd Av (gmap Z Z) :=
  for_in fuel avistamientos
    (λ a c,
       mret (<[year (fechahora a)
                 := getitem_default 0 c (year (fechahora a)) + 1]> c))
    ∅.

Definition numero_avistamientos_por_año3_heap (fuel : nat)
    (avistamientos : loc) : cmd Av (gmap Z Z) :=
  for_in fuel avistamientos
    (λ a res,
       mret (<[year (fechahora a)
                 := getitem_default 0 res (year (fechahora a)) + 1]> res))
    ∅.

(** *** 4.4 *)

Definition num_avistamientos_por_mes_heap (fuel : nat) (avistamientos : loc)
    : cmd Av (indexing (gmap string Z)) :=
  for_in_indexing fuel avistamientos
    (λ av res,
       mret (clave ← list_getitem meses (month (fechahora av) - 1);
             Indexed (<[clave := getitem_default 0 res clave + 1]> res)))
    ∅.

(** *** 4.5 *)

Definition estado_mas_avistamientos_heap (fuel : nat) (avistamientos : loc)
    : cmd Av (result string) :=
  conteo_por_estado ←
    for_in fuel avistamientos
      (λ a (c : list (string * Z)),
         mret (Odict.put c (estado a)
                 (default 0 (Odict.get c (estado a)) + 1)))
      [];
  mret (t ← max_by (λ y m, y.2 >? m.2) conteo_por_estado; Return t.1).

(** *** 4.6 *)

Definition hora_mas_avistamientos_heap (fuel : nat) (avistamientos : loc)
    : cmd Av (indexing Z) :=
  c ← for_in fuel avistamientos
        (λ a (c : list (Z * Z)),
           mret (Odict.put c (hour (fechahora a))
                   (default 0 (Odict.get c (hour (fechahora a))) + 1)))
        [];
  mret (t ← list_getitem (Odict.most_common_1 c) 0; Indexed t.1).

(** *** 4.7

    The dictionary maps a state to the reference of its list of
    lengths. *)

Definition longitud_media_comentarios_por_estado_heap (fuel : nat)
    (avistamientos : loc) : cmd Av (result (gmap string Qc)) :=
  longitudes_comentarios_por_estado ←
    for_in fuel avistamientos
      (λ a (d : gmap string loc),
         match d !! estado a with
         | Some r => _ ← append_integer r (len_str (comentarios a)); mret d
         | None =>
             r ← new_integers;
             _ ← append_integer r (len_str (comentarios a));
             mret (<[estado a := r]> d)
         end)
      ∅;
  for_items_result (items longitudes_comentarios_por_estado)
    (λ '(estado, longitudes) res,
       longitudes ← read_integers longitudes;
       mret (q ← truediv (sum longitudes) (len longitudes);
             Return (<[estado := q]> res)))
    ∅.

(** *** 4.8 *)

Definition porc_avistamientos_por_forma_heap (fuel : nat)
    (avistamientos : loc) : cmd Av (result (gmap string Qc)) :=
  conteo_por_formas ←
    for_in fuel avistamientos
      (λ a c, mret (<[forma a := getitem_default 0 c (forma a) + 1]> c))
      ∅;
  l ← read avistamientos;
  mret (let total_avistamientos := len l in
        for_each (items conteo_por_formas)
          (λ '(forma, conteo) res,
             q ← truediv (100 * conteo) total_avistamientos;
             Return (<[forma := q]> res))
          ∅).

Definition porc_avistamientos_por_forma_bis_heap (fuel : nat)
    (avistamientos : loc) (año : Z) : cmd Av (result (gmap string Qc)) :=
  conteo_por_formas ←
    for_in fuel avistamientos
      (λ a (c : gmap string Z),
         mret (if bool_decide (year (fechahora a) = año)
               then <[forma a := getitem_default 0 c (forma a) + 1]> c
               else c))
      ∅;
  mret (let total_avistamientos := sum ((items conteo_por_formas).*2) in
        for_each (items conteo_por_formas)
          (λ '(forma, conteo) res,
             q ← truediv (100 * conteo) total_avistamientos;
             Return (<[forma := q]> res))
          ∅).

(** *** 4.9

    The dictionary maps a state to the reference of its list. *)

Definition avistamientos_mayor_duracion_por_estado_heap (fuel : nat)
    (avistamientos : loc) (n : Z) : cmd Av (gmap string loc) :=
  avistamientos_por_estados ←
    for_in fuel avistamientos
      (λ av (d : gmap string loc),
         match d !! estado av with
         | Some r => _ ← append r av; mret d
         | None =>
             r ← new_list [];
             _ ← append r av;
             mret (<[estado av := r]> d)
         end)
      ∅;
  for_items (items avistamientos_por_estados)
    (λ '(estado, avistamientos_estado) (d : gmap string loc),
       _ ← sort_in_place (λ a b, duracion a <? duracion b) true
             avistamientos_estado;
       r ← slice_to_copy avistamientos_estado n;
       mret (<[estado := r]> d))
    avistamientos_por_estados.

(** *** 4.10 to 4.12: the bodies are [pass] *)

Definition año_mas_avistamientos_forma_heap (avistamientos : loc)
    (f : string) : cmd Av unit :=
  mret ().

Definition estados_mas_avistamientos_heap (avistamientos : loc) (n : Z)
    : cmd Av unit :=
  mret ().

Definition duracion_total_avistamientos_año_heap (avistamientos : loc)
    (e : string) : cmd Av unit :=
  mret ().

(** *** 4.13

    The dictionary maps a state to the reference of its list and then,
    key by key, to a timestamp. *)

Definition avistamiento_mas_reciente_por_estado_heap (fuel : nat)
    (avistamientos : loc) : cmd Av (result (gmap string (loc + datetime))) :=
  avistamientos_por_estados ←
    for_in fuel avistamientos
      (λ av (d : gmap string loc),
         match d !! estado av with
         | Some r => _ ← append r av; mret d
         | None =>
             r ← new_list [];
             _ ← append r av;
             mret (<[estado av := r]> d)
         end)
      ∅;
  for_items_result (items avistamientos_por_estados)
    (λ '(estado, avistamientos_estado) (d : gmap string (loc + datetime)),
       l ← read avistamientos_estado;
       mret (m ← max_by (λ y m, datetime_gt (fechahora y) (fechahora m)) l;
             Return (<[estado := inr (fechahora m)]> d)))
    (inl <$> avistamientos_por_estados).

(** After a loop that groups by state has seen the records [seen]: the
    objects of the heap [h0] at the call are as they were, the
    dictionary maps each state that occurred to a list object of its
    own, allocated since the call, that holds [content] of the records
    of the state, and maps no other state. *)
Definition grouped_as (content : list Av → object Av) (h0 : heap Av)
    (seen : list Av) (d : gmap string loc) (h : heap Av) : Prop :=
  preserves h0 h
  ∧ (∀ e r, d !! e = Some r →
            h0 !! r = None
            ∧ h !! r = Some (content (filter (λ a, estado a = e) seen))
            ∧ filter (λ a, estado a = e) seen ≠ [])
  ∧ (∀ e, d !! e = None → filter (λ a, estado a = e) seen = [])
  ∧ (∀ e1 e2 r, d !! e1 = Some r → d !! e2 = Some r → e1 = e2).

(** The first loop of 4.9 and 4.13 collects the records themselves,
    that of 4.7 the lengths of their comments. *)
Definition grouped : heap Av → list Av → gmap string loc → heap Av → Prop :=
  grouped_as Records.

Definition grouped_lengths
    : heap Av → list Av → gmap string loc → heap Av → Prop :=
  grouped_as (λ l, Integers ((λ a, len_str (comentarios a)) <$> l)).

(** During the second loop of 4.9, with the pairs [todo] still to
    visit: a state to visit is mapped to its list of records; any other
    state is mapped as in the result of the query on the value [avs],
    to a list object that is none of those to visit. *)
Definition sliced (h0 : heap Av) (avs : list Av) (n : Z)
    (todo : list (string * loc)) (d : gmap string loc) (h : heap Av)
    : Prop :=
  preserves h0 h
  ∧ (∀ e r, (e, r) ∈ todo →
            h0 !! r = None ∧ d !! e = Some r
            ∧ h !! r = Some (Records (filter (λ a, estado a = e) avs))
            ∧ filter (λ a, estado a = e) avs ≠ [])
  ∧ (∀ e, e ∉ todo.*1 →
          ((d !! e) ≫= records_at h)
          = avistamientos_mayor_duracion_por_estado avs n !! e
          ∧ ∀ r, d !! e = Some r → (r ∉ todo.*2) ∧ is_Some (h !! r)).

(** What an entry of the dictionary of 4.13 stands for: the records
    of the list it refers to, or the timestamp it holds. *)
Definition dereferenced (h : heap Av) (v : loc + datetime)
    : option (list Av + datetime) :=
  match v with
  | inl r => inl <$> records_at h r
  | inr t => Some (inr t)
  end.

(** The command [c], run on the heap [h], returns [x], and every list
    object of [h] holds afterwards what it held. *)
Definition returns_unchanged {X} (c : cmd Av X) (h : heap Av) (x : X)
    : Prop :=
  ∃ h', c h = Some (x, h') ∧ preserves h h'.

End Model_heap.

(** ** Facts about the built-ins *)

Section Sorting.

Context {A : Type} (lt : A → A → bool).

Lemma insert_sorted_perm x l : insert_sorted lt x l ≡ₚ x :: l.
Proof.
  induction l as [|y l IH]; simpl; [done|].
  destruct (lt x y); [done|].
  rewrite IH. apply perm_swap.
Qed.

Lemma sort_asc_from_perm l acc :
  foldl (λ acc x, insert_sorted lt x acc) acc l ≡ₚ acc ++ l.
Proof.
  revert acc. induction l as [|x l IH]; intros acc; simpl.
  - by rewrite app_nil_r.
  - rewrite IH, insert_sorted_perm. simpl. apply Permutation_middle.
Qed.

Lemma sort_asc_perm l : sort_asc lt l ≡ₚ l.
Proof. apply (sort_asc_from_perm l []). Qed.

Lemma sorted_perm r l : sorted lt r l ≡ₚ l.
Proof.
  unfold sorted. destruct r; [|apply sort_asc_perm].
  by rewrite <- Permutation_rev, sort_asc_perm, <- Permutation_rev.
Qed.

Section Order.

Variable R : relation A.
Hypothesis lt_R : ∀ x y, lt x y = true → R x y.
Hypothesis nlt_R : ∀ x y, lt x y = false → R y x.

Lemma insert_sorted_Sorted x l :
  Sorted R l → Sorted R (insert_sorted lt x l).
Proof.
  induction l as [|y l IH]; intros Hs; simpl.
  - repeat constructor.
  - destruct (lt x y) eqn:E.
    + constructor; [done|]. constructor. by apply lt_R.
    + apply Sorted_inv in Hs as [Hs Hd]. constructor; [by apply IH|].
      destruct l as [|z l]; simpl.
      * constructor. by apply nlt_R.
      * destruct (lt x z); constructor.
        -- by apply nlt_R.
        -- by inversion Hd.
Qed.

Lemma sort_asc_from_Sorted l acc :
  Sorted R acc → Sorted R (foldl (λ acc x, insert_sorted lt x acc) acc l).
Proof.
  revert acc. induction l as [|x l IH]; intros acc Hacc; simpl; [done|].
  apply IH. by apply insert_sorted_Sorted.
Qed.

Lemma sort_asc_Sorted l : Sorted R (sort_asc lt l).
Proof. apply sort_asc_from_Sorted. constructor. Qed.

End Order.

End Sorting.

Lemma StronglySorted_rev {A} (R : relation A) (l : list A) :
  StronglySorted R l → StronglySorted (flip R) (rev l).
Proof.
  induction 1 as [|x l Hl IH Hx]; simpl; [constructor|].
  apply StronglySorted_app_2; [|done|repeat constructor].
  intros x1 x2 H1 H2. apply list_elem_of_singleton in H2 as ->.
  apply list_elem_of_In, in_rev, list_elem_of_In in H1.
  rewrite Forall_forall in Hx. by apply Hx.
Qed.

Lemma filter_none {A} (P : A → Prop) `{∀ x, Decision (P x)} (l : list A) :
  Forall (λ x, ¬ P x) l → filter P l = [].
Proof.
  induction 1 as [|x l Hx _ IH]; [done|].
  rewrite filter_cons. by destruct (decide (P x)).
Qed.

Lemma filter_rev {A} (P : A → Prop) `{∀ x, Decision (P x)} (l : list A) :
  filter P (rev l) = rev (filter P l).
Proof.
  induction l as [|x l IH]; simpl; [done|].
  rewrite filter_app, IH, !filter_cons, filter_nil.
  destruct (decide (P x)); simpl; [done|]. by rewrite app_nil_r.
Qed.

(** A sort by a key: [lt a b] compares the keys with [klt]. *)
Section Sort_by_key.

Context {A K : Type} `{EqDecision K} (key : A → K) (klt : K → K → bool).

Hypothesis klt_asym : ∀ x y, klt x y = true → klt y x = false.
Hypothesis klt_trans :
  ∀ x y z, klt y x = false → klt z y = false → klt z x = false.

Let lt (a b : A) : bool := klt (key a) (key b).

Let ascK := asc key klt.
Let descK := desc key klt.

Lemma klt_irrefl x : klt x x = false.
Proof. destruct (klt x x) eqn:E; [|done]. by rewrite (klt_asym _ _ E) in E. Qed.

Lemma ascK_trans : Transitive ascK.
Proof. intros a b c Hab Hbc. unfold ascK, asc in *. eauto. Qed.

Lemma sort_asc_key_sorted l : StronglySorted ascK (sort_asc lt l).
Proof.
  apply Sorted_StronglySorted; [apply ascK_trans|].
  apply sort_asc_Sorted; unfold lt, ascK, asc; intros x y E; [by apply klt_asym|done].
Qed.

Lemma insert_sorted_stable k x l :
  StronglySorted ascK l →
  filter (λ a, key a = k) (insert_sorted lt x l)
  = filter (λ a, key a = k) l ++ (if decide (key x = k) then [x] else []).
Proof.
  induction 1 as [|y l Hl IH Hy]; simpl.
  - rewrite filter_cons, filter_nil. by destruct (decide (key x = k)).
  - unfold lt at 1. destruct (klt (key x) (key y)) eqn:E.
    + rewrite (filter_cons _ x). destruct (decide (key x = k)) as [Hk|Hk].
      * assert (filter (λ a, key a = k) (y :: l) = []) as ->; [|done].
        apply filter_none, Forall_cons; split.
        -- intros Hy'. rewrite Hk, Hy' in E. by rewrite klt_irrefl in E.
        -- eapply Forall_impl; [exact Hy|]. intros z Hz Hz'.
           unfold ascK, asc in Hz. rewrite Hz', <- Hk in Hz. congruence.
      * by rewrite app_nil_r.
    + rewrite !(filter_cons _ y). destruct (decide (key y = k)); simpl.
      * by rewrite IH.
      * by rewrite IH.
Qed.

Lemma sort_asc_from_stable k l acc :
  StronglySorted ascK acc →
  filter (λ a, key a = k) (foldl (λ acc x, insert_sorted lt x acc) acc l)
  = filter (λ a, key a = k) (acc ++ l).
Proof.
  revert acc. induction l as [|x l IH]; intros acc Hacc; simpl.
  - by rewrite app_nil_r.
  - rewrite IH.
    + rewrite !filter_app, insert_sorted_stable by done.
      rewrite (filter_cons _ x). rewrite <- app_assoc.
      by destruct (decide (key x = k)).
    + apply Sorted_StronglySorted; [apply ascK_trans|].
      apply insert_sorted_Sorted; [| |by apply StronglySorted_Sorted];
        unfold lt, ascK, asc; intros a b E; [by apply klt_asym|done].
Qed.

Lemma sort_asc_stable k l :
  filter (λ a, key a = k) (sort_asc lt l) = filter (λ a, key a = k) l.
Proof. apply (sort_asc_from_stable k l []). constructor. Qed.

(** [sorted(l, key=key)] and [sorted(l, key=key, reverse=True)]: ordered,
    a permutation, and stable. *)
Lemma sorted_by_key_asc l :
  StronglySorted ascK (sorted lt false l)
  ∧ sorted lt false l ≡ₚ l
  ∧ ∀ k, filter (λ a, key a = k) (sorted lt false l)
         = filter (λ a, key a = k) l.
Proof.
  split; [apply sort_asc_key_sorted|]. split; [apply sorted_perm|].
  intros k. apply sort_asc_stable.
Qed.

Lemma sorted_by_key_desc l :
  StronglySorted descK (sorted lt true l)
  ∧ sorted lt true l ≡ₚ l
  ∧ ∀ k, filter (λ a, key a = k) (sorted lt true l)
         = filter (λ a, key a = k) l.
Proof.
  split; [|split; [apply sorted_perm|]].
  - simpl. apply (StronglySorted_rev ascK), sort_asc_key_sorted.
  - intros k. simpl.
    by rewrite filter_rev, sort_asc_stable, filter_rev, rev_involutive.
Qed.

End Sort_by_key.

(** *** Comparisons *)

Lemma cmp_fields_refl xs : cmp_fields xs xs = Eq.
Proof. induction xs as [|x xs IH]; simpl; [done|]. by rewrite Z.compare_refl. Qed.

Lemma cmp_fields_eq xs ys : cmp_fields xs ys = Eq → xs = ys.
Proof.
  revert ys. induction xs as [|x xs IH]; intros [|y ys]; simpl; try done.
  destruct (x ?= y) eqn:E; try done.
  apply Z.compare_eq in E as ->. intros Hc. by rewrite (IH _ Hc).
Qed.

Lemma cmp_fields_antisym xs ys :
  cmp_fields ys xs = CompOpp (cmp_fields xs ys).
Proof.
  revert ys. induction xs as [|x xs IH]; intros [|y ys]; simpl; try done.
  rewrite (Z.compare_antisym x y). destruct (x ?= y); simpl; auto.
Qed.

Lemma cmp_fields_le_trans xs ys zs :
  cmp_fields xs ys ≠ Gt → cmp_fields ys zs ≠ Gt → cmp_fields xs zs ≠ Gt.
Proof.
  revert ys zs. induction xs as [|x xs IH]; intros [|y ys] [|z zs]; simpl;
    try done.
  destruct (Z.compare_spec x y) as [Exy|Exy|Exy]; try done;
    destruct (Z.compare_spec y z) as [Eyz|Eyz|Eyz]; try done;
    destruct (Z.compare_spec x z) as [Exz|Exz|Exz]; try lia; try done.
  apply IH.
Qed.

Lemma datetime_fields_inj a b : datetime_fields a = datetime_fields b → a = b.
Proof. destruct a, b. unfold datetime_fields. simpl. congruence. Qed.

Lemma datetime_le_refl a : datetime_le a a.
Proof. unfold datetime_le, datetime_cmp. by rewrite cmp_fields_refl. Qed.

Lemma datetime_le_trans a b c :
  datetime_le a b → datetime_le b c → datetime_le a c.
Proof. apply cmp_fields_le_trans. Qed.

Lemma datetime_le_antisym a b : datetime_le a b → datetime_le b a → a = b.
Proof.
  unfold datetime_le, datetime_cmp. intros Hab Hba.
  rewrite cmp_fields_antisym in Hba.
  apply datetime_fields_inj, cmp_fields_eq.
  by destruct (cmp_fields (datetime_fields a) (datetime_fields b)).
Qed.

Lemma datetime_le_total a b : datetime_le a b ∨ datetime_le b a.
Proof.
  unfold datetime_le, datetime_cmp.
  rewrite (cmp_fields_antisym (datetime_fields a)).
  destruct (cmp_fields (datetime_fields a) (datetime_fields b)); simpl; auto.
Qed.

Lemma datetime_lt_false a b : datetime_lt a b = false ↔ datetime_le b a.
Proof.
  unfold datetime_lt, datetime_le, datetime_cmp.
  rewrite (cmp_fields_antisym (datetime_fields a)).
  destruct (cmp_fields (datetime_fields a) (datetime_fields b)); simpl;
    split; done.
Qed.

Lemma datetime_lt_asym a b : datetime_lt a b = true → datetime_lt b a = false.
Proof.
  unfold datetime_lt, datetime_cmp.
  rewrite (cmp_fields_antisym (datetime_fields a)).
  by destruct (cmp_fields (datetime_fields a) (datetime_fields b)).
Qed.

Lemma datetime_lt_le a b : datetime_lt a b = true → datetime_le a b.
Proof. intros E. by apply datetime_lt_false, datetime_lt_asym. Qed.

Lemma datetime_lt_trans a b c :
  datetime_lt b a = false → datetime_lt c b = false → datetime_lt c a = false.
Proof. rewrite !datetime_lt_false. apply datetime_le_trans. Qed.

Lemma date_ge_le a b : date_ge a b = true ↔ date_leq b a.
Proof.
  unfold date_ge, date_leq, date_cmp.
  rewrite (cmp_fields_antisym (date_fields a)).
  destruct (cmp_fields (date_fields a) (date_fields b)); simpl; split; done.
Qed.

Lemma date_le_leq a b : date_le a b = true ↔ date_leq a b.
Proof.
  unfold date_le, date_leq. destruct (date_cmp a b); split; done.
Qed.

Lemma Zltb_asym (x y : Z) : (x <? y) = true → (y <? x) = false.
Proof. lia. Qed.

Lemma Zltb_trans (x y z : Z) :
  (y <? x) = false → (z <? y) = false → (z <? x) = false.
Proof. lia. Qed.

(** Strings: [String.compare] is a total order. *)

Lemma ascii_compare_refl c : Ascii.compare c c = Eq.
Proof. unfold Ascii.compare. apply N.compare_refl. Qed.

Lemma str_compare_refl s : String.compare s s = Eq.
Proof.
  induction s as [|c s IH]; simpl; [done|]. by rewrite ascii_compare_refl.
Qed.

Lemma str_le_trans a b c :
  String.compare a b ≠ Gt → String.compare b c ≠ Gt → String.compare a c ≠ Gt.
Proof.
  revert b c. induction a as [|x a IH]; intros [|y b] [|z c]; simpl; try done.
  unfold Ascii.compare.
  destruct (N.compare_spec (N_of_ascii x) (N_of_ascii y)) as [Exy|Exy|Exy];
    try done;
    destruct (N.compare_spec (N_of_ascii y) (N_of_ascii z)) as [Eyz|Eyz|Eyz];
    try done;
    destruct (N.compare_spec (N_of_ascii x) (N_of_ascii z)) as [Exz|Exz|Exz];
    try lia; try done.
  apply IH.
Qed.

Lemma tuple_gt_false q p : tuple_gt q p = false ↔ tuple_le q p.
Proof.
  unfold tuple_gt, tuple_le, str_gt. destruct q as [d1 c1], p as [d2 c2]; simpl.
  destruct (Z.eqb_spec d1 d2) as [->|Hd]; simpl.
  - case_bool_decide as Hc; simpl.
    + subst. rewrite str_compare_refl. split; [|done]. intros _. by right.
    + destruct (String.compare c1 c2) eqn:E; split; try done; try lia.
      * intros _. by right.
      * intros _. by right.
      * intros [?|[_ ?]]; [lia|done].
  - split.
    + intros Hg. left. lia.
    + intros [?|[? _]]; lia.
Qed.

Lemma tuple_le_refl p : tuple_le p p.
Proof. right. split; [done|]. by rewrite str_compare_refl. Qed.

Lemma tuple_le_trans a b c : tuple_le a b → tuple_le b c → tuple_le a c.
Proof.
  unfold tuple_le. intros [?|[? Hab]] [?|[? Hbc]]; try (left; lia).
  right. split; [lia|]. by apply (str_le_trans _ b.2).
Qed.

Lemma tuple_le_total a b : tuple_le a b ∨ tuple_le b a.
Proof.
  unfold tuple_le. destruct (Z.lt_trichotomy a.1 b.1) as [?|[Heq|?]]; auto.
  rewrite (String.compare_antisym a.2 b.2).
  destruct (String.compare b.2 a.2); simpl; [left|right|left]; right; done.
Qed.

(** *** [max] *)

Section Max.

Context {A : Type} (gt : A → A → bool).

(** [le a b]: [a > b] is false. *)
Let le (a b : A) : Prop := gt a b = false.

Hypothesis le_refl : ∀ a, le a a.
Hypothesis le_trans : ∀ a b c, le a b → le b c → le a c.
Hypothesis le_total : ∀ a b, le a b ∨ le b a.

Lemma max_by_from_spec xs x :
  let m := foldl (λ m y, if gt y m then y else m) x xs in
  m ∈ x :: xs ∧ ∀ y, y ∈ x :: xs → le y m.
Proof.
  revert x. induction xs as [|z xs IH]; intros x; simpl.
  - split; [by left|]. intros y Hy. apply list_elem_of_singleton in Hy as ->.
    apply le_refl.
  - destruct (gt z x) eqn:E.
    + destruct (IH z) as [Hin Hmax]. split.
      * by right.
      * intros y Hy. apply elem_of_cons in Hy as [->|Hy]; [|by apply Hmax].
        apply le_trans with z; [|apply Hmax; by left].
        destruct (le_total x z) as [?|Hzx]; [done|]. unfold le in Hzx.
        congruence.
    + destruct (IH x) as [Hin Hmax]. split.
      * apply elem_of_cons in Hin as [->|Hin]; [by left|]. by do 2 right.
      * intros y Hy. apply elem_of_cons in Hy as [->|Hy].
        -- apply Hmax. by left.
        -- apply elem_of_cons in Hy as [->|Hy].
           ++ apply le_trans with x; [done|]. apply Hmax. by left.
           ++ apply Hmax. by right.
Qed.

Lemma max_by_spec xs :
  match max_by gt xs with
  | Return m => m ∈ xs ∧ ∀ y, y ∈ xs → le y m
  | Raise e => xs = [] ∧ e = ValueError
  end.
Proof. destruct xs as [|x xs]; simpl; [done|]. apply max_by_from_spec. Qed.

End Max.

Lemma max_by_Return_elem {A} (gt : A → A → bool) (xs : list A) (m : A) :
  max_by gt xs = Return m → m ∈ xs.
Proof.
  destruct xs as [|x xs]; simpl; [done|]. intros [= <-].
  revert x. induction xs as [|z xs IH]; intros x; simpl; [by left|].
  destruct (gt z x).
  - right. apply IH.
  - specialize (IH x). apply elem_of_cons in IH as [->|?]; [by left|].
    by do 2 right.
Qed.

(** A loop that appends the elements that pass a test is a filter. *)
Lemma foldl_append_filter {A} (p : A → bool) (l acc : list A) :
  foldl (λ acc a, if p a then acc ++ [a] else acc) acc l
  = acc ++ filter (λ a, p a = true) l.
Proof.
  revert acc. induction l as [|x l IH]; intros acc; simpl.
  - by rewrite app_nil_r.
  - rewrite IH, filter_cons. destruct (p x); simpl.
    + by rewrite <- app_assoc.
    + done.
Qed.

Lemma StronglySorted_weaken {A} (R1 R2 : relation A) (l : list A) :
  (∀ x y, R1 x y → R2 x y) → StronglySorted R1 l → StronglySorted R2 l.
Proof.
  intros HR. induction 1 as [|x l Hl IH Hx]; constructor; [done|].
  eapply Forall_impl; [exact Hx|]. intros y. apply HR.
Qed.

Lemma filter_bool_decide {A} (P : A → Prop) `{∀ x, Decision (P x)} (l : list A) :
  filter (λ a, bool_decide (P a) = true) l = filter P l.
Proof. apply list_filter_iff. intros x. apply bool_decide_eq_true. Qed.

Lemma foldl_append_map {A B} (g : A → B) (l : list A) (acc : list B) :
  foldl (λ acc x, acc ++ [g x]) acc l = acc ++ (g <$> l).
Proof.
  revert acc. induction l as [|x l IH]; intros acc; simpl.
  - by rewrite app_nil_r.
  - by rewrite IH, <- app_assoc.
Qed.

Lemma sum_from (l : list Z) (z : Z) : foldl Z.add z l = z + foldr Z.add 0 l.
Proof.
  revert z. induction l as [|x l IH]; intros z; simpl; [lia|].
  rewrite IH. lia.
Qed.

Lemma sum_foldr (l : list Z) : sum l = foldr Z.add 0 l.
Proof. unfold sum. by rewrite sum_from. Qed.

Lemma length_gaps (ds : list date) : length (gaps ds) = pred (length ds).
Proof.
  induction ds as [|d1 [|d2 ds] IH]; simpl in *; try done. by rewrite IH.
Qed.

Global Instance datetime_le_antisymm : AntiSymm eq datetime_le.
Proof. intros a b. apply datetime_le_antisym. Qed.

(** *** Dictionaries *)

(** A loop whose body always returns is a fold. *)
Lemma for_each_pure {A S} (xs : list A) (body : A → S → result S)
    (step : S → A → S) (s : S) :
  (∀ x s, x ∈ xs → body x s = Return (step s x)) →
  for_each xs body s = Return (foldl step s xs).
Proof.
  revert s. induction xs as [|x xs IH]; intros s Hb; simpl; [done|].
  rewrite Hb by (by left). simpl. apply IH.
  intros y s' Hy. apply Hb. by right.
Qed.

Section Accumulate.

Context {A V K : Type} `{Countable K}.
Context (key : A → K) (e : V) (upd : A → V → V).

(** The entry of [k] after a loop that updates the entry of each
    element's key, starting an absent entry from [e]. *)
Lemma accumulate_lookup (l : list A) (d : gmap K V) (k : K) :
  foldl (λ d a, <[key a := upd a (default e (d !! key a))]> d) d l !! k
  = match filter (λ a, key a = k) l with
    | [] => d !! k
    | f => Some (foldl (λ v a, upd a v) (default e (d !! k)) f)
    end.
Proof.
  revert d. induction l as [|a l IH]; intros d; simpl; [done|].
  rewrite IH, filter_cons. destruct (decide (key a = k)) as [<-|Hk].
  - rewrite lookup_insert_eq. simpl.
    by destruct (filter (λ a0, key a0 = key a) l).
  - by rewrite lookup_insert_ne.
Qed.

End Accumulate.

(** Overwriting the entries of the pairs of a dictionary, in the order
    of [items]. *)
Lemma foldl_insert_pairs `{Countable K} {V W} (g : V → W)
    (kvs : list (K * V)) (d : gmap K W) (k : K) :
  NoDup kvs.*1 →
  foldl (λ d '(k, v), <[k := g v]> d) d kvs !! k
  = match (list_to_map kvs : gmap K V) !! k with
    | Some v => Some (g v)
    | None => d !! k
    end.
Proof.
  revert d. induction kvs as [|[k1 v1] kvs IH]; intros d Hnd; simpl.
  - by rewrite lookup_empty.
  - apply NoDup_cons in Hnd as [Hk1 Hnd]. rewrite IH by done.
    destruct (decide (k1 = k)) as [->|Hk].
    + rewrite (not_elem_of_list_to_map_1 _ _ Hk1), !lookup_insert_eq. done.
    + by rewrite !lookup_insert_ne.
Qed.

Lemma foldl_insert_items `{Countable K} {V W} (g : V → W)
    (m : gmap K V) (d : gmap K W) (k : K) :
  foldl (λ d '(k, v), <[k := g v]> d) d (items m) !! k
  = match m !! k with
    | Some v => Some (g v)
    | None => d !! k
    end.
Proof.
  unfold items. rewrite foldl_insert_pairs by apply NoDup_fst_map_to_list.
  by rewrite list_to_map_to_list.
Qed.

(** Folding the values of a dictionary with a commutative monoid. *)
Section Values.

Context `{Countable K} {V : Type} (op : V → V → V) (e : V).
Hypothesis op_assoc : ∀ x y z, op x (op y z) = op (op x y) z.
Hypothesis op_comm : ∀ x y, op x y = op y x.

Lemma foldr_values_perm (l1 l2 : list V) :
  l1 ≡ₚ l2 → foldr op e l1 = foldr op e l2.
Proof.
  induction 1 as [|x l1 l2 _ IH|x y l|l1 l2 l3 _ IH1 _ IH2]; simpl.
  - done.
  - by rewrite IH.
  - by rewrite !op_assoc, (op_comm x y).
  - by rewrite IH1.
Qed.

Lemma foldr_values_insert (m : gmap K V) (k : K) (v : V) :
  m !! k = None →
  foldr op e (map_to_list (<[k := v]> m)).*2
  = op v (foldr op e (map_to_list m).*2).
Proof.
  intros Hk.
  rewrite (foldr_values_perm _ (v :: (map_to_list m).*2)); [done|].
  by rewrite map_to_list_insert.
Qed.

Lemma foldr_values_update (m : gmap K V) (k : K) (v0 v : V) :
  m !! k = Some v0 →
  foldr op e (map_to_list m).*2
  = op v0 (foldr op e (map_to_list (delete k m)).*2)
  ∧ foldr op e (map_to_list (<[k := v]> m)).*2
    = op v (foldr op e (map_to_list (delete k m)).*2).
Proof.
  intros Hk. split.
  - rewrite <- (foldr_values_insert (delete k m) k v0)
      by apply lookup_delete_eq.
    by rewrite insert_delete_eq, insert_id.
  - rewrite <- (foldr_values_insert (delete k m) k v)
      by apply lookup_delete_eq.
    by rewrite insert_delete_eq.
Qed.

End Values.

(** [Counter]: every value that occurs is mapped to the number of its
    occurrences, and the counts add up to the length. *)
Lemma Counter_lookup `{Countable K} (xs : list K) (k : K) :
  Counter xs !! k
  = match filter (λ x, x = k) xs with
    | [] => None
    | f => Some (Z.of_nat (length f))
    end.
Proof.
  unfold Counter, getitem_default.
  rewrite (accumulate_lookup (λ x, x) 0 (λ _ v, v + 1)), lookup_empty.
  destruct (filter (λ x, x = k) xs) as [|x f]; [done|]. f_equal.
  generalize (x :: f). intros l.
  assert (∀ z, foldl (λ v (_ : K), v + 1) z l = z + Z.of_nat (length l))
    as ->; [|done].
  induction l as [|y l IH]; intros z; simpl; [lia|]. rewrite IH. lia.
Qed.

Lemma Counter_snoc `{Countable K} (xs : list K) (x : K) :
  Counter (xs ++ [x]) = <[x := default 0 (Counter xs !! x) + 1]> (Counter xs).
Proof. unfold Counter. by rewrite foldl_snoc. Qed.

Lemma Counter_total `{Countable K} (xs : list K) :
  foldr Z.add 0 (map_to_list (Counter xs)).*2 = Z.of_nat (length xs).
Proof.
  induction xs as [|x xs IH] using rev_ind.
  - unfold Counter. simpl. by rewrite map_to_list_empty.
  - rewrite Counter_snoc, length_app. simpl.
    destruct (Counter xs !! x) as [v0|] eqn:E; simpl.
    + destruct (foldr_values_update Z.add 0 Z.add_assoc Z.add_comm
                  (Counter xs) x v0 (v0 + 1) E) as [H1 ->].
      rewrite H1 in IH. lia.
    + rewrite (foldr_values_insert Z.add 0 Z.add_assoc Z.add_comm) by done.
      lia.
Qed.

(** *** Percentages of a counter *)

Lemma percent_of_counter `{Countable K} (c : gmap K Z) (total : Z) :
  (c ≠ ∅ → total ≠ 0) →
  for_each (items c)
    (λ '(k, conteo) res,
       q ← truediv (100 * conteo) total; Return (<[k := q]> res))
    ∅
  = Return ((λ conteo, (Qc_of_Z (100 * conteo) / Qc_of_Z total)%Qc) <$> c).
Proof.
  intros Ht.
  rewrite (for_each_pure _ _
    (λ d '(k, v), <[k := (Qc_of_Z (100 * v) / Qc_of_Z total)%Qc]> d)).
  - f_equal. apply map_eq. intros k.
    rewrite (foldl_insert_items
               (λ v, (Qc_of_Z (100 * v) / Qc_of_Z total)%Qc)).
    rewrite lookup_fmap, lookup_empty. by destruct (c !! k).
  - intros [k v] s Hin. unfold truediv.
    destruct (total =? 0) eqn:E; [|done]. exfalso. apply Ht; [|lia].
    intros ->. unfold items in Hin. rewrite map_to_list_empty in Hin.
    by apply elem_of_nil in Hin.
Qed.

Lemma foldr_percent (vs : list Z) (total : Z) :
  foldr Qcplus 0%Qc
        ((λ v, (Qc_of_Z (100 * v) / Qc_of_Z total)%Qc) <$> vs)
  = (Qc_of_Z (100 * foldr Z.add 0%Z vs) / Qc_of_Z total)%Qc.
Proof.
  induction vs as [|v vs IH].
  - simpl. rewrite Z.mul_0_r. unfold Qcdiv. by rewrite Z2Qc_inj_0, Qcmult_0_l.
  - rewrite fmap_cons. cbn [foldr].
    rewrite IH, Z.mul_add_distr_l, Z2Qc_inj_add. unfold Qcdiv. ring.
Qed.

Lemma sum_values_percent `{Countable K} (c : gmap K Z) (total : Z) :
  total ≠ 0 →
  foldr Z.add 0 (map_to_list c).*2 = total →
  sum_values ((λ v, (Qc_of_Z (100 * v) / Qc_of_Z total)%Qc) <$> c)
  = Qc_of_Z 100.
Proof.
  intros Ht Hsum. unfold sum_values.
  rewrite map_to_list_fmap.
  assert (∀ (g : Z → Qc) (l : list (K * Z)),
            (prod_map id g <$> l).*2 = g <$> l.*2) as ->.
  { intros g l. induction l as [|[? ?] l IH]; csimpl; [done|].
    by rewrite IH. }
  rewrite foldr_percent, Hsum, Z2Qc_inj_mul.
  unfold Qcdiv. rewrite <- Qcmult_assoc, Qcmult_inv_r, Qcmult_1_r; [done|].
  rewrite <- Z2Qc_inj_0. by intros ?%Z2Qc_inj.
Qed.

Lemma filter_fmap_eq {A K} `{EqDecision K} (g : A → K) (k : K) (l : list A) :
  filter (λ x, x = k) (g <$> l) = g <$> filter (λ a, g a = k) l.
Proof.
  induction l as [|a l IH]; csimpl; [done|].
  rewrite !filter_cons, IH. by destruct (decide (g a = k)).
Qed.

Lemma Counter_fmap_lookup {A} `{Countable K} (g : A → K) (l : list A) (k : K) :
  Counter (g <$> l) !! k
  = match filter (λ a, g a = k) l with
    | [] => None
    | f => Some (len f)
    end.
Proof.
  rewrite Counter_lookup, filter_fmap_eq.
  destruct (filter (λ a, g a = k) l); csimpl; [done|].
  unfold len. simpl. by rewrite length_fmap.
Qed.

Lemma dom_of_lookup {V A} `{Countable K} (key : A → K) (l : list A)
    (m : gmap K V) (g : list A → V) :
  (∀ k, m !! k = match filter (λ a, key a = k) l with
                 | [] => None
                 | f => Some (g f)
                 end) →
  dom m = list_to_set (key <$> l).
Proof.
  intros Hm. apply set_eq. intros k.
  rewrite elem_of_dom, Hm, elem_of_list_to_set, list_elem_of_fmap. split.
  - destruct (filter (λ a, key a = k) l) as [|a f] eqn:E.
    + by intros [? ?].
    + intros _. exists a.
      assert (a ∈ filter (λ a, key a = k) l) as Ha by (rewrite E; by left).
      apply list_elem_of_filter in Ha as [? ?]. done.
  - intros (a & -> & Ha).
    destruct (filter (λ a0, key a0 = key a) l) as [|b f] eqn:E; [|eauto].
    assert (a ∈ filter (λ a0, key a0 = key a) l) as Ha'
      by (by apply list_elem_of_filter).
    rewrite E in Ha'. by apply elem_of_nil in Ha'.
Qed.


(** *** IEEE comparison *)

Lemma SFltb_trans x y z :
  SFltb x y = true → SFltb y z = true → SFltb x z = true.
Proof.
  unfold SFltb, SFcompare.
  destruct x as [sx|sx| |sx mx ex], y as [sy|sy| |sy my ey],
           z as [sz|sz| |sz mz ez]; try done;
    try (destruct sx; try done); try (destruct sy; try done);
    try (destruct sz; try done).
  - change (Pos.compare_cont Eq ?a ?b) with (Pos.compare a b).
    destruct (Z.compare_spec ex ey); try done;
      destruct (Z.compare_spec ey ez); try done;
      destruct (Z.compare_spec ex ez); try lia; try done;
      destruct (Pos.compare_spec mx my); try done;
      destruct (Pos.compare_spec my mz); try done;
      destruct (Pos.compare_spec mx mz); try lia; try done.
  - change (Pos.compare_cont Eq ?a ?b) with (Pos.compare a b).
    destruct (Z.compare_spec ex ey); try done;
      destruct (Z.compare_spec ey ez); try done;
      destruct (Z.compare_spec ex ez); try lia; try done;
      destruct (Pos.compare_spec mx my); try done;
      destruct (Pos.compare_spec my mz); try done;
      destruct (Pos.compare_spec mx mz); try lia; try done.
Qed.

(** ** The queries *)

Section Queries.

Context {Coordenadas : Type} `{Countable Coordenadas}.

Implicit Types (a : Avistamiento Coordenadas).
Implicit Types (avs : list (Avistamiento Coordenadas)).

(** *** 2.4 and 3.2: sightings near a location *)

Section Cercanos.

Variable distancia : Coordenadas → Coordenadas → spec_float.

Lemma cercanos_from_elem avs u r (acc : gset (Avistamiento Coordenadas)) a :
  a ∈ foldl (λ res a,
               if SFltb (distancia (ubicacion a) u) r
               then {[a]} ∪ res else res) acc avs
  ↔ a ∈ acc ∨ (a ∈ avs ∧ SFltb (distancia (ubicacion a) u) r = true).
Proof.
  revert acc. induction avs as [|b avs IH]; intros acc; simpl.
  - split; [auto|]. intros [?|[Hin _]]; [done|]. by apply elem_of_nil in Hin.
  - rewrite IH, elem_of_cons. destruct (SFltb (distancia (ubicacion b) u) r) eqn:E.
    + rewrite elem_of_union, elem_of_singleton. split.
      * intros [[->|?]|[? ?]]; auto.
      * intros [?|[[->|?] ?]]; auto.
    + split.
      * intros [?|[? ?]]; auto.
      * intros [?|[[->|?] ?]]; auto. congruence.
Qed.

Lemma cercanos_elem avs u r a :
  a ∈ avistamientos_cercanos_ubicacion distancia avs u r
  ↔ a ∈ avs ∧ SFltb (distancia (ubicacion a) u) r = true.
Proof.
  unfold avistamientos_cercanos_ubicacion. rewrite cercanos_from_elem.
  split; [|auto]. intros [Hin|?]; [|done]. by apply not_elem_of_empty in Hin.
Qed.

Lemma cercanos2_elem avs u r a :
  a ∈ avistamientos_cercanos_ubicacion2 distancia avs u r
  ↔ a ∈ avs ∧ SFltb (distancia (ubicacion a) u) r = true.
Proof.
  unfold avistamientos_cercanos_ubicacion2.
  rewrite elem_of_list_to_set, list_elem_of_filter. tauto.
Qed.

(** C5.  A record is in the set of sightings near [u] exactly when it
    is in the list and its distance to [u] is strictly below the
    radius, for the loop and for the comprehension, which return the
    same set; the set holds each record once; and a larger radius
    gives a superset. *)
Theorem cercanos_ubicacion_characterised avs u :
  (∀ r a, a ∈ avistamientos_cercanos_ubicacion distancia avs u r
          ↔ a ∈ avs ∧ SFltb (distancia (ubicacion a) u) r = true)
  ∧ (∀ r, avistamientos_cercanos_ubicacion2 distancia avs u r
          = avistamientos_cercanos_ubicacion distancia avs u r)
  ∧ (∀ r, NoDup (elements (avistamientos_cercanos_ubicacion distancia avs u r)))
  ∧ (∀ r1 r2, SFltb r1 r2 = true →
       avistamientos_cercanos_ubicacion distancia avs u r1
       ⊆ avistamientos_cercanos_ubicacion distancia avs u r2).
Proof.
  split; [intros r a; apply cercanos_elem|].
  split; [|split].
  - intros r. apply set_eq. intros a.
    by rewrite cercanos_elem, cercanos2_elem.
  - intros r. apply NoDup_elements.
  - intros r1 r2 Hr a. rewrite !cercanos_elem. intros [Hin Hd].
    split; [done|]. by apply SFltb_trans with r1.
Qed.

(** C2.  The call never raises.  It returns [None] exactly when no
    record of the list is strictly within the radius; otherwise it
    returns the pair (duration, comments) of such a record, and the
    pair of every such record is below or equal to it in the
    lexicographic order. *)
Theorem cercano_mayor_duracion_maximal avs c r :
  match avistamiento_cercano_mayor_duracion distancia avs c r with
  | Return (Some p) =>
      (∃ a, a ∈ avs ∧ SFltb (distancia (ubicacion a) c) r = true
            ∧ p = (duracion a, comentarios a))
      ∧ ∀ a, a ∈ avs → SFltb (distancia (ubicacion a) c) r = true →
             tuple_le (duracion a, comentarios a) p
  | Return None =>
      ∀ a, a ∈ avs → SFltb (distancia (ubicacion a) c) r = false
  | Raise _ => False
  end.
Proof.
  unfold avistamiento_cercano_mayor_duracion.
  set (S := avistamientos_cercanos_ubicacion distancia avs c r).
  destruct (0 <? Z.of_nat (size S)) eqn:E.
  - pose proof (max_by_spec tuple_gt
      (λ p, proj2 (tuple_gt_false p p) (tuple_le_refl p))) as Hmax.
    specialize (Hmax
      (λ p q s, ltac:(rewrite !tuple_gt_false; apply tuple_le_trans))
      (λ p q, ltac:(rewrite !tuple_gt_false; apply tuple_le_total))
      ((λ a, (duracion a, comentarios a)) <$> elements S)).
    destruct (max_by tuple_gt _) as [m|e]; simpl.
    + destruct Hmax as [Hin Hmax]. split.
      * apply list_elem_of_fmap in Hin as (a & -> & Ha).
        apply elem_of_elements, cercanos_elem in Ha as [? ?]. eauto.
      * intros a Ha Hd. apply tuple_gt_false, Hmax.
        apply list_elem_of_fmap. exists a. split; [done|].
        apply elem_of_elements, cercanos_elem. done.
    + destruct Hmax as [Hnil _]. apply fmap_nil_inv in Hnil.
      apply elements_empty_inv in Hnil. apply leibniz_equiv in Hnil.
      rewrite Hnil, size_empty in E. done.
  - simpl. intros a Ha. destruct (SFltb _ r) eqn:Hd; [|done].
    assert (a ∈ S) as HS by (by apply cercanos_elem).
    assert (size S = 0%nat) as Hz by lia.
    apply size_empty_inv in Hz. set_solver.
Qed.

End Cercanos.

(** *** 3.1 and 3.4: extremal queries that call [max] *)

Section Extremal.

Variable lower : string → string.

Lemma mayor_duracion_loop avs f :
  avistamiento_mayor_duracion avs f = avistamiento_mayor_duracion2 avs f.
Proof.
  unfold avistamiento_mayor_duracion, avistamiento_mayor_duracion2.
  by rewrite foldl_append_filter, app_nil_l, filter_bool_decide.
Qed.

Lemma comentario_filter avs anyo palabra :
  foldl (λ acc a,
           if (year (fechahora a) =? anyo)
              && contains (lower palabra) (lower (comentarios a))
           then acc ++ [a] else acc) [] avs
  = filter (elegible_comentario lower anyo palabra) avs.
Proof.
  rewrite foldl_append_filter, app_nil_l. apply list_filter_iff.
  intros a. unfold elegible_comentario.
  rewrite andb_true_iff, Z.eqb_eq. done.
Qed.

(** C1.  When no record is eligible, the maximum-duration query (loop
    and comprehension) and the longest-comment query raise the
    [ValueError] of [max] on an empty sequence; when they return, the
    record returned is an eligible record of the list, never a default
    value.  A record is eligible for the longest comment when it is of
    the year and its comments, mapped by [str.lower], contain the word
    mapped by [str.lower], whatever that mapping does to a string. *)
Theorem extremal_queries_on_empty_selection avs f anyo palabra :
  ((∀ a, a ∈ avs → forma a ≠ f) →
     avistamiento_mayor_duracion avs f = Raise ValueError
     ∧ avistamiento_mayor_duracion2 avs f = Raise ValueError)
  ∧ ((∀ a, a ∈ avs → ¬ elegible_comentario lower anyo palabra a) →
     comentario_mas_largo lower avs anyo palabra = Raise ValueError)
  ∧ (∀ m, avistamiento_mayor_duracion avs f = Return m
          ∨ avistamiento_mayor_duracion2 avs f = Return m →
          m ∈ avs ∧ forma m = f)
  ∧ (∀ m, comentario_mas_largo lower avs anyo palabra = Return m →
          m ∈ avs ∧ elegible_comentario lower anyo palabra m).
Proof.
  split; [|split; [|split]].
  - intros Hno. rewrite mayor_duracion_loop.
    unfold avistamiento_mayor_duracion2.
    rewrite filter_none; [done|]. by apply Forall_forall.
  - intros Hno. unfold comentario_mas_largo.
    rewrite comentario_filter, filter_none; [done|]. by apply Forall_forall.
  - intros m. rewrite mayor_duracion_loop.
    unfold avistamiento_mayor_duracion2. intros Hm.
    assert (m ∈ filter (λ a, forma a = f) avs) as Hin
      by (destruct Hm as [Hm|Hm]; by apply max_by_Return_elem in Hm).
    by apply list_elem_of_filter in Hin as [? ?].
  - intros m. unfold comentario_mas_largo. rewrite comentario_filter.
    intros Hm.
    assert (m ∈ filter (elegible_comentario lower anyo palabra) avs) as Hin
      by (by apply max_by_Return_elem in Hm).
    by apply list_elem_of_filter in Hin as [? ?].
Qed.

End Extremal.

(** *** 3.3 Sightings between two dates *)

Lemma en_rango_dentro fi ff a :
  en_rango fi ff a = true ↔ dentro_de fi ff (date_of (fechahora a)).
Proof.
  unfold en_rango, dentro_de. rewrite andb_true_iff.
  destruct fi as [i|], ff as [f|];
    rewrite ?date_le_leq, ?date_ge_le; split.
  - intros [? ?]. split; intros ? [= <-]; done.
  - intros [Hi Hf]. split; [by apply Hi|by apply Hf].
  - intros [? _]. split; [intros ? [= <-]; done|done].
  - intros [Hi _]. split; [by apply Hi|done].
  - intros [_ ?]. split; [done|intros ? [= <-]; done].
  - intros [_ Hf]. split; [done|by apply Hf].
  - done.
  - done.
Qed.

(** C3.  The result holds exactly the records whose date is in the
    inclusive range, each as often as in the input (all of them when
    both bounds are [None]); timestamps never increase along the
    result; and the records of one timestamp stand in their order of
    the input. *)
Theorem avistamientos_fechas_sorted_range avs fi ff :
  let res := avistamientos_fechas avs fi ff in
  (∀ a, en_rango fi ff a = true ↔ dentro_de fi ff (date_of (fechahora a)))
  ∧ res ≡ₚ filter (λ a, en_rango fi ff a = true) avs
  ∧ (∀ a, a ∈ res ↔ a ∈ avs ∧ dentro_de fi ff (date_of (fechahora a)))
  ∧ StronglySorted (λ a b, datetime_le (fechahora b) (fechahora a)) res
  ∧ (∀ t, filter (λ a, fechahora a = t) res
          = filter (λ a, fechahora a = t)
                   (filter (λ a, en_rango fi ff a = true) avs))
  ∧ (fi = None → ff = None → res ≡ₚ avs).
Proof.
  intros res.
  assert (res = sorted (λ a b, datetime_lt (fechahora a) (fechahora b)) true
                       (filter (λ a, en_rango fi ff a = true) avs)) as Hres.
  { unfold res, avistamientos_fechas.
    by rewrite foldl_append_filter, app_nil_l. }
  destruct (sorted_by_key_desc fechahora datetime_lt datetime_lt_asym
              datetime_lt_trans
              (filter (λ a, en_rango fi ff a = true) avs))
    as (Hsorted & Hperm & Hstable).
  rewrite <- Hres in Hsorted, Hperm, Hstable.
  split; [apply en_rango_dentro|]. split; [done|]. split; [|split; [|split]].
  - intros a. rewrite Hperm, list_elem_of_filter, en_rango_dentro. tauto.
  - eapply StronglySorted_weaken; [|exact Hsorted].
    intros x y. unfold desc. apply datetime_lt_false.
  - done.
  - intros -> ->. rewrite Hperm. clear.
    induction avs as [|a avs IH]; [done|].
    rewrite filter_cons. simpl. by rewrite IH.
Qed.

(** *** 3.5 Mean number of days between consecutive sightings *)

Section Media_dias.

Variable Coordenadas_lt : Coordenadas → Coordenadas → bool.

Lemma Avistamiento_lt_true a b :
  Avistamiento_lt Coordenadas_lt a b = true →
  datetime_le (fechahora a) (fechahora b).
Proof.
  unfold Avistamiento_lt. case_bool_decide as E; simpl.
  - intros _. rewrite E. apply datetime_le_refl.
  - apply datetime_lt_le.
Qed.

Lemma Avistamiento_lt_false a b :
  Avistamiento_lt Coordenadas_lt a b = false →
  datetime_le (fechahora b) (fechahora a).
Proof.
  unfold Avistamiento_lt. case_bool_decide as E; simpl.
  - intros _. rewrite E. apply datetime_le_refl.
  - apply datetime_lt_false.
Qed.

Lemma sorted_Avistamiento_lt l :
  StronglySorted (λ a b, datetime_le (fechahora a) (fechahora b))
                 (sorted (Avistamiento_lt Coordenadas_lt) false l).
Proof.
  apply Sorted_StronglySorted.
  - intros a b c. apply datetime_le_trans.
  - apply sort_asc_Sorted;
      [apply Avistamiento_lt_true|apply Avistamiento_lt_false].
Qed.

(** Two orderings of the same records by timestamp show the same
    timestamps in the same places. *)
Lemma sorted_timestamps_unique (s1 s2 : list (Avistamiento Coordenadas)) :
  s1 ≡ₚ s2 →
  StronglySorted (λ a b, datetime_le (fechahora a) (fechahora b)) s1 →
  StronglySorted (λ a b, datetime_le (fechahora a) (fechahora b)) s2 →
  fechahora <$> s1 = fechahora <$> s2.
Proof.
  intros Hp H1 H2.
  apply (StronglySorted_unique datetime_le).
  - by apply (StronglySorted_fmap fechahora
                (λ a b, datetime_le (fechahora a) (fechahora b)) datetime_le).
  - by apply (StronglySorted_fmap fechahora
                (λ a b, datetime_le (fechahora a) (fechahora b)) datetime_le).
  - by apply fmap_Permutation.
Qed.

Lemma dias_gaps (l : list (Avistamiento Coordenadas)) :
  foldl (λ dias p,
           dias ++ [days_between (date_of (fechahora p.2))
                                  (date_of (fechahora p.1))])
        [] (zip l (drop 1 l))
  = gaps (date_of <$> (fechahora <$> l)).
Proof.
  rewrite foldl_append_map, app_nil_l.
  induction l as [|a [|b l] IH]; simpl in *; try done.
  by rewrite <- IH.
Qed.

Lemma media_dias_sorted avs anyo :
  let sel := match anyo with
             | None => avs
             | Some y => filter (λ a, year (fechahora a) = y) avs
             end in
  let s := sorted (Avistamiento_lt Coordenadas_lt) false sel in
  media_dias_entre_avistamientos Coordenadas_lt avs anyo
  = if decide (length sel < 2)%nat then Return None
    else q ← mean_float (gaps (date_of <$> (fechahora <$> s)));
         Return (Some q).
Proof.
  intros sel s. unfold media_dias_entre_avistamientos.
  fold sel. fold s. rewrite dias_gaps.
  set (dias := gaps (date_of <$> (fechahora <$> s))).
  assert (length dias = pred (length sel)) as Hlen.
  { unfold dias. rewrite length_gaps, !length_fmap.
    unfold s. by rewrite (sorted_perm _ false sel). }
  unfold len. destruct (decide (length sel < 2)%nat) as [Hs|Hs].
  - destruct (0 <? Z.of_nat (length dias)) eqn:E; [lia|done].
  - destruct (0 <? Z.of_nat (length dias)) eqn:E; [|lia].
    unfold mean_float. by rewrite sum_foldr.
Qed.

(** C4.  With fewer than two records (of the year, when one is given)
    the result is [None].  Otherwise it is the arithmetic mean of the
    day differences between neighbours in any ordering of those records
    by ascending timestamp, and such an ordering exists; the mean is
    the sum of the differences divided by their number, which is not
    zero, the quotient rounded to binary64.  Three records dated
    2020-01-01, 2020-01-10 and 2020-01-20, in any order, give the
    binary64 value 9.5. *)
Theorem media_dias_is_mean_of_gaps avs anyo :
  let sel := match anyo with
             | None => avs
             | Some y => filter (λ a, year (fechahora a) = y) avs
             end in
  (∀ s, s ≡ₚ sel →
        StronglySorted (λ a b, datetime_le (fechahora a) (fechahora b)) s →
        media_dias_entre_avistamientos Coordenadas_lt avs anyo
        = if decide (length sel < 2)%nat then Return None
          else q ← mean_float (gaps (date_of <$> (fechahora <$> s)));
               Return (Some q))
  ∧ (∃ s, s ≡ₚ sel
          ∧ StronglySorted
              (λ a b, datetime_le (fechahora a) (fechahora b)) s)
  ∧ media_dias_entre_avistamientos Coordenadas_lt avs anyo
    ≠ Raise ZeroDivisionError
  ∧ (∀ a b c l,
        date_of (fechahora a) = mk_date 2020 1 1 →
        date_of (fechahora b) = mk_date 2020 1 10 →
        date_of (fechahora c) = mk_date 2020 1 20 →
        l ≡ₚ [a; b; c] →
        ∃ x, media_dias_entre_avistamientos Coordenadas_lt l None
             = Return (Some x)
             ∧ value_of x = Some (Q2Qc (19 # 2))).
Proof.
  intros sel. split; [|split; [|split]].
  - intros s Hp Hs. rewrite media_dias_sorted. fold sel.
    destruct (decide (length sel < 2)%nat); [done|].
    rewrite (sorted_timestamps_unique
               (sorted (Avistamiento_lt Coordenadas_lt) false sel) s);
      [done| |apply sorted_Avistamiento_lt|done].
    by rewrite sorted_perm.
  - exists (sorted (Avistamiento_lt Coordenadas_lt) false sel).
    split; [apply sorted_perm|apply sorted_Avistamiento_lt].
  - rewrite media_dias_sorted. fold sel.
    destruct (decide (length sel < 2)%nat) as [Hs|Hs]; [done|].
    set (g := gaps _).
    assert (length g = pred (length sel)) as Hlen.
    { unfold g. rewrite length_gaps, !length_fmap.
      by rewrite (sorted_perm _ false sel). }
    unfold mean_float, truediv_float.
    destruct (Z.of_nat (length g) =? 0) eqn:E0; [lia|].
    by destruct (SFdiv _ _ _ _).
  - intros a b c l Ha Hb Hc Hl. rewrite media_dias_sorted.
    rewrite (Permutation_length Hl).
    destruct (decide (length [a; b; c] < 2)%nat) as [Hlt|_];
      [simpl in Hlt; lia|].
    rewrite (sorted_timestamps_unique _ [a; b; c]).
    + simpl. rewrite Ha, Hb, Hc. eexists. split; [reflexivity|].
      vm_compute. f_equal. by apply Qc_is_canon.
    + by rewrite sorted_perm.
    + apply sorted_Avistamiento_lt.
    + destruct a as [[] ? ? ? ? ? ?], b as [[] ? ? ? ? ? ?],
               c as [[] ? ? ? ? ? ?].
      unfold date_of in *. simpl in *.
      injection Ha as -> -> ->. injection Hb as -> -> ->.
      injection Hc as -> -> ->.
      repeat constructor; done.
Qed.

End Media_dias.

End Queries.

(** ** The queries that build dictionaries *)

Section Dict_queries.

Context {Coordenadas : Type} `{Countable Coordenadas}.

Implicit Types (a : Avistamiento Coordenadas).
Implicit Types (avs : list (Avistamiento Coordenadas)).

(** The dictionary of lists that 4.9 and 4.13 build first. *)
Lemma por_estados_lookup avs (e : string) :
  foldl (λ d av,
           <[estado av := getitem_default [] d (estado av) ++ [av]]> d)
        (∅ : gmap string (list (Avistamiento Coordenadas))) avs !! e
  = match filter (λ a, estado a = e) avs with
    | [] => None
    | f => Some f
    end.
Proof.
  unfold getitem_default.
  rewrite (accumulate_lookup estado [] (λ a v, v ++ [a])), lookup_empty.
  destruct (filter (λ a, estado a = e) avs) as [|x f]; [done|].
  f_equal. simpl.
  rewrite (foldl_append_map (λ a, a)), list_fmap_id. done.
Qed.

(** *** 4.9 Longest sightings per state *)

Lemma mayor_duracion_por_estado_lookup avs n (e : string) :
  avistamientos_mayor_duracion_por_estado avs n !! e
  = match filter (λ a, estado a = e) avs with
    | [] => None
    | f => Some (slice_to (sorted (λ a b, duracion a <? duracion b) true f) n)
    end.
Proof.
  unfold avistamientos_mayor_duracion_por_estado.
  etrans; [apply (foldl_insert_items
    (λ l, slice_to (sorted (λ a b, duracion a <? duracion b) true l) n))|].
  rewrite por_estados_lookup.
  by destruct (filter (λ a, estado a = e) avs).
Qed.

Lemma filter_take_prefix {A} (P : A → Prop) `{∀ x, Decision (P x)}
    (k : nat) (s : list A) :
  filter P (take k s) `prefix_of` filter P s.
Proof.
  exists (filter P (drop k s)).
  by rewrite <- filter_app, take_drop.
Qed.

(** C6.  For [n >= 0], the list a state is mapped to is the first [n]
    elements of its records sorted stably by descending duration: it
    has at most [n] elements, all of that state, durations never
    increase along it, and the records of one duration stand in their
    order of the input. *)
Theorem mayor_duracion_por_estado_top_n avs n (e : string) l :
  0 ≤ n →
  avistamientos_mayor_duracion_por_estado avs n !! e = Some l →
  (∃ s, l = take (Z.to_nat n) s
        ∧ s ≡ₚ filter (λ a, estado a = e) avs
        ∧ StronglySorted (λ a b, duracion b ≤ duracion a) s
        ∧ ∀ d, filter (λ a, duracion a = d) s
               = filter (λ a, duracion a = d)
                        (filter (λ a, estado a = e) avs))
  ∧ Z.of_nat (length l) ≤ n
  ∧ Forall (λ a, estado a = e ∧ a ∈ avs) l
  ∧ StronglySorted (λ a b, duracion b ≤ duracion a) l
  ∧ ∀ d, filter (λ a, duracion a = d) l
         `prefix_of` filter (λ a, duracion a = d)
                            (filter (λ a, estado a = e) avs).
Proof.
  intros Hn. rewrite mayor_duracion_por_estado_lookup.
  destruct (filter (λ a, estado a = e) avs) as [|x f] eqn:E; [done|].
  rewrite <- E. intros Hl. apply (inj Some) in Hl. subst l.
  set (grp := filter (λ a, estado a = e) avs).
  destruct (sorted_by_key_desc duracion Z.ltb Zltb_asym Zltb_trans grp)
    as (Hsorted & Hperm & Hstable).
  set (s := sorted (λ a b, duracion a <? duracion b) true grp) in *.
  assert (StronglySorted (λ a b, duracion b ≤ duracion a) s) as Hs.
  { eapply StronglySorted_weaken; [|exact Hsorted].
    intros a b. unfold desc. lia. }
  assert (slice_to s n = take (Z.to_nat n) s) as ->.
  { unfold slice_to. destruct (n <? 0) eqn:En; [lia|done]. }
  split; [by exists s|]. split; [|split; [|split]].
  - rewrite length_take. lia.
  - apply Forall_forall. intros a Ha.
    assert (a ∈ grp) as Hg.
    { rewrite <- Hperm, <- (take_drop (Z.to_nat n) s).
      apply elem_of_app. by left. }
    apply list_elem_of_filter in Hg. tauto.
  - apply (StronglySorted_app_1_l _ _ (drop (Z.to_nat n) s)).
    by rewrite take_drop.
  - intros d. rewrite <- Hstable. apply filter_take_prefix.
Qed.

(** *** 4.8 Percentage of sightings per shape *)

Lemma porc_Return avs :
  porc_avistamientos_por_forma avs
  = Return ((λ c, (Qc_of_Z (100 * c) / Qc_of_Z (len avs))%Qc)
            <$> Counter (forma <$> avs)).
Proof.
  unfold porc_avistamientos_por_forma. apply percent_of_counter.
  intros Hc Hlen. apply Hc. destruct avs; [done|]. unfold len in Hlen.
  simpl in Hlen. lia.
Qed.

Lemma porc_bis_Return avs año :
  let sel := filter (λ a, year (fechahora a) = año) avs in
  porc_avistamientos_por_forma_bis avs año
  = Return ((λ c, (Qc_of_Z (100 * c) / Qc_of_Z (len sel))%Qc)
            <$> Counter (forma <$> sel)).
Proof.
  intros sel. unfold porc_avistamientos_por_forma_bis. fold sel.
  assert (sum (items (Counter (forma <$> sel))).*2 = len sel) as ->.
  { rewrite sum_foldr. unfold items. rewrite Counter_total.
    unfold len. by rewrite length_fmap. }
  apply percent_of_counter.
  intros Hc Hlen. apply Hc. destruct sel; [done|]. unfold len in Hlen.
  simpl in Hlen. lia.
Qed.

Lemma percent_lookup (l : list (Avistamiento Coordenadas)) (f : string) :
  ((λ c, (Qc_of_Z (100 * c) / Qc_of_Z (len l))%Qc)
   <$> Counter (forma <$> l)) !! f
  = match filter (λ a, forma a = f) l with
    | [] => None
    | lf => Some (Qc_of_Z (100 * len lf) / Qc_of_Z (len l))%Qc
    end.
Proof.
  rewrite lookup_fmap, Counter_fmap_lookup.
  by destruct (filter (λ a, forma a = f) l).
Qed.

Lemma percent_sum (l : list (Avistamiento Coordenadas)) :
  l ≠ [] →
  sum_values ((λ c, (Qc_of_Z (100 * c) / Qc_of_Z (len l))%Qc)
              <$> Counter (forma <$> l))
  = Qc_of_Z 100.
Proof.
  intros Hl. apply sum_values_percent.
  - destruct l; [done|]. unfold len. simpl. lia.
  - rewrite Counter_total. unfold len. by rewrite length_fmap.
Qed.

(** C7.  On a non-empty list the percentages per shape are returned and
    add up to 100; with a year, on a list with a record of that year,
    likewise, and the percentage of a shape is 100 times the number of
    records of that year with the shape over the number of records of
    that year. *)
Theorem porcentajes_sum_100 avs año :
  (avs ≠ [] →
     ∃ m, porc_avistamientos_por_forma avs = Return m
          ∧ sum_values m = Qc_of_Z 100
          ∧ ∀ f, m !! f
                 = match filter (λ a, forma a = f) avs with
                   | [] => None
                   | lf => Some (Qc_of_Z (100 * len lf)
                                 / Qc_of_Z (len avs))%Qc
                   end)
  ∧ (let sel := filter (λ a, year (fechahora a) = año) avs in
     sel ≠ [] →
     ∃ m, porc_avistamientos_por_forma_bis avs año = Return m
          ∧ sum_values m = Qc_of_Z 100
          ∧ ∀ f, m !! f
                 = match filter (λ a, forma a = f) sel with
                   | [] => None
                   | lf => Some (Qc_of_Z (100 * len lf)
                                 / Qc_of_Z (len sel))%Qc
                   end).
Proof.
  split.
  - intros Hne. eexists. split; [apply porc_Return|].
    split; [by apply percent_sum|apply percent_lookup].
  - intros sel Hne. eexists. split; [apply porc_bis_Return|].
    split; [by apply percent_sum|apply percent_lookup].
Qed.

(** *** 4.7 Mean comment length per state *)

Lemma longitudes_lookup avs (e : string) :
  foldl (λ d a,
           <[estado a := getitem_default [] d (estado a)
                         ++ [len_str (comentarios a)]]> d)
        (∅ : gmap string (list Z)) avs !! e
  = match filter (λ a, estado a = e) avs with
    | [] => None
    | f => Some ((λ a, len_str (comentarios a)) <$> f)
    end.
Proof.
  unfold getitem_default.
  rewrite (accumulate_lookup estado []
             (λ a v, v ++ [len_str (comentarios a)])).
  rewrite lookup_empty.
  destruct (filter (λ a, estado a = e) avs) as [|x f]; [done|].
  f_equal. simpl.
  by rewrite (foldl_append_map
                (λ a, len_str (comentarios a))).
Qed.

Lemma longitud_media_Return avs :
  longitud_media_comentarios_por_estado avs
  = Return
      ((λ ls, (Qc_of_Z (sum ls) / Qc_of_Z (len ls))%Qc)
       <$> foldl (λ d a,
                    <[estado a := getitem_default [] d (estado a)
                        ++ [len_str (comentarios a)]]> d)
                 (∅ : gmap string (list Z)) avs).
Proof.
  unfold longitud_media_comentarios_por_estado.
  set (grp := foldl _ ∅ avs).
  rewrite (for_each_pure _ _
    (λ d '(k, v), <[k := (Qc_of_Z (sum v) / Qc_of_Z (len v))%Qc]> d)).
  - f_equal. apply map_eq. intros k.
    rewrite (foldl_insert_items
               (λ v, (Qc_of_Z (sum v) / Qc_of_Z (len v))%Qc)).
    rewrite lookup_fmap, lookup_empty. by destruct (grp !! k).
  - intros [k ls] s Hin. apply elem_of_map_to_list in Hin.
    unfold grp in Hin. rewrite longitudes_lookup in Hin.
    destruct (filter (λ a, estado a = k) avs) as [|x f]; [done|].
    injection Hin as <-. done.
Qed.

Lemma longitud_media_lookup avs m (e : string) :
  longitud_media_comentarios_por_estado avs = Return m →
  m !! e
  = match filter (λ a, estado a = e) avs with
    | [] => None
    | f => Some (mean ((λ a, len_str (comentarios a))
                       <$> f))
    end.
Proof.
  rewrite longitud_media_Return. intros [= <-].
  rewrite lookup_fmap, longitudes_lookup.
  destruct (filter (λ a, estado a = e) avs) as [|x f]; [done|].
  simpl. unfold mean. by rewrite sum_foldr.
Qed.

(** C8.  The percentages per shape, with and without a year, and the
    mean comment lengths per state are always returned: no division by
    zero is reached.  A state in the result has at least one record
    and is mapped to the mean over its records.  On the empty list the
    three return the empty dictionary. *)
Theorem percentages_and_means_always_return avs año :
  (∃ m, porc_avistamientos_por_forma avs = Return m)
  ∧ (∃ m, porc_avistamientos_por_forma_bis avs año = Return m)
  ∧ (∃ m, longitud_media_comentarios_por_estado avs = Return m
          ∧ ∀ e q, m !! e = Some q →
                   ∃ x f, filter (λ a, estado a = e) avs = x :: f
                          ∧ q = mean ((λ a, len_str (comentarios a))
                                      <$> x :: f))
  ∧ porc_avistamientos_por_forma (Coordenadas := Coordenadas) []
    = Return ∅
  ∧ porc_avistamientos_por_forma_bis (Coordenadas := Coordenadas) [] año
    = Return ∅
  ∧ longitud_media_comentarios_por_estado (Coordenadas := Coordenadas) []
    = Return ∅.
Proof.
  split; [eexists; apply porc_Return|].
  split; [eexists; apply porc_bis_Return|].
  split; [|split; [|split]].
  - eexists. split; [apply longitud_media_Return|].
    intros e q.
    rewrite (longitud_media_lookup avs _ e) by apply longitud_media_Return.
    destruct (filter (λ a, estado a = e) avs) as [|x f]; [done|].
    intros [= <-]. eauto.
  - rewrite porc_Return.
    change (Counter (forma <$> [])) with (∅ : gmap string Z).
    by rewrite fmap_empty.
  - rewrite porc_bis_Return.
    change (Counter (forma <$> filter _ [])) with (∅ : gmap string Z).
    by rewrite fmap_empty.
  - rewrite longitud_media_Return.
    change (foldl _ ∅ []) with (∅ : gmap string (list Z)).
    by rewrite fmap_empty.
Qed.

(** *** 4.1 Sightings by date *)

Lemma por_fecha_Return avs :
  avistamientos_por_fecha avs
  = Return (foldl (λ res a,
                     <[date_of (fechahora a)
                         := {[a]} ∪ default ∅ (res !! date_of (fechahora a))]>
                       res)
                  ∅ avs).
Proof.
  apply for_each_pure. intros a res _. cbv zeta. unfold getitem.
  case_bool_decide as E.
  - rewrite lookup_insert_eq. simpl. by rewrite insert_insert_eq, E.
  - by destruct (res !! date_of (fechahora a)).
Qed.

Lemma foldl_add_set (f : list (Avistamiento Coordenadas))
    (s : gset (Avistamiento Coordenadas)) :
  foldl (λ s a, {[a]} ∪ s) s f = list_to_set f ∪ s.
Proof.
  revert s. induction f as [|a f IH]; intros s; simpl.
  - by rewrite union_empty_l_L.
  - by rewrite IH, (assoc_L (∪)), (comm_L (∪) (list_to_set f)).
Qed.

Lemma por_fecha_lookup avs m (d : date) :
  avistamientos_por_fecha avs = Return m →
  m !! d
  = match filter (λ a, date_of (fechahora a) = d) avs with
    | [] => None
    | f => Some (list_to_set f)
    end.
Proof.
  rewrite por_fecha_Return. intros [= <-].
  rewrite (accumulate_lookup (λ a, date_of (fechahora a)) ∅
             (λ a s, {[a]} ∪ s)), lookup_empty.
  destruct (filter (λ a, date_of (fechahora a) = d) avs) as [|x f];
    [done|].
  f_equal. rewrite foldl_add_set. apply union_empty_r_L.
Qed.

(** *** 4.3 Number of sightings per year *)

Lemma por_año_Return avs :
  numero_avistamientos_por_año avs
  = Return (foldl (λ res a,
                     <[year (fechahora a)
                         := default 0 (res !! year (fechahora a)) + 1]> res)
                  ∅ avs).
Proof.
  apply for_each_pure. intros a res _. cbv zeta. unfold getitem.
  case_bool_decide as E.
  - rewrite lookup_insert_eq. simpl. by rewrite insert_insert_eq, E.
  - by destruct (res !! year (fechahora a)).
Qed.

Lemma por_año_lookup avs m (y : Z) :
  numero_avistamientos_por_año avs = Return m →
  m !! y
  = match filter (λ a, year (fechahora a) = y) avs with
    | [] => None
    | f => Some (len f)
    end.
Proof.
  rewrite por_año_Return. intros [= <-].
  rewrite (accumulate_lookup (λ a, year (fechahora a)) 0 (λ _ c, c + 1)).
  rewrite lookup_empty.
  destruct (filter (λ a, year (fechahora a) = y) avs) as [|x f]; [done|].
  f_equal. generalize (x :: f). intros l. unfold len.
  assert (∀ z, foldl (λ c (_ : Avistamiento Coordenadas), c + 1) z l
               = z + Z.of_nat (length l)) as ->; [|done].
  induction l as [|b l IH]; intros z; simpl; [lia|]. rewrite IH. lia.
Qed.

(** *** 4.13 Most recent sighting per state *)

Lemma mas_reciente_Return avs :
  avistamiento_mas_reciente_por_estado avs
  = Return
      ((λ l, match max_by (λ y m, datetime_gt (fechahora y) (fechahora m)) l
             with
             | Return m => inr (fechahora m)
             | Raise _ => inl l
             end)
       <$> foldl (λ d av,
                    <[estado av := getitem_default [] d (estado av) ++ [av]]>
                      d)
                 (∅ : gmap string (list (Avistamiento Coordenadas))) avs).
Proof.
  unfold avistamiento_mas_reciente_por_estado.
  set (grp := foldl _ ∅ avs).
  set (g := λ l : list (Avistamiento Coordenadas),
         match max_by (λ y m, datetime_gt (fechahora y) (fechahora m)) l
         with
         | Return m => inr (fechahora m)
         | Raise _ => inl l
         end : list (Avistamiento Coordenadas) + datetime).
  rewrite (for_each_pure _ _ (λ d '(k, v), <[k := g v]> d)).
  - f_equal. apply map_eq. intros k.
    rewrite (foldl_insert_items g). rewrite !lookup_fmap.
    by destruct (grp !! k).
  - intros [k l] s Hin. apply elem_of_map_to_list in Hin.
    unfold grp in Hin. rewrite por_estados_lookup in Hin.
    destruct (filter (λ a, estado a = k) avs) as [|x f]; [done|].
    injection Hin as <-. done.
Qed.

Lemma mas_reciente_lookup avs m (e : string) v :
  avistamiento_mas_reciente_por_estado avs = Return m →
  m !! e = Some v →
  ∃ a, a ∈ avs ∧ estado a = e ∧ v = inr (fechahora a)
       ∧ ∀ b, b ∈ avs → estado b = e →
              datetime_le (fechahora b) (fechahora a).
Proof.
  rewrite mas_reciente_Return. intros [= <-].
  rewrite lookup_fmap, por_estados_lookup.
  destruct (filter (λ a, estado a = e) avs) as [|x f] eqn:E; [done|].
  rewrite <- E. intros Hv. apply (inj Some) in Hv. subst v.
  pose proof (max_by_spec
    (λ y m : Avistamiento Coordenadas,
       datetime_gt (fechahora y) (fechahora m))) as Hmax.
  unfold datetime_gt in Hmax. setoid_rewrite datetime_lt_false in Hmax.
  specialize (Hmax (λ a, datetime_le_refl _)
                   (λ a b c, datetime_le_trans _ _ _)
                   (λ a b, datetime_le_total _ _)
                   (filter (λ a, estado a = e) avs)).
  unfold datetime_gt.
  destruct (max_by _ (filter (λ a, estado a = e) avs)) as [m|err].
  - destruct Hmax as [Hin Hmax].
    apply list_elem_of_filter in Hin as [He Hin].
    exists m. repeat split; try done.
    intros b Hb Heb. apply datetime_lt_false, Hmax.
    by apply list_elem_of_filter.
  - destruct Hmax as [Hnil _]. rewrite E in Hnil. done.
Qed.

(** C10.  Each grouping is returned, and its keys are exactly the
    dates, years or states that occur in the input.  A date is mapped
    to the non-empty set of its records, a year to the positive number
    of its records, a state to the mean over its records and to the
    timestamp of one of its records that no other of its records
    exceeds.  The lists of the longest sightings per state are
    non-empty when [n] is positive.  On the empty list every one of
    these dictionaries is empty. *)
Theorem groupings_have_the_keys_of_the_input avs n :
  (∃ m, avistamientos_por_fecha avs = Return m
        ∧ dom m = list_to_set ((λ a, date_of (fechahora a)) <$> avs)
        ∧ ∀ d s, m !! d = Some s →
                 s ≠ ∅
                 ∧ s = list_to_set
                         (filter (λ a, date_of (fechahora a) = d) avs))
  ∧ (∃ m, numero_avistamientos_por_año avs = Return m
          ∧ dom m = list_to_set ((λ a, year (fechahora a)) <$> avs)
          ∧ ∀ y c, m !! y = Some c →
                   0 < c
                   ∧ c = len (filter (λ a, year (fechahora a) = y) avs))
  ∧ (∃ m, longitud_media_comentarios_por_estado avs = Return m
          ∧ dom m = list_to_set (estado <$> avs)
          ∧ ∀ e q, m !! e = Some q →
                   filter (λ a, estado a = e) avs ≠ []
                   ∧ q = mean ((λ a, len_str (comentarios a))
                               <$> filter (λ a, estado a = e) avs))
  ∧ (dom (avistamientos_mayor_duracion_por_estado avs n)
     = list_to_set (estado <$> avs)
     ∧ (0 < n →
        ∀ e l, avistamientos_mayor_duracion_por_estado avs n !! e = Some l →
               l ≠ []))
  ∧ (∃ m, avistamiento_mas_reciente_por_estado avs = Return m
          ∧ dom m = list_to_set (estado <$> avs)
          ∧ ∀ e v, m !! e = Some v →
                   ∃ a, a ∈ avs ∧ estado a = e ∧ v = inr (fechahora a)
                        ∧ ∀ b, b ∈ avs → estado b = e →
                               datetime_le (fechahora b) (fechahora a))
  ∧ (avistamientos_por_fecha (Coordenadas := Coordenadas) [] = Return ∅
     ∧ numero_avistamientos_por_año (Coordenadas := Coordenadas) []
       = Return ∅
     ∧ longitud_media_comentarios_por_estado (Coordenadas := Coordenadas) []
       = Return ∅
     ∧ avistamientos_mayor_duracion_por_estado
         (Coordenadas := Coordenadas) [] n = ∅
     ∧ avistamiento_mas_reciente_por_estado (Coordenadas := Coordenadas) []
       = Return ∅).
Proof.
  split; [|split; [|split; [|split; [|split]]]].
  - eexists. split; [apply por_fecha_Return|]. split.
    + apply (dom_of_lookup _ _ _ list_to_set). intros d.
      apply por_fecha_lookup, por_fecha_Return.
    + intros d s. rewrite (por_fecha_lookup avs _ d (por_fecha_Return avs)).
      destruct (filter (λ a, date_of (fechahora a) = d) avs) as [|x f];
        [done|].
      intros [= <-]. split; [|done]. simpl.
      intros Hs. assert (x ∈ ({[x]} ∪ list_to_set f : gset _)) as Hx
        by (apply elem_of_union; left; by apply elem_of_singleton).
      rewrite Hs in Hx. by apply not_elem_of_empty in Hx.
  - eexists. split; [apply por_año_Return|]. split.
    + apply (dom_of_lookup _ _ _ len). intros y.
      apply por_año_lookup, por_año_Return.
    + intros y c. rewrite (por_año_lookup avs _ y (por_año_Return avs)).
      destruct (filter (λ a, year (fechahora a) = y) avs) as [|x f];
        [done|].
      intros [= <-]. split; [|done]. unfold len. simpl. lia.
  - eexists. split; [apply longitud_media_Return|]. split.
    + apply (dom_of_lookup _ _ _
               (λ f, mean ((λ a, len_str (comentarios a))
                           <$> f))).
      intros e. apply longitud_media_lookup, longitud_media_Return.
    + intros e q.
      rewrite (longitud_media_lookup avs _ e (longitud_media_Return avs)).
      destruct (filter (λ a, estado a = e) avs) as [|x f]; [done|].
      by intros [= <-].
  - split.
    + apply (dom_of_lookup _ _ _
               (λ f, slice_to
                       (sorted (λ a b, duracion a <? duracion b) true f) n)).
      intros e. apply mayor_duracion_por_estado_lookup.
    + intros Hn e l. rewrite mayor_duracion_por_estado_lookup.
      destruct (filter (λ a, estado a = e) avs) as [|x f]; [done|].
      intros Hl. apply (inj Some) in Hl. subst l.
      unfold slice_to. destruct (n <? 0) eqn:En; [lia|].
      pose proof (Permutation_length
                    (sorted_perm (λ a b, duracion a <? duracion b) true
                                 (x :: f))) as Hlen.
      destruct (sorted _ true (x :: f)) as [|y s]; [done|].
      destruct (Z.to_nat n) eqn:En'; [lia|done].
  - eexists. split; [apply mas_reciente_Return|]. split.
    + apply (dom_of_lookup _ _ _
        (λ l, match max_by (λ y m, datetime_gt (fechahora y) (fechahora m)) l
              with
              | Return m => inr (fechahora m)
              | Raise _ => inl l
              end)).
      intros e. rewrite lookup_fmap, por_estados_lookup.
      by destruct (filter (λ a, estado a = e) avs).
    + intros e v. apply mas_reciente_lookup, mas_reciente_Return.
  - split; [done|]. split; [done|]. split; [done|]. split.
    + unfold avistamientos_mayor_duracion_por_estado, items. simpl.
      by rewrite map_to_list_empty.
    + unfold avistamiento_mas_reciente_por_estado, items. simpl.
      by rewrite map_to_list_empty, fmap_empty.
Qed.

End Dict_queries.

(** ** Further properties of the queries *)

Lemma foldl_count {A} (p : A → bool) (l : list A) (z : Z) :
  foldl (λ c a, if p a then c + 1 else c) z l
  = z + len (filter (λ a, p a = true) l).
Proof.
  revert z. induction l as [|x l IH]; intros z; simpl.
  - unfold len. simpl. lia.
  - rewrite IH. unfold len. destruct (p x) eqn:E.
    + rewrite filter_cons_True by done.
      rewrite length_cons, Nat2Z.inj_succ. lia.
    + rewrite filter_cons_False by (by rewrite E). lia.
Qed.

Lemma foldl_add_if {A} (p : A → bool) (g : A → Z) (l : list A) (z : Z) :
  foldl (λ d a, if p a then d + g a else d) z l
  = z + foldr Z.add 0 (g <$> filter (λ a, p a = true) l).
Proof.
  revert z. induction l as [|x l IH]; intros z; simpl.
  - lia.
  - rewrite IH. destruct (p x) eqn:E.
    + rewrite filter_cons_True by done. rewrite fmap_cons. simpl. lia.
    + rewrite filter_cons_False by (by rewrite E). lia.
Qed.

Lemma foldl_add_if_set {A} `{Countable B} (p : A → bool) (g : A → B)
    (l : list A) (s : gset B) :
  foldl (λ s a, if p a then {[g a]} ∪ s else s) s l
  = list_to_set (g <$> filter (λ a, p a = true) l) ∪ s.
Proof.
  revert s. induction l as [|x l IH]; intros s; simpl.
  - by rewrite union_empty_l_L.
  - rewrite IH, filter_cons. destruct (p x); simpl; [|done].
    by rewrite (assoc_L (∪)), (comm_L (∪) _ {[g x]}).
Qed.

Lemma size_list_to_set_le `{Countable B} (l : list B) :
  (size (list_to_set l : gset B) ≤ length l)%nat.
Proof.
  induction l as [|x l IH].
  - by rewrite list_to_set_nil, size_empty.
  - rewrite list_to_set_cons, size_union_alt, size_singleton, length_cons.
    assert (size (list_to_set l ∖ {[x]} : gset B)
            ≤ size (list_to_set l : gset B))%nat as Hle.
    { apply subseteq_size. intros y Hy.
      by apply elem_of_difference in Hy as [? _]. }
    lia.
Qed.

Section More_queries.

Context {Coordenadas : Type} `{Countable Coordenadas}.

Implicit Types (a : Avistamiento Coordenadas).
Implicit Types (avs : list (Avistamiento Coordenadas)).

(** X1.  The loop and the comprehension count the same records, those
    whose date is [fecha]; the count is additive over concatenation and
    is zero exactly when no record has that date. *)
Theorem numero_avistamientos_fecha_counts avs fecha :
  numero_avistamientos_fecha avs fecha
  = len (filter (λ a, date_of (fechahora a) = fecha) avs)
  ∧ numero_avistamientos_fecha2 avs fecha
    = numero_avistamientos_fecha avs fecha
  ∧ (∀ avs', numero_avistamientos_fecha (avs ++ avs') fecha
             = numero_avistamientos_fecha avs fecha
               + numero_avistamientos_fecha avs' fecha)
  ∧ (numero_avistamientos_fecha avs fecha = 0
     ↔ ∀ a, a ∈ avs → date_of (fechahora a) ≠ fecha).
Proof.
  assert (∀ l, numero_avistamientos_fecha l fecha
               = len (filter (λ a, date_of (fechahora a) = fecha) l)) as Hc.
  { intros l. unfold numero_avistamientos_fecha.
    by rewrite foldl_count, filter_bool_decide. }
  split; [apply Hc|]. split; [|split].
  - rewrite Hc. unfold numero_avistamientos_fecha2, len.
    by rewrite length_fmap.
  - intros avs'. rewrite !Hc, filter_app. unfold len.
    rewrite length_app. lia.
  - rewrite Hc. unfold len. split.
    + intros Hz a Ha Hd.
      assert (a ∈ filter (λ a, date_of (fechahora a) = fecha) avs) as Hin
        by (by apply list_elem_of_filter).
      destruct (filter _ avs); [by apply elem_of_nil in Hin|].
      simpl in Hz. lia.
    + intros Hno. rewrite filter_none; [done|]. by apply Forall_forall.
Qed.

(** X4.  The variant of 4.1 on a plain dictionary never raises
    [KeyError] and returns the dictionary of the [defaultdict]
    variant. *)
Theorem avistamientos_por_fecha_variants avs :
  avistamientos_por_fecha avs = Return (avistamientos_por_fecha2 avs).
Proof. apply por_fecha_Return. Qed.

(** X5.  The loop and the comprehension of 2.2 agree; the number of
    shapes is at most the number of records in the states, is zero for
    the empty set of states, and grows with the set of states. *)
Theorem formas_estados_counts avs (estados : gset string) :
  formas_estados2 avs estados = formas_estados avs estados
  ∧ 0 ≤ formas_estados avs estados
      ≤ len (filter (λ a, estado a ∈ estados) avs)
  ∧ formas_estados avs ∅ = 0
  ∧ (∀ estados' : gset string,
       estados ⊆ estados' →
       formas_estados avs estados ≤ formas_estados avs estados').
Proof.
  assert (∀ E : gset string,
            formas_estados avs E
            = Z.of_nat (size (list_to_set
                (forma <$> filter (λ a, estado a ∈ E) avs) : gset string)))
    as Hc.
  { intros E. unfold formas_estados.
    rewrite (foldl_add_if_set (λ a, bool_decide (estado a ∈ E)) forma).
    by rewrite union_empty_r_L, filter_bool_decide. }
  split; [by rewrite Hc|]. split; [|split].
  - rewrite Hc. split; [lia|]. unfold len.
    pose proof (size_list_to_set_le
                  (forma <$> filter (λ a, estado a ∈ estados) avs)) as Hle.
    rewrite length_fmap in Hle. lia.
  - rewrite Hc, filter_none; [done|].
    apply Forall_forall. intros a _. apply not_elem_of_empty.
  - intros estados' Hsub. rewrite !Hc. apply inj_le, subseteq_size.
    intros f. rewrite !elem_of_list_to_set, !list_elem_of_fmap.
    intros (a & -> & Ha). exists a. split; [done|].
    apply list_elem_of_filter in Ha as [He Ha].
    apply list_elem_of_filter. split; [by apply Hsub|done].
Qed.

(** X6.  The loop and the comprehension of 2.3 agree; the total is the
    sum of the durations of the records of the state, is additive over
    concatenation, and is zero for a state without records. *)
Theorem duracion_total_sums avs (e : string) :
  duracion_total2 avs e = duracion_total avs e
  ∧ duracion_total avs e
    = foldr Z.add 0 (duracion <$> filter (λ a, estado a = e) avs)
  ∧ (∀ avs', duracion_total (avs ++ avs') e
             = duracion_total avs e + duracion_total avs' e)
  ∧ ((∀ a, a ∈ avs → estado a ≠ e) → duracion_total avs e = 0).
Proof.
  assert (∀ l, duracion_total l e
               = foldr Z.add 0 (duracion <$> filter (λ a, estado a = e) l))
    as Hc.
  { intros l. unfold duracion_total.
    by rewrite (foldl_add_if (λ a, bool_decide (estado a = e)) duracion),
      filter_bool_decide. }
  split; [|split; [apply Hc|split]].
  - rewrite Hc. unfold duracion_total2. apply sum_foldr.
  - intros avs'. rewrite !Hc, filter_app, fmap_app, foldr_app.
    generalize (foldr Z.add 0
                  (duracion <$> filter (λ a, estado a = e) avs')).
    intros z. induction (duracion <$> filter (λ a, estado a = e) avs)
      as [|x l IH]; simpl; lia.
  - intros Hno. rewrite Hc, filter_none; [done|]. by apply Forall_forall.
Qed.

(** X10.  The three variants of 4.3 return the same dictionary, the
    first without ever raising [KeyError]; a year is mapped to the number
    of its records, and the numbers add up to the length of the list. *)
Theorem numero_avistamientos_por_anyo_variants avs :
  numero_avistamientos_por_año avs
  = Return (numero_avistamientos_por_año2 avs)
  ∧ numero_avistamientos_por_año3 avs = numero_avistamientos_por_año2 avs
  ∧ (∀ y, numero_avistamientos_por_año2 avs !! y
          = match filter (λ a, year (fechahora a) = y) avs with
            | [] => None
            | f => Some (len f)
            end)
  ∧ sum (items (numero_avistamientos_por_año2 avs)).*2 = len avs.
Proof.
  assert (numero_avistamientos_por_año3 avs
          = numero_avistamientos_por_año2 avs) as H32.
  { unfold numero_avistamientos_por_año3, numero_avistamientos_por_año2,
      Counter. by rewrite foldl_fmap. }
  split; [|split; [done|split]].
  - rewrite por_año_Return. by rewrite <- H32.
  - intros y. apply Counter_fmap_lookup.
  - rewrite sum_foldr. unfold items, numero_avistamientos_por_año2.
    rewrite Counter_total. unfold len. by rewrite length_fmap.
Qed.

End More_queries.

(** [max] returns the first of the elements of largest key. *)
Lemma max_by_from_first {A} (key : A → Z) (gt : A → A → bool) :
  (∀ y m, gt y m = (key m <? key y)) →
  ∀ xs l1 x mid,
    Forall (λ y, key y < key x) l1 →
    Forall (λ y, key y ≤ key x) mid →
    ∃ l1' l2',
      l1 ++ x :: mid ++ xs
      = l1' ++ foldl (λ m y, if gt y m then y else m) x xs :: l2'
      ∧ Forall (λ y, key y < key (foldl (λ m y, if gt y m then y else m) x xs))
               l1'
      ∧ Forall (λ y, key y ≤ key (foldl (λ m y, if gt y m then y else m) x xs))
               l2'.
Proof.
  intros Hgt. induction xs as [|z xs IH]; intros l1 x mid H1 Hmid; simpl.
  - exists l1, mid. by rewrite app_nil_r.
  - rewrite Hgt. destruct (key x <? key z) eqn:E.
    + destruct (IH (l1 ++ x :: mid) z []) as (l1' & l2' & Heq & Hl1 & Hl2).
      * apply Forall_app. split.
        -- eapply Forall_impl; [exact H1|]. intros y Hy. simpl in Hy. lia.
        -- apply Forall_cons. split; [lia|].
           eapply Forall_impl; [exact Hmid|]. intros y Hy. simpl in Hy. lia.
      * constructor.
      * exists l1', l2'. split; [|done].
        rewrite <- Heq. simpl. by rewrite <- !app_assoc.
    + destruct (IH l1 x (mid ++ [z])) as (l1' & l2' & Heq & Hl1 & Hl2).
      * done.
      * apply Forall_app. split; [done|]. apply Forall_singleton. lia.
      * exists l1', l2'. split; [|done].
        rewrite <- Heq. by rewrite <- !app_assoc.
Qed.

Lemma max_by_first {A} (key : A → Z) (gt : A → A → bool) (xs : list A) (m : A) :
  (∀ y m, gt y m = (key m <? key y)) →
  max_by gt xs = Return m →
  ∃ l1 l2, xs = l1 ++ m :: l2
           ∧ Forall (λ y, key y < key m) l1
           ∧ Forall (λ y, key y ≤ key m) l2.
Proof.
  intros Hgt. destruct xs as [|x xs]; [done|]. simpl. intros [= <-].
  destruct (max_by_from_first key gt Hgt xs [] x [])
    as (l1 & l2 & Heq & H1 & H2); [constructor|constructor|].
  exists l1, l2. simpl in Heq. done.
Qed.

(** Two lists in descending order of their keys that show the elements
    of each key in the same order are equal. *)
Lemma stable_sorted_unique {A K} `{EqDecision K} (key : A → K)
    (klt : K → K → bool) (l1 l2 : list A) :
  (∀ x y, klt x y = false → klt y x = false → x = y) →
  StronglySorted (desc key klt) l1 →
  StronglySorted (desc key klt) l2 →
  (∀ k, filter (λ a, key a = k) l1 = filter (λ a, key a = k) l2) →
  l1 = l2.
Proof.
  intros Hanti Hs1. revert l2.
  induction Hs1 as [|x l1 Hs1 IH Hx]; intros l2 Hs2 Hf.
  - destruct l2 as [|y l2]; [done|].
    specialize (Hf (key y)). rewrite filter_nil, filter_cons_True in Hf by done.
    done.
  - destruct Hs2 as [|y l2 Hs2 Hy].
    { specialize (Hf (key x)).
      rewrite filter_nil, filter_cons_True in Hf by done. done. }
    assert (x ∈ y :: l2) as Hxin.
    { assert (x ∈ filter (λ a, key a = key x) (y :: l2)) as Hin.
      { rewrite <- Hf, filter_cons_True by done. by left. }
      by apply list_elem_of_filter in Hin as [_ ?]. }
    assert (y ∈ x :: l1) as Hyin.
    { assert (y ∈ filter (λ a, key a = key y) (x :: l1)) as Hin.
      { rewrite Hf, filter_cons_True by done. by left. }
      by apply list_elem_of_filter in Hin as [_ ?]. }
    assert (key x = key y) as Hk.
    { apply elem_of_cons in Hxin as [->|Hxin]; [done|].
      apply elem_of_cons in Hyin as [->|Hyin]; [done|].
      rewrite Forall_forall in Hx, Hy.
      apply Hanti; [by apply Hx|by apply Hy]. }
    assert (x = y) as ->.
    { specialize (Hf (key x)).
      rewrite filter_cons_True in Hf by done.
      rewrite filter_cons_True in Hf by done. congruence. }
    f_equal. apply IH; [done|]. intros k. specialize (Hf k).
    rewrite !filter_cons in Hf. destruct (decide (key y = k)); congruence.
Qed.

Lemma date_fields_inj a b : date_fields a = date_fields b → a = b.
Proof. destruct a, b. unfold date_fields. simpl. congruence. Qed.

Lemma date_leq_antisym a b : date_leq a b → date_leq b a → a = b.
Proof.
  unfold date_leq, date_cmp. intros Hab Hba.
  rewrite cmp_fields_antisym in Hba.
  apply date_fields_inj, cmp_fields_eq.
  by destruct (cmp_fields (date_fields a) (date_fields b)).
Qed.

Lemma date_leq_refl a : date_leq a a.
Proof. unfold date_leq, date_cmp. by rewrite cmp_fields_refl. Qed.

Lemma datetime_lt_antisym a b :
  datetime_lt a b = false → datetime_lt b a = false → a = b.
Proof.
  rewrite !datetime_lt_false. intros Hba Hab. by apply datetime_le_antisym.
Qed.

Lemma Zltb_antisym (x y : Z) : (x <? y) = false → (y <? x) = false → x = y.
Proof. lia. Qed.

(** The day differences between neighbours add up to the difference
    between the last date and the first. *)
Lemma gaps_telescope (d0 dn : date) (mid : list date) :
  foldr Z.add 0 (gaps (d0 :: mid ++ [dn])) = days_between dn d0.
Proof.
  revert d0. induction mid as [|d mid IH]; intros d0.
  - simpl. lia.
  - change (foldr Z.add 0 (gaps (d0 :: (d :: mid) ++ [dn])))
      with (days_between d d0 + foldr Z.add 0 (gaps (d :: mid ++ [dn]))).
    rewrite IH. unfold days_between. lia.
Qed.

Section More_queries_2.

Context {Coordenadas : Type} `{Countable Coordenadas}.

Implicit Types (a : Avistamiento Coordenadas).
Implicit Types (avs : list (Avistamiento Coordenadas)).

Lemma numero_fecha_len avs fecha :
  numero_avistamientos_fecha avs fecha
  = len (filter (λ a, date_of (fechahora a) = fecha) avs).
Proof.
  unfold numero_avistamientos_fecha.
  by rewrite foldl_count, filter_bool_decide.
Qed.

Lemma fechas_sorted_filter avs fi ff :
  avistamientos_fechas avs fi ff
  = sorted (λ a b, datetime_lt (fechahora a) (fechahora b)) true
           (filter (λ a, en_rango fi ff a = true) avs).
Proof. unfold avistamientos_fechas. by rewrite foldl_append_filter. Qed.

(** X2.  The number of sightings on a date is the length of the list of
    sightings between that date and itself. *)
Theorem numero_avistamientos_fecha_is_range_length avs fecha :
  numero_avistamientos_fecha avs fecha
  = len (avistamientos_fechas avs (Some fecha) (Some fecha)).
Proof.
  rewrite numero_fecha_len, fechas_sorted_filter. unfold len.
  rewrite (sorted_perm _ true). do 2 f_equal.
  apply list_filter_iff. intros a. rewrite en_rango_dentro.
  unfold dentro_de. split.
  - intros <-. split; intros ? [= <-]; apply date_leq_refl.
  - intros [Hi Hf]. symmetry.
    apply date_leq_antisym; [by apply Hi|by apply Hf].
Qed.

(** X3.  In the dictionary of 4.1 a date is absent exactly when no record
    has it; the set of a date has at most as many elements as there are
    records on the date, and exactly as many when no record is repeated in
    the list. *)
Theorem avistamientos_por_fecha_sizes avs m fecha :
  avistamientos_por_fecha avs = Return m →
  (m !! fecha = None ↔ numero_avistamientos_fecha avs fecha = 0)
  ∧ ∀ s, m !! fecha = Some s →
         Z.of_nat (size s) ≤ numero_avistamientos_fecha avs fecha
         ∧ (NoDup avs →
            Z.of_nat (size s) = numero_avistamientos_fecha avs fecha).
Proof.
  intros Hm. rewrite (por_fecha_lookup avs m fecha Hm), numero_fecha_len.
  unfold len.
  destruct (filter (λ a, date_of (fechahora a) = fecha) avs) as [|x f] eqn:E.
  - split; [done|]. intros s. done.
  - split; [split; [done|simpl; lia]|].
    intros s Hs. apply (inj Some) in Hs. subst s. split.
    + apply inj_le. apply size_list_to_set_le.
    + intros Hnd. f_equal. apply size_list_to_set.
      rewrite <- E. by apply NoDup_filter.
Qed.

(** *** 4.9, continued *)

Lemma top_n_sorted avs (e : string) :
  let grp := filter (λ a, estado a = e) avs in
  let s := sorted (λ a b, duracion a <? duracion b) true grp in
  StronglySorted (λ a b, duracion b ≤ duracion a) s ∧ s ≡ₚ grp.
Proof.
  intros grp s.
  destruct (sorted_by_key_desc duracion Z.ltb Zltb_asym Zltb_trans grp)
    as (Hsorted & Hperm & _).
  split; [|done]. eapply StronglySorted_weaken; [|exact Hsorted].
  intros a b. unfold desc. lia.
Qed.

(** X7.  For [n >= 0] the list of a state is a top [n]: the records of
    the state are the listed ones and a rest, and no record of the rest
    lasts longer than a listed one. *)
Theorem mayor_duracion_por_estado_is_top avs n (e : string) l :
  0 ≤ n →
  avistamientos_mayor_duracion_por_estado avs n !! e = Some l →
  ∃ rest, filter (λ a, estado a = e) avs ≡ₚ l ++ rest
          ∧ ∀ a b, a ∈ l → b ∈ rest → duracion b ≤ duracion a.
Proof.
  intros Hn. rewrite mayor_duracion_por_estado_lookup.
  destruct (filter (λ a, estado a = e) avs) as [|x f] eqn:E; [done|].
  rewrite <- E. intros Hl. apply (inj Some) in Hl. subst l.
  destruct (top_n_sorted avs e) as [Hs Hp]. cbv zeta in Hs, Hp.
  set (s := sorted (λ a b, duracion a <? duracion b) true
                   (filter (λ a, estado a = e) avs)) in *.
  unfold slice_to. destruct (n <? 0) eqn:En; [lia|].
  exists (drop (Z.to_nat n) s). split.
  - by rewrite take_drop.
  - intros a b Ha Hb. rewrite <- (take_drop (Z.to_nat n) s) in Hs.
    by apply (StronglySorted_app_1_elem_of _ _ _ _ _ Hs).
Qed.

(** X8.  The list of a state has [min n g] elements for [n >= 0] and
    [max 0 (g + n)] elements for [n < 0], where [g] is the number of
    records of the state: a negative [n] leaves out the [-n] shortest. *)
Theorem mayor_duracion_por_estado_length avs n (e : string) l :
  avistamientos_mayor_duracion_por_estado avs n !! e = Some l →
  let g := len (filter (λ a, estado a = e) avs) in
  len l = if n <? 0 then Z.max 0 (g + n) else Z.min n g.
Proof.
  rewrite mayor_duracion_por_estado_lookup.
  destruct (filter (λ a, estado a = e) avs) as [|x f] eqn:E; [done|].
  rewrite <- E. intros Hl. apply (inj Some) in Hl. subst l.
  destruct (top_n_sorted avs e) as [_ Hp]. cbv zeta in Hp.
  apply Permutation_length in Hp.
  set (s := sorted (λ a b, duracion a <? duracion b) true
                   (filter (λ a, estado a = e) avs)) in *.
  intros g. unfold g, slice_to, len. rewrite <- Hp.
  destruct (n <? 0) eqn:En; rewrite length_take; lia.
Qed.

(** X9.  When [n] is at least the number of records of a state, the list
    of the state holds all of them, and their durations add up to the
    total duration of the state. *)
Theorem mayor_duracion_por_estado_total avs n (e : string) l :
  len (filter (λ a, estado a = e) avs) ≤ n →
  avistamientos_mayor_duracion_por_estado avs n !! e = Some l →
  l ≡ₚ filter (λ a, estado a = e) avs
  ∧ sum (duracion <$> l) = duracion_total avs e.
Proof.
  intros Hn. rewrite mayor_duracion_por_estado_lookup.
  destruct (filter (λ a, estado a = e) avs) as [|x f] eqn:E; [done|].
  rewrite <- E in *. intros Hl. apply (inj Some) in Hl. subst l.
  destruct (top_n_sorted avs e) as [_ Hp]. cbv zeta in Hp.
  set (s := sorted (λ a b, duracion a <? duracion b) true
                   (filter (λ a, estado a = e) avs)) in *.
  assert (slice_to s n = s) as ->.
  { unfold slice_to, len in *. apply Permutation_length in Hp.
    destruct (n <? 0) eqn:En; [lia|]. apply take_ge. lia. }
  split; [done|]. rewrite sum_foldr.
  rewrite (foldr_values_perm Z.add 0 Z.add_assoc Z.add_comm _
             (duracion <$> filter (λ a, estado a = e) avs))
    by (by apply fmap_Permutation).
  unfold duracion_total.
  by rewrite (foldl_add_if (λ a, bool_decide (estado a = e)) duracion),
    filter_bool_decide.
Qed.

(** *** 3.1 and 3.4, continued *)

(** X15.  When some record has the shape, the query returns, in both
    variants, the first of the records of the shape with the largest
    duration: the records of the shape before it are shorter, those after
    it not longer. *)
Theorem avistamiento_mayor_duracion_first_longest avs (f : string) :
  avistamiento_mayor_duracion2 avs f = avistamiento_mayor_duracion avs f
  ∧ ((∃ a, a ∈ avs ∧ forma a = f) →
     ∃ m, avistamiento_mayor_duracion avs f = Return m)
  ∧ ∀ m, avistamiento_mayor_duracion avs f = Return m →
         ∃ l1 l2, filter (λ a, forma a = f) avs = l1 ++ m :: l2
                  ∧ Forall (λ a, duracion a < duracion m) l1
                  ∧ Forall (λ a, duracion a ≤ duracion m) l2.
Proof.
  split; [by rewrite mayor_duracion_loop|]. rewrite mayor_duracion_loop.
  unfold avistamiento_mayor_duracion2. split.
  - intros (a & Ha & Hf).
    assert (a ∈ filter (λ a, forma a = f) avs) as Hin
      by (by apply list_elem_of_filter).
    destruct (filter _ avs); [by apply elem_of_nil in Hin|].
    simpl. eauto.
  - intros m Hm.
    apply (max_by_first duracion _ _ _ (λ y m, Z.gtb_ltb _ _) Hm).
Qed.

(** X16.  When some record is eligible, the query of the longest comment
    returns the first of the eligible records with the longest comment,
    the length of a comment being its number of code points; this holds
    whatever [str.lower] maps a string to. *)
Theorem comentario_mas_largo_first_longest
    (lower : string → string) avs anyo palabra :
  ((∃ a, a ∈ avs ∧ elegible_comentario lower anyo palabra a) →
   ∃ m, comentario_mas_largo lower avs anyo palabra = Return m)
  ∧ ∀ m, comentario_mas_largo lower avs anyo palabra = Return m →
         ∃ l1 l2,
           filter (elegible_comentario lower anyo palabra) avs
           = l1 ++ m :: l2
           ∧ Forall (λ a, len_str (comentarios a)
                          < len_str (comentarios m)) l1
           ∧ Forall (λ a, len_str (comentarios a)
                          ≤ len_str (comentarios m)) l2.
Proof.
  unfold comentario_mas_largo. rewrite comentario_filter. split.
  - intros (a & Ha & He).
    assert (a ∈ filter (elegible_comentario lower anyo palabra) avs) as Hin
      by (by apply list_elem_of_filter).
    destruct (filter _ avs); [by apply elem_of_nil in Hin|].
    simpl. eauto.
  - intros m Hm.
    apply (max_by_first (λ a, len_str (comentarios a)) _ _ _
             (λ y m, Z.gtb_ltb _ _) Hm).
Qed.

End More_queries_2.

Lemma filter_iff_in {A} (P Q : A → Prop) `{∀ x, Decision (P x)}
    `{∀ x, Decision (Q x)} (l : list A) :
  Forall (λ x, P x ↔ Q x) l → filter P l = filter Q l.
Proof.
  induction 1 as [|x l Hx _ IH]; [done|].
  rewrite !filter_cons, IH.
  destruct (decide (P x)), (decide (Q x)); tauto.
Qed.

Section More_queries_3.

Context {Coordenadas : Type} `{Countable Coordenadas}.

Implicit Types (a : Avistamiento Coordenadas).
Implicit Types (avs : list (Avistamiento Coordenadas)).

(** X17.  Querying the result of a query for a range again, for a range
    inside the first, gives what the query for the inner range gives on
    the list itself; in particular a repeated query changes nothing, and
    the result for the inner range is part of that for the outer. *)
Theorem avistamientos_fechas_narrowing avs fi ff fi' ff' :
  (∀ d, dentro_de fi ff d → dentro_de fi' ff' d) →
  avistamientos_fechas (avistamientos_fechas avs fi' ff') fi ff
  = avistamientos_fechas avs fi ff
  ∧ avistamientos_fechas (avistamientos_fechas avs fi ff) fi ff
    = avistamientos_fechas avs fi ff
  ∧ ∀ a, a ∈ avistamientos_fechas avs fi ff →
         a ∈ avistamientos_fechas avs fi' ff'.
Proof.
  intros Hsub.
  assert (∀ gi gf, (∀ d, dentro_de fi ff d → dentro_de gi gf d) →
            avistamientos_fechas (avistamientos_fechas avs gi gf) fi ff
            = avistamientos_fechas avs fi ff) as Hcomp.
  { intros gi gf Hg. rewrite !fechas_sorted_filter.
    set (lt := λ a b : Avistamiento Coordenadas,
                 datetime_lt (fechahora a) (fechahora b)).
    set (N := λ a, en_rango fi ff a = true).
    set (W := λ a, en_rango gi gf a = true).
    destruct (sorted_by_key_desc fechahora datetime_lt datetime_lt_asym
                datetime_lt_trans
                (filter N (sorted lt true (filter W avs))))
      as (Hs1 & _ & Hst1).
    destruct (sorted_by_key_desc fechahora datetime_lt datetime_lt_asym
                datetime_lt_trans (filter N avs)) as (Hs2 & _ & Hst2).
    destruct (sorted_by_key_desc fechahora datetime_lt datetime_lt_asym
                datetime_lt_trans (filter W avs)) as (_ & _ & Hst3).
    fold lt in Hs1, Hst1, Hs2, Hst2, Hst3.
    apply (stable_sorted_unique fechahora datetime_lt);
      [apply datetime_lt_antisym|done|done|].
    intros t. rewrite Hst1, Hst2.
    rewrite list_filter_filter.
    rewrite (list_filter_iff _ (λ a, N a ∧ fechahora a = t)) by (intros; tauto).
    rewrite <- list_filter_filter, Hst3, !list_filter_filter.
    apply list_filter_iff. intros a. unfold N, W.
    rewrite !en_rango_dentro. split.
    - intros [[HN Ht] _]. done.
    - intros [Ht HN]. split; [done|]. by apply Hg. }
  split; [by apply Hcomp|]. split; [by apply Hcomp|].
  intros a. rewrite !fechas_sorted_filter, !(sorted_perm _ true).
  rewrite !list_elem_of_filter, !en_rango_dentro.
  intros [Hd Ha]. split; [by apply Hsub|done].
Qed.

(** X19.  A radius that is not a number selects no record, and the query
    for the longest sighting near a point then returns [None]; a record
    whose distance is not a number is selected for no radius. *)
Theorem nan_selects_nothing
    (distancia : Coordenadas → Coordenadas → spec_float) avs c :
  avistamientos_cercanos_ubicacion distancia avs c S754_nan = ∅
  ∧ avistamiento_cercano_mayor_duracion distancia avs c S754_nan
    = Return None
  ∧ ∀ r a, distancia (ubicacion a) c = S754_nan →
           a ∉ avistamientos_cercanos_ubicacion distancia avs c r.
Proof.
  assert (avistamientos_cercanos_ubicacion distancia avs c S754_nan = ∅)
    as Hempty.
  { apply set_eq. intros a. rewrite cercanos_elem. split.
    - intros [_ Hlt]. by destruct (distancia (ubicacion a) c).
    - intros Hin. by apply not_elem_of_empty in Hin. }
  split; [done|]. split.
  - unfold avistamiento_cercano_mayor_duracion. rewrite Hempty.
    by rewrite size_empty.
  - intros r a Hd. rewrite cercanos_elem, Hd. by intros [_ ?].
Qed.

Section Media.

Variable Coordenadas_lt : Coordenadas → Coordenadas → bool.

(** X18.  With two records or more, the mean number of days between
    neighbours is the number of days from the date of an earliest record
    to the date of a latest one, divided by the number of records less
    one: the outcome of that one division of integers, rounded to
    binary64. *)
Theorem media_dias_is_span_over_count avs anyo a b :
  let sel := match anyo with
             | None => avs
             | Some y => filter (λ a, year (fechahora a) = y) avs
             end in
  a ∈ sel → b ∈ sel →
  (∀ c, c ∈ sel → datetime_le (fechahora a) (fechahora c)
                  ∧ datetime_le (fechahora c) (fechahora b)) →
  (2 ≤ length sel)%nat →
  media_dias_entre_avistamientos Coordenadas_lt avs anyo
  = (q ← truediv_float (days_between (date_of (fechahora b))
                                      (date_of (fechahora a)))
                        (len sel - 1);
     Return (Some q)).
Proof.
  intros sel Ha Hb Hall Hlen. rewrite media_dias_sorted. fold sel.
  destruct (decide (length sel < 2)%nat) as [?|_]; [lia|].
  pose proof (sorted_Avistamiento_lt Coordenadas_lt sel) as Hs.
  pose proof (sorted_perm (Avistamiento_lt Coordenadas_lt) false sel) as Hp.
  set (s := sorted (Avistamiento_lt Coordenadas_lt) false sel) in *.
  assert (length s = length sel) as Hls by (by rewrite Hp).
  destruct s as [|x s']; [simpl in Hls; lia|].
  destruct (exists_last (l := s')) as (mid & y & ->).
  { intros ->. simpl in Hls. lia. }
  assert (fechahora x = fechahora a) as Hx.
  { apply datetime_le_antisym.
    - rewrite <- Hp in Ha. apply elem_of_cons in Ha as [->|Ha];
        [apply datetime_le_refl|].
      apply StronglySorted_inv in Hs as [_ Hfx].
      rewrite Forall_forall in Hfx. by apply Hfx.
    - apply Hall. rewrite <- Hp. by left. }
  assert (fechahora y = fechahora b) as Hy.
  { apply datetime_le_antisym.
    - apply Hall. rewrite <- Hp. right. apply elem_of_app. right. by left.
    - rewrite <- Hp in Hb.
      change (x :: mid ++ [y]) with ((x :: mid) ++ [y]) in Hb, Hs.
      apply elem_of_app in Hb as [Hb|Hb].
      + apply (StronglySorted_app_1_elem_of _ _ _ _ _ Hs Hb). by left.
      + apply list_elem_of_singleton in Hb as ->. apply datetime_le_refl. }
  unfold mean_float.
  rewrite length_gaps, !length_fmap, Hls.
  rewrite !fmap_cons, !fmap_app, !fmap_cons, gaps_telescope, Hx, Hy.
  replace (Z.of_nat (Init.Nat.pred (length sel))) with (len sel - 1)
    by (unfold len; lia).
  done.
Qed.

End Media.

End More_queries_3.

(** *** Months *)

Lemma for_each_indexing_pure {A S} (xs : list A) (body : A → S → indexing S)
    (step : S → A → S) (s : S) :
  (∀ x s, x ∈ xs → body x s = Indexed (step s x)) →
  for_each_indexing xs body s = Indexed (foldl step s xs).
Proof.
  revert s. induction xs as [|x xs IH]; intros s Hb; simpl; [done|].
  rewrite Hb by (by left). simpl. apply IH.
  intros y s' Hy. apply Hb. by right.
Qed.

Lemma month_cases (m : Z) :
  1 ≤ m ≤ 12 →
  m = 1 ∨ m = 2 ∨ m = 3 ∨ m = 4 ∨ m = 5 ∨ m = 6
  ∨ m = 7 ∨ m = 8 ∨ m = 9 ∨ m = 10 ∨ m = 11 ∨ m = 12.
Proof. lia. Qed.

Lemma meses_getitem (m : Z) :
  1 ≤ m ≤ 12 → list_getitem meses (m - 1) = Indexed (nombre_mes m).
Proof.
  intros Hm. apply month_cases in Hm.
  repeat (destruct Hm as [->|Hm]; [reflexivity|]). by subst.
Qed.

Lemma nombre_mes_in (m : Z) : 1 ≤ m ≤ 12 → nombre_mes m ∈ meses.
Proof.
  intros Hm. apply month_cases in Hm.
  repeat (destruct Hm as [->|Hm];
          [apply list_elem_of_In; vm_compute; tauto|]).
  subst. apply list_elem_of_In. vm_compute. tauto.
Qed.

Lemma nombre_mes_inj (m k : Z) :
  1 ≤ m ≤ 12 → 1 ≤ k ≤ 12 → nombre_mes m = nombre_mes k → m = k.
Proof.
  intros Hm Hk. apply month_cases in Hm. apply month_cases in Hk.
  repeat (destruct Hm as [->|Hm]);
    repeat (destruct Hk as [->|Hk]); subst; (done || discriminate).
Qed.

Lemma foldl_add_fmap_set {A} `{Countable B} (g : A → B) (l : list A)
    (s : gset B) :
  foldl (λ s a, {[g a]} ∪ s) s l = list_to_set (g <$> l) ∪ s.
Proof.
  revert s. induction l as [|x l IH]; intros s; simpl.
  - by rewrite union_empty_l_L.
  - by rewrite IH, (assoc_L (∪)), (comm_L (∪) _ {[g x]}).
Qed.

Section Months.

Context {Coordenadas : Type} `{Countable Coordenadas}.

Implicit Types (a : Avistamiento Coordenadas).
Implicit Types (avs : list (Avistamiento Coordenadas)).

Lemma filter_nombre_mes avs k :
  Forall (λ a, 1 ≤ month (fechahora a) ≤ 12) avs → 1 ≤ k ≤ 12 →
  filter (λ a, nombre_mes (month (fechahora a)) = nombre_mes k) avs
  = filter (λ a, month (fechahora a) = k) avs.
Proof.
  intros Hv Hk. apply filter_iff_in.
  eapply Forall_impl; [exact Hv|]. intros a Ha. simpl. split.
  - by apply nombre_mes_inj.
  - by intros ->.
Qed.

Lemma filter_not_mes avs (s : string) :
  Forall (λ a, 1 ≤ month (fechahora a) ≤ 12) avs → s ∉ meses →
  filter (λ a, nombre_mes (month (fechahora a)) = s) avs = [].
Proof.
  intros Hv Hs. apply filter_none.
  eapply Forall_impl; [exact Hv|]. intros a Ha Heq. simpl in *.
  apply Hs. rewrite <- Heq. by apply nombre_mes_in.
Qed.

Lemma num_por_mes_Indexed avs :
  Forall (λ a, 1 ≤ month (fechahora a) ≤ 12) avs →
  num_avistamientos_por_mes avs
  = Indexed (Counter ((λ a, nombre_mes (month (fechahora a))) <$> avs)).
Proof.
  intros Hv. unfold num_avistamientos_por_mes.
  rewrite (for_each_indexing_pure _ _
    (λ res a, <[nombre_mes (month (fechahora a))
                  := getitem_default 0 res (nombre_mes (month (fechahora a)))
                     + 1]> res)).
  - unfold Counter. by rewrite foldl_fmap.
  - intros a res Ha. rewrite Forall_forall in Hv.
    by rewrite (meses_getitem _ (Hv a Ha)).
Qed.

(** X11.  On records whose months are 1 to 12 the count per month is
    returned without [IndexError]: the name of a month is mapped to the
    number of records of that month, over all years, a month without
    records and any other string to nothing, and the counts add up to the
    length of the list. *)
Theorem num_avistamientos_por_mes_counts avs :
  Forall (λ a, 1 ≤ month (fechahora a) ≤ 12) avs →
  ∃ res, num_avistamientos_por_mes avs = Indexed res
         ∧ (∀ k, 1 ≤ k ≤ 12 →
                 res !! nombre_mes k
                 = match filter (λ a, month (fechahora a) = k) avs with
                   | [] => None
                   | f => Some (len f)
                   end)
         ∧ (∀ s, s ∉ meses → res !! s = None)
         ∧ sum (items res).*2 = len avs.
Proof.
  intros Hv. eexists. split; [by apply num_por_mes_Indexed|].
  split; [|split].
  - intros k Hk. rewrite Counter_fmap_lookup. by rewrite filter_nombre_mes.
  - intros s Hs. rewrite Counter_fmap_lookup. by rewrite filter_not_mes.
  - rewrite sum_foldr. unfold items. rewrite Counter_total.
    unfold len. by rewrite length_fmap.
Qed.

(** X12.  On records whose months are 1 to 12 the shapes per month are
    returned without [IndexError]: the name of a month is mapped to the
    set of the shapes of the records of that month, a month without
    records and any other string to nothing. *)
Theorem formas_por_mes_sets avs :
  Forall (λ a, 1 ≤ month (fechahora a) ≤ 12) avs →
  ∃ res, formas_por_mes avs = Indexed res
         ∧ (∀ k, 1 ≤ k ≤ 12 →
                 res !! nombre_mes k
                 = match filter (λ a, month (fechahora a) = k) avs with
                   | [] => None
                   | f => Some (list_to_set (forma <$> f))
                   end)
         ∧ (∀ s, s ∉ meses → res !! s = None).
Proof.
  intros Hv. unfold formas_por_mes.
  rewrite (for_each_indexing_pure _ _
    (λ res a, <[nombre_mes (month (fechahora a))
                  := {[forma a]}
                     ∪ default ∅ (res !! nombre_mes (month (fechahora a)))]>
                res)).
  2:{ intros a res Ha. rewrite Forall_forall in Hv.
      by rewrite (meses_getitem _ (Hv a Ha)). }
  eexists. split; [done|]. split.
  - intros k Hk.
    rewrite (accumulate_lookup (λ a, nombre_mes (month (fechahora a))) ∅
               (λ a s, {[forma a]} ∪ s)), lookup_empty.
    rewrite filter_nombre_mes by done.
    destruct (filter (λ a, month (fechahora a) = k) avs) as [|x f]; [done|].
    f_equal. rewrite (foldl_add_fmap_set forma). apply union_empty_r_L.
  - intros s Hs.
    rewrite (accumulate_lookup (λ a, nombre_mes (month (fechahora a))) ∅
               (λ a s, {[forma a]} ∪ s)), lookup_empty.
    by rewrite filter_not_mes.
Qed.

End Months.

(** *** Counters in insertion order *)

Section Odict_facts.

Import Odict.

Context {K : Type} `{EqDecision K}.

Implicit Types (d : list (K * Z)) (xs : list K).

Lemma get_put d k v k' :
  get (put d k v) k' = if decide (k = k') then Some v else get d k'.
Proof.
  induction d as [|[k0 v0] d IH]; simpl.
  - destruct (decide (k = k')); done.
  - destruct (decide (k0 = k)) as [->|Hk]; simpl.
    + destruct (decide (k = k')); done.
    + destruct (decide (k0 = k')) as [->|Hk'].
      * by rewrite decide_False by done.
      * done.
Qed.

Lemma get_None d k : get d k = None ↔ k ∉ d.*1.
Proof.
  induction d as [|[k0 v0] d IH]; simpl.
  - split; [|done]. intros _ Hin. by apply elem_of_nil in Hin.
  - rewrite not_elem_of_cons. destruct (decide (k0 = k)) as [->|Hk].
    + split; [done|]. by intros [? _].
    + rewrite IH. split; [|tauto]. intros ?. split; [congruence|done].
Qed.

Lemma get_elem d k c : get d k = Some c → (k, c) ∈ d.
Proof.
  induction d as [|[k0 v0] d IH]; simpl; [done|].
  destruct (decide (k0 = k)) as [->|Hk].
  - intros [= ->]. by left.
  - intros Hg. right. by apply IH.
Qed.

Lemma elem_get d k c : NoDup d.*1 → (k, c) ∈ d → get d k = Some c.
Proof.
  induction d as [|[k0 v0] d IH]; intros Hnd Hin.
  - by apply elem_of_nil in Hin.
  - rewrite fmap_cons in Hnd. apply NoDup_cons in Hnd as [Hk0 Hnd]. simpl.
    apply elem_of_cons in Hin as [[= -> ->]|Hin].
    + by rewrite decide_True.
    + destruct (decide (k0 = k)) as [->|Hk]; [|by apply IH].
      exfalso. apply Hk0. apply list_elem_of_fmap. by exists (k, c).
Qed.

Lemma put_keys d k v :
  (put d k v).*1 = if decide (k ∈ d.*1) then d.*1 else d.*1 ++ [k].
Proof.
  induction d as [|[k0 v0] d IH].
  - cbn. destruct (decide (k ∈ [])) as [Hin|]; [|done].
    by apply elem_of_nil in Hin.
  - cbn [put]. rewrite fmap_cons. cbn [fst].
    destruct (decide (k0 = k)) as [->|Hk].
    + rewrite fmap_cons. cbn [fst].
      destruct (decide (k ∈ k :: d.*1)) as [|Hn]; [done|].
      exfalso. apply Hn. by left.
    + rewrite fmap_cons, IH. cbn [fst].
      destruct (decide (k ∈ d.*1)) as [Hin|Hin];
        destruct (decide (k ∈ k0 :: d.*1)) as [Hin'|Hin']; try done.
      * exfalso. apply Hin'. by right.
      * exfalso. apply elem_of_cons in Hin' as [->|?]; done.
Qed.

Lemma Counter_items_keys xs : (Counter_items xs).*1 = first_occ xs.
Proof.
  induction xs as [|x xs IH] using rev_ind; [done|].
  unfold Counter_items, first_occ in *. rewrite !foldl_snoc.
  by rewrite put_keys, IH.
Qed.

Lemma first_occ_elem xs k : k ∈ first_occ xs ↔ k ∈ xs.
Proof.
  induction xs as [|x xs IH] using rev_ind; [done|].
  unfold first_occ in *. rewrite foldl_snoc.
  rewrite (elem_of_app xs), list_elem_of_singleton.
  destruct (decide (x ∈ _)) as [Hin|Hin].
  - rewrite IH. split; [tauto|]. intros [? | ->]; [done|]. by apply IH.
  - rewrite elem_of_app, list_elem_of_singleton, IH. done.
Qed.

Lemma first_occ_NoDup xs : NoDup (first_occ xs).
Proof.
  induction xs as [|x xs IH] using rev_ind; [constructor|].
  unfold first_occ in *. rewrite foldl_snoc.
  destruct (decide (x ∈ _)) as [Hin|Hin]; [done|].
  apply NoDup_app. split; [done|]. split; [|apply NoDup_singleton].
  intros y Hy Hy'. apply list_elem_of_singleton in Hy' as ->. done.
Qed.

Lemma Counter_items_get xs k :
  get (Counter_items xs) k
  = if decide (k ∈ xs) then Some (count_of k xs) else None.
Proof.
  induction xs as [|x xs IH] using rev_ind.
  - rewrite decide_False; [done|]. intros Hin. by apply elem_of_nil in Hin.
  - unfold Counter_items in *. rewrite foldl_snoc, get_put.
    unfold count_of, len in *. rewrite filter_app, length_app, filter_cons.
    destruct (decide (x = k)) as [->|Hx].
    + rewrite (decide_True (P := k ∈ xs ++ [k]))
        by (apply elem_of_app; right; by left).
      rewrite IH. f_equal. simpl.
      destruct (decide (k ∈ xs)) as [Hin|Hin]; simpl; [lia|].
      rewrite filter_none; [simpl; lia|].
      apply Forall_forall. intros y Hy ->. done.
    + rewrite IH. simpl. rewrite Nat.add_0_r.
      destruct (decide (k ∈ xs)) as [Hin|Hin].
      * rewrite decide_True; [done|]. apply elem_of_app. by left.
      * rewrite decide_False; [done|]. rewrite elem_of_app.
        intros [?|Hk]; [done|]. apply list_elem_of_singleton in Hk. done.
Qed.

Lemma count_of_pos xs k : k ∈ xs → 0 < count_of k xs.
Proof.
  intros Hin. unfold count_of, len.
  assert (k ∈ filter (λ x, x = k) xs) as Hf by (by apply list_elem_of_filter).
  destruct (filter _ xs); [by apply elem_of_nil in Hf|]. simpl. lia.
Qed.

(** An element of [first_occ xs] stands behind exactly the elements that
    occur in [xs] before its first occurrence. *)
Lemma first_occ_split xs l1 k l2 :
  first_occ xs = l1 ++ k :: l2 →
  ∃ pre post,
    xs = pre ++ k :: post ∧ (k ∉ pre) ∧ (∀ k', k' ∈ pre → k' ∈ l1).
Proof.
  revert l1 k l2. induction xs as [|x xs IH] using rev_ind;
    intros l1 k l2 Heq.
  - by destruct l1.
  - assert (first_occ (xs ++ [x])
            = if decide (x ∈ first_occ xs) then first_occ xs
              else first_occ xs ++ [x]) as Hsnoc
      by (unfold first_occ; by rewrite foldl_snoc).
    rewrite Hsnoc in Heq. destruct (decide (x ∈ first_occ xs)) as [Hin|Hin].
    + destruct (IH _ _ _ Heq) as (pre & post & -> & Hk & Hpre).
      exists pre, (post ++ [x]). split; [|done].
      by rewrite <- app_assoc.
    + destruct l2 as [|z l2 _] using rev_ind.
      * apply app_inj_tail in Heq as [<- <-].
        exists xs, []. split; [done|]. split.
        -- by rewrite <- first_occ_elem.
        -- intros k'. by rewrite first_occ_elem.
      * change (l1 ++ k :: l2 ++ [z]) with (l1 ++ (k :: l2) ++ [z]) in Heq.
        rewrite app_assoc in Heq. apply app_inj_tail in Heq as [Heq _].
        destruct (IH _ _ _ Heq) as (pre & post & -> & Hk & Hpre).
        exists pre, (post ++ [x]). split; [|done].
        by rewrite <- app_assoc.
Qed.

(** The entry that [max] takes from a counter: a key of largest count,
    and among those the one that occurs first. *)
Lemma Counter_items_max xs (t : K * Z) :
  max_by (λ y m, y.2 >? m.2) (Counter_items xs) = Return t →
  ∃ pre post,
    xs = pre ++ t.1 :: post ∧ (t.1 ∉ pre) ∧ (t.2 = count_of (t.1) xs)
    ∧ (∀ k, count_of k xs ≤ t.2 ∧ (count_of k xs = t.2 → k ∉ pre)).
Proof.
  intros Hmax.
  destruct (max_by_first snd _ _ _ (λ y m, Z.gtb_ltb _ _) Hmax)
    as (l1 & l2 & HC & Hl1 & Hl2).
  pose proof (Counter_items_keys xs) as Hkeys.
  pose proof (first_occ_NoDup xs) as Hnd. rewrite <- Hkeys in Hnd.
  rewrite HC, fmap_app, fmap_cons in Hkeys. symmetry in Hkeys.
  destruct (first_occ_split _ _ _ _ Hkeys) as (pre & post & Hxs & Hk & Hpre).
  assert (get (Counter_items xs) t.1 = Some t.2) as Ht.
  { apply elem_get; [done|]. rewrite HC. apply elem_of_app. right.
    destruct t. by left. }
  rewrite Counter_items_get in Ht.
  destruct (decide (t.1 ∈ xs)) as [Htin|]; [|done].
  injection Ht as Ht.
  exists pre, post. split; [done|]. split; [done|]. split; [done|].
  intros k. destruct (decide (k ∈ xs)) as [Hin|Hin].
  - assert (get (Counter_items xs) k = Some (count_of k xs)) as Hg
      by (by rewrite Counter_items_get, decide_True).
    pose proof (get_elem _ _ _ Hg) as Hel. rewrite HC in Hel.
    apply elem_of_app in Hel as [Hel|Hel].
    + rewrite Forall_forall in Hl1. specialize (Hl1 _ Hel). simpl in Hl1.
      split; lia.
    + split.
      * apply elem_of_cons in Hel as [<-|Hel]; [simpl; lia|].
        rewrite Forall_forall in Hl2. by specialize (Hl2 _ Hel).
      * intros Hc Hkp. apply Hpre in Hkp.
        apply list_elem_of_fmap in Hkp as ([k' c'] & Hk' & Hin').
        simpl in Hk'. subst k'.
        assert (get (Counter_items xs) k = Some c') as Hg'.
        { apply elem_get; [done|]. rewrite HC. apply elem_of_app. by left. }
        rewrite Forall_forall in Hl1. specialize (Hl1 _ Hin').
        simpl in Hl1. rewrite Hg in Hg'. injection Hg' as Hg'. lia.
  - pose proof (count_of_pos _ _ Htin) as Hpos.
    assert (count_of k xs = 0) as Hz.
    { unfold count_of, len. rewrite filter_none; [done|].
      apply Forall_forall. intros y Hy ->. done. }
    split; [lia|]. intros Hc. lia.
Qed.

Lemma Counter_items_nil xs : Counter_items xs = [] → xs = [].
Proof.
  intros HC. destruct xs as [|x xs]; [done|].
  assert (x ∈ first_occ (x :: xs)) as Hin
    by (apply first_occ_elem; by left).
  rewrite <- Counter_items_keys, HC in Hin. by apply elem_of_nil in Hin.
Qed.

End Odict_facts.

Section Most_frequent.

Context {Coordenadas : Type} `{Countable Coordenadas}.

Implicit Types (a : Avistamiento Coordenadas).
Implicit Types (avs : list (Avistamiento Coordenadas)).

(** X13.  [estado_mas_avistamientos] raises [ValueError] on the empty
    list and returns on every other one.  The state it returns occurs
    in the list, no state has more sightings, and every state that has
    as many is first seen later in the list: among the states with the
    most sightings it is the one whose first sighting comes first. *)
Theorem estado_mas_avistamientos_first_most avs :
  estado_mas_avistamientos (Coordenadas := Coordenadas) [] = Raise ValueError
  ∧ (avs ≠ [] → ∃ e, estado_mas_avistamientos avs = Return e)
  ∧ (∀ e, estado_mas_avistamientos avs = Return e →
       let estados := estado <$> avs in
       ∃ pre post,
         estados = pre ++ e :: post ∧ (e ∉ pre)
         ∧ (∀ e', count_of e' estados ≤ count_of e estados
               ∧ (count_of e' estados = count_of e estados → e' ∉ pre))).
Proof.
  split; [done|]. unfold estado_mas_avistamientos. split.
  - intros Hne.
    destruct (max_by _ (Odict.Counter_items (estado <$> avs)))
      as [t|err] eqn:Hmax; [by exists t.1|].
    exfalso. destruct (Odict.Counter_items (estado <$> avs)) eqn:HC.
    + apply Counter_items_nil in HC. by destruct avs.
    + unfold max_by in Hmax. done.
  - cbv zeta. intros e He.
    destruct (max_by _ (Odict.Counter_items (estado <$> avs)))
      as [t|err] eqn:Hmax; [|done].
    injection He as <-.
    destruct (Counter_items_max _ _ Hmax)
      as (pre & post & Hxs & Hk & Ht & Hall).
    exists pre, post. rewrite <- Ht. done.
Qed.

(** X14.  [hora_mas_avistamientos] fails with [IndexError] on the empty
    list, where [most_common(1)] is empty, and returns on every other
    one.  The hour it returns occurs in the list, no hour has more
    sightings, and every hour that has as many is first seen later in
    the list. *)
Theorem hora_mas_avistamientos_first_most avs :
  hora_mas_avistamientos (Coordenadas := Coordenadas) [] = IndexError
  ∧ (avs ≠ [] → ∃ h, hora_mas_avistamientos avs = Indexed h)
  ∧ (∀ h, hora_mas_avistamientos avs = Indexed h →
       let horas := (λ a, hour (fechahora a)) <$> avs in
       ∃ pre post,
         horas = pre ++ h :: post ∧ (h ∉ pre)
         ∧ (∀ h', count_of h' horas ≤ count_of h horas
               ∧ (count_of h' horas = count_of h horas → h' ∉ pre))).
Proof.
  split; [done|]. unfold hora_mas_avistamientos, Odict.most_common_1.
  split.
  - intros Hne.
    destruct (max_by _ (Odict.Counter_items (_ <$> avs)))
      as [t|err] eqn:Hmax; [by exists t.1|].
    exfalso. destruct (Odict.Counter_items (_ <$> avs)) eqn:HC.
    + apply Counter_items_nil in HC. by destruct avs.
    + unfold max_by in Hmax. done.
  - cbv zeta. intros h Hh.
    destruct (max_by _ (Odict.Counter_items (_ <$> avs)))
      as [t|err] eqn:Hmax; [|done].
    injection Hh as <-.
    destruct (Counter_items_max _ _ Hmax)
      as (pre & post & Hxs & Hk & Ht & Hall).
    exists pre, post. rewrite <- Ht. done.
Qed.

End Most_frequent.

(** ** The queries over the heap *)

Section Heap_facts.

Import Heap.

Context {A : Type}.

Implicit Types (h : heap A) (r : loc) (l : list A).

Lemma preserves_refl h : preserves h h.
Proof. by intros r o. Qed.

Lemma preserves_trans h1 h2 h3 :
  preserves h1 h2 → preserves h2 h3 → preserves h1 h3.
Proof. intros H12 H23 r o Hr. by apply H23, H12. Qed.

Lemma preserves_insert_fresh h h' r (o : object A) :
  preserves h h' → h !! r = None → preserves h (<[r := o]> h').
Proof.
  intros Hp Hr r' o' Ho'. rewrite lookup_insert_ne; [by apply Hp|].
  intros ->. congruence.
Qed.

Lemma preserves_fresh_None h h' r :
  preserves h h' → h' !! r = None → h !! r = None.
Proof.
  intros Hp Hr. destruct (h !! r) as [o|] eqn:E; [|done].
  apply Hp in E. congruence.
Qed.

Lemma fresh_lookup h : h !! fresh (dom h) = None.
Proof. apply not_elem_of_dom, is_fresh. Qed.

(** A loop whose body only computes is a fold and leaves the heap as
    it is. *)
Lemma for_from_pure {S} (f : S → A → S) src avs h :
  h !! src = Some (Records avs) →
  ∀ fuel i s,
    (i ≤ length avs < fuel + i)%nat →
    for_from fuel src i (λ a s, mret (f s a)) s h
    = Some (foldl f s (drop i avs), h).
Proof.
  intros Hsrc. induction fuel as [|fuel IH]; intros i s Hlen.
  - exfalso. lia.
  - simpl. rewrite Hsrc. destruct (avs !! i) as [x|] eqn:Hi.
    + pose proof (lookup_lt_Some _ _ _ Hi) as Hlt.
      unfold mret, cmd_ret. rewrite IH by lia.
      by rewrite (drop_S _ _ _ Hi).
    + apply lookup_ge_None in Hi. by rewrite drop_ge by done.
Qed.

Lemma for_in_pure {S} (f : S → A → S) src avs h fuel s :
  h !! src = Some (Records avs) → (length avs < fuel)%nat →
  for_in fuel src (λ a s, mret (f s a)) s h = Some (foldl f s avs, h).
Proof.
  intros Hsrc Hlen. unfold for_in.
  rewrite (for_from_pure f src avs h Hsrc); [done|lia].
Qed.

Lemma for_from_result_pure {S} (body : A → S → result S) src avs h :
  h !! src = Some (Records avs) →
  ∀ fuel i s,
    (i ≤ length avs < fuel + i)%nat →
    for_from_result fuel src i (λ a s, mret (body a s)) s h
    = Some (for_each (drop i avs) body s, h).
Proof.
  intros Hsrc. induction fuel as [|fuel IH]; intros i s Hlen.
  - exfalso. lia.
  - simpl. rewrite Hsrc. destruct (avs !! i) as [x|] eqn:Hi.
    + pose proof (lookup_lt_Some _ _ _ Hi) as Hlt.
      rewrite (drop_S _ _ _ Hi). simpl.
      unfold mret, cmd_ret. destruct (body x s) as [s'|e]; [|done].
      simpl. apply IH. lia.
    + apply lookup_ge_None in Hi. by rewrite drop_ge by done.
Qed.

Lemma for_in_result_pure {S} (body : A → S → result S) src avs h fuel s :
  h !! src = Some (Records avs) → (length avs < fuel)%nat →
  for_in_result fuel src (λ a s, mret (body a s)) s h
  = Some (for_each avs body s, h).
Proof.
  intros Hsrc Hlen. unfold for_in_result.
  rewrite (for_from_result_pure body src avs h Hsrc); [done|lia].
Qed.

Lemma for_from_indexing_pure {S} (body : A → S → indexing S) src avs h :
  h !! src = Some (Records avs) →
  ∀ fuel i s,
    (i ≤ length avs < fuel + i)%nat →
    for_from_indexing fuel src i (λ a s, mret (body a s)) s h
    = Some (for_each_indexing (drop i avs) body s, h).
Proof.
  intros Hsrc. induction fuel as [|fuel IH]; intros i s Hlen.
  - exfalso. lia.
  - simpl. rewrite Hsrc. destruct (avs !! i) as [x|] eqn:Hi.
    + pose proof (lookup_lt_Some _ _ _ Hi) as Hlt.
      rewrite (drop_S _ _ _ Hi). simpl.
      unfold mret, cmd_ret. destruct (body x s) as [s'|]; [|done].
      simpl. apply IH. lia.
    + apply lookup_ge_None in Hi. by rewrite drop_ge by done.
Qed.

Lemma for_in_indexing_pure {S} (body : A → S → indexing S) src avs h fuel
    s :
  h !! src = Some (Records avs) → (length avs < fuel)%nat →
  for_in_indexing fuel src (λ a s, mret (body a s)) s h
  = Some (for_each_indexing avs body s, h).
Proof.
  intros Hsrc Hlen. unfold for_in_indexing.
  rewrite (for_from_indexing_pure body src avs h Hsrc); [done|lia].
Qed.

(** A loop that pushes onto [dst] what [g] makes of the elements of
    [src] that pass a test leaves in [dst] its old content followed by
    [g] of the filter. *)
Lemma for_from_push_filter {B} (content : list B → object A) (g : A → B)
    (push : A → cmd A unit) (p : A → bool) src dst avs :
  src ≠ dst →
  (∀ x acc h, h !! dst = Some (content acc) →
              push x h = Some ((), <[dst := content (acc ++ [g x])]> h)) →
  ∀ fuel i acc h,
    h !! src = Some (Records avs) → h !! dst = Some (content acc) →
    (i ≤ length avs < fuel + i)%nat →
    for_from fuel src i (λ a (_ : unit), if p a then push a else mret ())
      () h
    = Some ((), <[dst := content
                           (acc ++ (g <$> filter (λ a, p a = true)
                                                 (drop i avs)))]> h).
Proof.
  intros Hne Hpush.
  induction fuel as [|fuel IH]; intros i acc h Hsrc Hdst Hlen.
  - exfalso. lia.
  - simpl. rewrite Hsrc. destruct (avs !! i) as [x|] eqn:Hi.
    + pose proof (lookup_lt_Some _ _ _ Hi) as Hlt.
      rewrite (drop_S _ _ _ Hi), filter_cons.
      destruct (p x) eqn:Hp; simpl.
      * rewrite (Hpush x acc h Hdst).
        rewrite (IH (S i) (acc ++ [g x])).
        -- by rewrite insert_insert_eq, <- app_assoc.
        -- by rewrite lookup_insert_ne.
        -- by rewrite lookup_insert_eq.
        -- lia.
      * unfold mret, cmd_ret. rewrite (IH (S i) acc); try done. lia.
    + apply lookup_ge_None in Hi. rewrite drop_ge by done.
      rewrite filter_nil, fmap_nil, app_nil_r. by rewrite insert_id.
Qed.

Lemma for_in_append_filter (p : A → bool) src dst avs acc fuel h :
  src ≠ dst → h !! src = Some (Records avs) →
  h !! dst = Some (Records acc) →
  (length avs < fuel)%nat →
  for_in fuel src (λ a (_ : unit), if p a then append dst a else mret ())
    () h
  = Some ((), <[dst := Records (acc ++ filter (λ a, p a = true) avs)]> h).
Proof.
  intros Hne Hsrc Hdst Hlen. unfold for_in.
  assert (∀ x acc h, h !! dst = Some (Records acc) →
            append dst x h = Some ((), <[dst := Records (acc ++ [id x])]> h))
    as Hpush.
  { intros x acc' h' Hd. unfold append. by rewrite Hd. }
  rewrite (for_from_push_filter Records id (λ a, append dst a) p src dst
             avs Hne Hpush fuel 0 acc h Hsrc Hdst); [|lia].
  by rewrite list_fmap_id.
Qed.

Lemma for_in_append_none (p : A → bool) src dst avs acc fuel h :
  src ≠ dst → h !! src = Some (Records avs) →
  h !! dst = Some (Nones acc) →
  (length avs < fuel)%nat →
  for_in fuel src (λ a (_ : unit), if p a then append_none dst else mret ())
    () h
  = Some ((), <[dst := Nones (acc ++ ((λ _, ())
                                      <$> filter (λ a, p a = true) avs))]>
                h).
Proof.
  intros Hne Hsrc Hdst Hlen. unfold for_in.
  assert (∀ (x : A) acc h, h !! dst = Some (Nones acc) →
            append_none dst h = Some ((), <[dst := Nones (acc ++ [()])]> h))
    as Hpush.
  { intros x acc' h' Hd. unfold append_none. by rewrite Hd. }
  by rewrite (for_from_push_filter Nones (λ _, ()) (λ _, append_none dst)
                p src dst avs Hne Hpush fuel 0 acc h Hsrc Hdst) by lia.
Qed.

(** A loop over [zip] that appends an integer for each pair. *)
Lemma for_zip_from_append_integer (g : A → A → Z) r1 r2 dst l1 l2 :
  r1 ≠ dst → r2 ≠ dst →
  ∀ fuel i acc h,
    h !! r1 = Some (Records l1) → h !! r2 = Some (Records l2) →
    h !! dst = Some (Integers acc) →
    (i ≤ length l1 `min` length l2 < fuel + i)%nat →
    for_zip_from fuel r1 r2 i
      (λ x y (_ : unit), append_integer dst (g x y)) () h
    = Some ((), <[dst := Integers
                           (acc ++ ((λ p, g p.1 p.2)
                                    <$> zip (drop i l1) (drop i l2)))]> h).
Proof.
  intros Hn1 Hn2.
  induction fuel as [|fuel IH]; intros i acc h H1 H2 Hdst Hlen.
  - exfalso. lia.
  - simpl. rewrite H1, H2.
    destruct (l1 !! i) as [x|] eqn:E1.
    + destruct (l2 !! i) as [y|] eqn:E2.
      * pose proof (lookup_lt_Some _ _ _ E1).
        pose proof (lookup_lt_Some _ _ _ E2).
        unfold append_integer at 1. rewrite Hdst.
        rewrite (IH (S i) (acc ++ [g x y])).
        -- rewrite insert_insert_eq, (drop_S _ _ _ E1), (drop_S _ _ _ E2).
           simpl. by rewrite <- app_assoc.
        -- by rewrite lookup_insert_ne.
        -- by rewrite lookup_insert_ne.
        -- by rewrite lookup_insert_eq.
        -- lia.
      * apply lookup_ge_None in E2. rewrite (drop_ge l2) by done.
        rewrite zip_with_nil_r, fmap_nil, app_nil_r. by rewrite insert_id.
    + apply lookup_ge_None in E1. rewrite (drop_ge l1) by done.
      simpl. rewrite app_nil_r. by rewrite insert_id.
Qed.

(** A loop over the pairs of a dictionary whose body raises nothing
    and leaves the heap as it is. *)
Lemma for_items_result_pure {B S} (xs : list B)
    (body : B → S → cmd A (result S)) (step : S → B → S) h :
  (∀ x s, x ∈ xs → body x s h = Some (Return (step s x), h)) →
  ∀ s, for_items_result xs body s h = Some (Return (foldl step s xs), h).
Proof.
  induction xs as [|x xs IH]; intros Hb s; simpl; [done|].
  rewrite Hb by (by left). apply IH. intros y s' Hy. apply Hb. by right.
Qed.

End Heap_facts.

Lemma foldl_if_filter {A S} (P : A → Prop) `{∀ x, Decision (P x)}
    (f : S → A → S) (s : S) (l : list A) :
  foldl (λ s a, if bool_decide (P a) then f s a else s) s l
  = foldl f s (filter P l).
Proof.
  revert s. induction l as [|x l IH]; intros s; simpl; [done|].
  rewrite IH, filter_cons. case_bool_decide.
  - by rewrite decide_True.
  - by rewrite decide_False.
Qed.

Section Heap_queries.

Import Heap.

Context {Coordenadas : Type} `{Countable Coordenadas}.
Variable Coordenadas_lt : Coordenadas → Coordenadas → bool.
Variable distancia : Coordenadas → Coordenadas → spec_float.
Variable lower : string → string.

Implicit Types (h : heap (Avistamiento Coordenadas)).
Implicit Types (avs : list (Avistamiento Coordenadas)).

(** A command that returns without a change of the heap. *)
Lemma returns_same {X} (c : cmd (Avistamiento Coordenadas) X) h x :
  c h = Some (x, h) → returns_unchanged c h x.
Proof. intros Hc. exists h. split; [done|apply preserves_refl]. Qed.

(** A command that returns and allocated one object. *)
Lemma returns_fresh {X} (c : cmd (Avistamiento Coordenadas) X) h x r o :
  c h = Some (x, <[r := o]> h) → h !! r = None → returns_unchanged c h x.
Proof.
  intros Hc Hr. exists (<[r := o]> h). split; [done|].
  apply preserves_insert_fresh; [apply preserves_refl|done].
Qed.

(** *** The queries that only read *)

Section Readers.

Variables (fuel : nat) (src : loc) (avs : list (Avistamiento Coordenadas)).
Variable h : heap (Avistamiento Coordenadas).
Hypothesis Hsrc : h !! src = Some (Records avs).
Hypothesis Hlen : (length avs < fuel)%nat.

Lemma numero_avistamientos_fecha_heap_spec fecha :
  numero_avistamientos_fecha_heap fuel src fecha h
  = Some (numero_avistamientos_fecha avs fecha, h).
Proof.
  exact (for_in_pure
           (λ contador a,
              if bool_decide (date_of (fechahora a) = fecha)
              then contador + 1 else contador)
           src avs h fuel 0 Hsrc Hlen).
Qed.

Lemma formas_estados_heap_spec estados :
  formas_estados_heap fuel src estados h
  = Some (formas_estados avs estados, h).
Proof.
  unfold formas_estados_heap, mbind, cmd_bind.
  by rewrite (for_in_pure
                (λ (s : gset string) a,
                   if bool_decide (estado a ∈ estados)
                   then {[forma a]} ∪ s else s)
                src avs h fuel ∅ Hsrc Hlen).
Qed.

Lemma formas_estados2_heap_spec estados :
  formas_estados2_heap fuel src estados h
  = Some (formas_estados2 avs estados, h).
Proof.
  unfold formas_estados2_heap, mbind, cmd_bind.
  rewrite (for_in_pure
             (λ (s : gset string) a,
                if bool_decide (estado a ∈ estados)
                then {[forma a]} ∪ s else s)
             src avs h fuel ∅ Hsrc Hlen).
  unfold formas_estados2.
  rewrite (foldl_add_if_set (λ a, bool_decide (estado a ∈ estados)) forma).
  by rewrite filter_bool_decide, union_empty_r_L.
Qed.

Lemma duracion_total_heap_spec e :
  duracion_total_heap fuel src e h = Some (duracion_total avs e, h).
Proof.
  exact (for_in_pure
           (λ d a, if bool_decide (estado a = e) then d + duracion a else d)
           src avs h fuel 0 Hsrc Hlen).
Qed.

Lemma duracion_total2_heap_spec e :
  duracion_total2_heap fuel src e h = Some (duracion_total2 avs e, h).
Proof.
  unfold duracion_total2_heap.
  rewrite (for_in_pure
             (λ d a, if bool_decide (estado a = e) then d + duracion a
                     else d)
             src avs h fuel 0 Hsrc Hlen).
  unfold duracion_total2.
  rewrite (foldl_add_if (λ a, bool_decide (estado a = e)) duracion).
  by rewrite filter_bool_decide, sum_foldr.
Qed.

Lemma avistamientos_cercanos_ubicacion_heap_spec u r :
  avistamientos_cercanos_ubicacion_heap distancia fuel src u r h
  = Some (avistamientos_cercanos_ubicacion distancia avs u r, h).
Proof.
  exact (for_in_pure
           (λ (res : gset (Avistamiento Coordenadas)) a,
              if SFltb (distancia (ubicacion a) u) r
              then {[a]} ∪ res else res)
           src avs h fuel ∅ Hsrc Hlen).
Qed.

Lemma avistamientos_cercanos_ubicacion2_heap_spec u r :
  avistamientos_cercanos_ubicacion2_heap distancia fuel src u r h
  = Some (avistamientos_cercanos_ubicacion2 distancia avs u r, h).
Proof.
  unfold avistamientos_cercanos_ubicacion2_heap.
  rewrite (for_in_pure
             (λ (res : gset (Avistamiento Coordenadas)) a,
                if SFltb (distancia (ubicacion a) u) r
                then {[a]} ∪ res else res)
             src avs h fuel ∅ Hsrc Hlen).
  unfold avistamientos_cercanos_ubicacion2.
  rewrite (foldl_add_if_set (λ a, SFltb (distancia (ubicacion a) u) r) id).
  by rewrite list_fmap_id, union_empty_r_L.
Qed.

Lemma avistamiento_mayor_duracion2_heap_spec f :
  avistamiento_mayor_duracion2_heap fuel src f h
  = Some (avistamiento_mayor_duracion2 avs f, h).
Proof.
  unfold avistamiento_mayor_duracion2_heap, mbind, cmd_bind.
  rewrite (for_in_pure
             (λ (y : list (Avistamiento Coordenadas)) a,
                if bool_decide (forma a = f) then y ++ [a] else y)
             src avs h fuel [] Hsrc Hlen).
  unfold avistamiento_mayor_duracion2.
  by rewrite foldl_append_filter, app_nil_l, filter_bool_decide.
Qed.

Lemma avistamiento_cercano_mayor_duracion_heap_spec c r :
  avistamiento_cercano_mayor_duracion_heap distancia fuel src c r h
  = Some (avistamiento_cercano_mayor_duracion distancia avs c r, h).
Proof.
  unfold avistamiento_cercano_mayor_duracion_heap, mbind, cmd_bind.
  by rewrite avistamientos_cercanos_ubicacion_heap_spec.
Qed.

Lemma avistamientos_por_fecha_heap_spec :
  avistamientos_por_fecha_heap fuel src h
  = Some (avistamientos_por_fecha avs, h).
Proof.
  exact (for_in_result_pure
           (λ a (res : gmap date (gset (Avistamiento Coordenadas))),
              let d := date_of (fechahora a) in
              let res := if bool_decide (res !! d = None)
                         then <[d := ∅]> res else res in
              s ← getitem res d;
              Return (<[d := {[a]} ∪ s]> res))
           src avs h fuel ∅ Hsrc Hlen).
Qed.

Lemma avistamientos_por_fecha2_heap_spec :
  avistamientos_por_fecha2_heap fuel src h
  = Some (avistamientos_por_fecha2 avs, h).
Proof.
  exact (for_in_pure
           (λ (res : gmap date (gset (Avistamiento Coordenadas))) a,
              <[date_of (fechahora a)
                  := {[a]} ∪ getitem_default ∅ res (date_of (fechahora a))]>
                res)
           src avs h fuel ∅ Hsrc Hlen).
Qed.

Lemma formas_por_mes_heap_spec :
  formas_por_mes_heap fuel src h = Some (formas_por_mes avs, h).
Proof.
  exact (for_in_indexing_pure
           (λ a (res : gmap string (gset string)),
              mes ← list_getitem meses (month (fechahora a) - 1);
              Indexed (<[mes := {[forma a]} ∪ getitem_default ∅ res mes]>
                         res))
           src avs h fuel ∅ Hsrc Hlen).
Qed.

Lemma numero_avistamientos_por_año_heap_spec :
  numero_avistamientos_por_año_heap fuel src h
  = Some (numero_avistamientos_por_año avs, h).
Proof.
  exact (for_in_result_pure
           (λ a (res : gmap Z Z),
              let y := year (fechahora a) in
              let res := if bool_decide (res !! y = None)
                         then <[y := 0]> res else res in
              c ← getitem res y;
              Return (<[y := c + 1]> res))
           src avs h fuel ∅ Hsrc Hlen).
Qed.

Lemma numero_avistamientos_por_año2_heap_spec :
  numero_avistamientos_por_año2_heap fuel src h
  = Some (numero_avistamientos_por_año2 avs, h).
Proof.
  unfold numero_avistamientos_por_año2_heap.
  rewrite (for_in_pure
             (λ (c : gmap Z Z) a,
                <[year (fechahora a)
                    := getitem_default 0 c (year (fechahora a)) + 1]> c)
             src avs h fuel ∅ Hsrc Hlen).
  unfold numero_avistamientos_por_año2, Counter.
  by rewrite foldl_fmap.
Qed.

Lemma numero_avistamientos_por_año3_heap_spec :
  numero_avistamientos_por_año3_heap fuel src h
  = Some (numero_avistamientos_por_año3 avs, h).
Proof.
  exact (for_in_pure
           (λ (res : gmap Z Z) a,
              <[year (fechahora a)
                  := getitem_default 0 res (year (fechahora a)) + 1]> res)
           src avs h fuel ∅ Hsrc Hlen).
Qed.

Lemma num_avistamientos_por_mes_heap_spec :
  num_avistamientos_por_mes_heap fuel src h
  = Some (num_avistamientos_por_mes avs, h).
Proof.
  exact (for_in_indexing_pure
           (λ av (res : gmap string Z),
              clave ← list_getitem meses (month (fechahora av) - 1);
              Indexed (<[clave := getitem_default 0 res clave + 1]> res))
           src avs h fuel ∅ Hsrc Hlen).
Qed.

Lemma estado_mas_avistamientos_heap_spec :
  estado_mas_avistamientos_heap fuel src h
  = Some (estado_mas_avistamientos avs, h).
Proof.
  unfold estado_mas_avistamientos_heap, mbind at 1. unfold cmd_bind.
  rewrite (for_in_pure
             (λ (c : list (string * Z)) a,
                Odict.put c (estado a)
                  (default 0 (Odict.get c (estado a)) + 1))
             src avs h fuel [] Hsrc Hlen).
  unfold estado_mas_avistamientos, Odict.Counter_items.
  by rewrite foldl_fmap.
Qed.

Lemma hora_mas_avistamientos_heap_spec :
  hora_mas_avistamientos_heap fuel src h
  = Some (hora_mas_avistamientos avs, h).
Proof.
  unfold hora_mas_avistamientos_heap, mbind at 1. unfold cmd_bind.
  rewrite (for_in_pure
             (λ (c : list (Z * Z)) a,
                Odict.put c (hour (fechahora a))
                  (default 0 (Odict.get c (hour (fechahora a))) + 1))
             src avs h fuel [] Hsrc Hlen).
  unfold hora_mas_avistamientos, Odict.Counter_items.
  by rewrite foldl_fmap.
Qed.

Lemma porc_avistamientos_por_forma_heap_spec :
  porc_avistamientos_por_forma_heap fuel src h
  = Some (porc_avistamientos_por_forma avs, h).
Proof.
  unfold porc_avistamientos_por_forma_heap, mbind at 1. unfold cmd_bind.
  rewrite (for_in_pure
             (λ (c : gmap string Z) a,
                <[forma a := getitem_default 0 c (forma a) + 1]> c)
             src avs h fuel ∅ Hsrc Hlen).
  unfold mbind at 1. unfold read. rewrite Hsrc.
  unfold porc_avistamientos_por_forma, Counter.
  by rewrite foldl_fmap.
Qed.

Lemma porc_avistamientos_por_forma_bis_heap_spec año :
  porc_avistamientos_por_forma_bis_heap fuel src año h
  = Some (porc_avistamientos_por_forma_bis avs año, h).
Proof.
  unfold porc_avistamientos_por_forma_bis_heap, mbind at 1.
  unfold cmd_bind.
  rewrite (for_in_pure
             (λ (c : gmap string Z) a,
                if bool_decide (year (fechahora a) = año)
                then <[forma a := getitem_default 0 c (forma a) + 1]> c
                else c)
             src avs h fuel ∅ Hsrc Hlen).
  unfold porc_avistamientos_por_forma_bis, Counter.
  rewrite foldl_fmap.
  by rewrite (foldl_if_filter (λ a, year (fechahora a) = año)
                (λ (c : gmap string Z) a,
                   <[forma a := getitem_default 0 c (forma a) + 1]> c)).
Qed.

End Readers.

(** *** The queries that build lists *)

Section Builders.

Variables (fuel : nat) (src : loc) (avs : list (Avistamiento Coordenadas)).
Variable h : heap (Avistamiento Coordenadas).
Hypothesis Hsrc : h !! src = Some (Records avs).
Hypothesis Hlen : (length avs < fuel)%nat.

Lemma numero_avistamientos_fecha2_heap_spec fecha :
  ∃ r o, numero_avistamientos_fecha2_heap fuel src fecha h
         = Some (numero_avistamientos_fecha2 avs fecha, <[r := o]> h)
         ∧ h !! r = None.
Proof.
  exists (fresh (dom h)).
  pose proof (fresh_lookup h) as Hr. eexists. split; [|done].
  unfold numero_avistamientos_fecha2_heap, mbind, cmd_bind, new_nones.
  set (r := fresh (dom h)) in *.
  rewrite (for_in_append_none
             (λ a, bool_decide (date_of (fechahora a) = fecha))
             src r avs []).
  - unfold read_nones. rewrite lookup_insert_eq. unfold mret, cmd_ret.
    rewrite insert_insert_eq, app_nil_l, filter_bool_decide. done.
  - intros ->. congruence.
  - rewrite lookup_insert_ne; [done|]. intros ->. congruence.
  - by rewrite lookup_insert_eq.
  - done.
Qed.

Lemma avistamientos_fechas_heap_spec fi ff :
  ∃ r, avistamientos_fechas_heap fuel src fi ff h
       = Some (r, <[r := Records (avistamientos_fechas avs fi ff)]> h)
       ∧ h !! r = None.
Proof.
  exists (fresh (dom h)).
  pose proof (fresh_lookup h) as Hr. split; [|done].
  unfold avistamientos_fechas_heap, mbind, cmd_bind, new_list.
  set (r := fresh (dom h)) in *.
  rewrite (for_in_append_filter (en_rango fi ff) src r avs []).
  - unfold sort_in_place. rewrite lookup_insert_eq.
    unfold mret, cmd_ret. rewrite !insert_insert_eq.
    unfold avistamientos_fechas. by rewrite foldl_append_filter.
  - intros ->. congruence.
  - rewrite lookup_insert_ne; [done|]. intros ->. congruence.
  - by rewrite lookup_insert_eq.
  - done.
Qed.

Lemma avistamiento_mayor_duracion_heap_spec f :
  ∃ r o, avistamiento_mayor_duracion_heap fuel src f h
         = Some (avistamiento_mayor_duracion avs f, <[r := o]> h)
         ∧ h !! r = None.
Proof.
  exists (fresh (dom h)).
  pose proof (fresh_lookup h) as Hr. eexists. split; [|done].
  unfold avistamiento_mayor_duracion_heap, mbind, cmd_bind, new_list.
  set (r := fresh (dom h)) in *.
  rewrite (for_in_append_filter (λ a, bool_decide (forma a = f))
             src r avs []).
  - unfold read. rewrite lookup_insert_eq. unfold mret, cmd_ret.
    rewrite insert_insert_eq. unfold avistamiento_mayor_duracion.
    by rewrite foldl_append_filter.
  - intros ->. congruence.
  - rewrite lookup_insert_ne; [done|]. intros ->. congruence.
  - by rewrite lookup_insert_eq.
  - done.
Qed.

Lemma comentario_mas_largo_heap_spec anyo palabra :
  ∃ r o, comentario_mas_largo_heap lower fuel src anyo palabra h
         = Some (comentario_mas_largo lower avs anyo palabra, <[r := o]> h)
         ∧ h !! r = None.
Proof.
  exists (fresh (dom h)).
  pose proof (fresh_lookup h) as Hr. eexists. split; [|done].
  unfold comentario_mas_largo_heap, mbind, cmd_bind, new_list.
  set (r := fresh (dom h)) in *.
  rewrite (for_in_append_filter
             (λ a, (year (fechahora a) =? anyo)
                   && contains (lower palabra) (lower (comentarios a)))
             src r avs []).
  - unfold read. rewrite lookup_insert_eq. unfold mret, cmd_ret.
    rewrite insert_insert_eq. unfold comentario_mas_largo.
    by rewrite foldl_append_filter.
  - intros ->. congruence.
  - rewrite lookup_insert_ne; [done|]. intros ->. congruence.
  - by rewrite lookup_insert_eq.
  - done.
Qed.

End Builders.

(** *** 3.5 over the heap *)

(** From the list to sort on: a sorted copy, the list of day
    differences, the tail of the copy, the loop over [zip], and the
    quotient. *)
Lemma media_dias_tail fuel r1 sel h :
  h !! r1 = Some (Records sel) → (length sel < fuel)%nat →
  ∃ h',
    (avistamientos_anyo ←
       sorted_copy (Avistamiento_lt Coordenadas_lt) false r1;
     dias ← new_integers;
     cola ← slice_from_1_copy avistamientos_anyo;
     _ ← for_zip fuel avistamientos_anyo cola
           (λ a1 a2 (_ : unit),
              append_integer dias
                (days_between (date_of (fechahora a2))
                              (date_of (fechahora a1))))
           ();
     dias ← read_integers dias;
     mret (if 0 <? len dias
           then q ← truediv_float (sum dias) (len dias); Return (Some q)
           else Return None)) h
    = Some
        (let s := sorted (Avistamiento_lt Coordenadas_lt) false sel in
         let dias :=
           foldl (λ dias p,
                    dias ++ [days_between (date_of (fechahora p.2))
                                           (date_of (fechahora p.1))])
                 [] (zip s (drop 1 s)) in
         if 0 <? len dias
         then q ← truediv_float (sum dias) (len dias); Return (Some q)
         else Return None,
         h')
    ∧ preserves h h'.
Proof.
  intros Hr1 Hlen.
  set (s := sorted (Avistamiento_lt Coordenadas_lt) false sel).
  set (g := λ p : Avistamiento Coordenadas * Avistamiento Coordenadas,
              days_between (date_of (fechahora p.2))
                           (date_of (fechahora p.1))).
  set (r2 := fresh (dom h)).
  set (h2 := <[r2 := Records s]> h).
  set (r3 := fresh (dom h2)).
  set (h3 := <[r3 := Integers []]> h2).
  set (r4 := fresh (dom h3)).
  set (h4 := <[r4 := Records (drop 1 s)]> h3).
  set (h5 := <[r3 := Integers (g <$> zip s (drop 1 s))]> h4).
  assert (h !! r2 = None) as Hr2 by apply fresh_lookup.
  assert (h2 !! r3 = None) as Hr3 by apply fresh_lookup.
  assert (h3 !! r4 = None) as Hr4 by apply fresh_lookup.
  assert (r3 ≠ r2) as H32.
  { intros E. rewrite E in Hr3. unfold h2 in Hr3.
    by rewrite lookup_insert_eq in Hr3. }
  assert (r4 ≠ r3) as H43.
  { intros E. rewrite E in Hr4. unfold h3 in Hr4.
    by rewrite lookup_insert_eq in Hr4. }
  assert (r4 ≠ r2) as H42.
  { intros E. rewrite E in Hr4. unfold h3, h2 in Hr4.
    rewrite lookup_insert_ne in Hr4 by done.
    by rewrite lookup_insert_eq in Hr4. }
  assert (h !! r3 = None) as Hr3'.
  { unfold h2 in Hr3. by rewrite lookup_insert_ne in Hr3. }
  assert (h !! r4 = None) as Hr4'.
  { unfold h3, h2 in Hr4. by rewrite !lookup_insert_ne in Hr4. }
  exists h5. split.
  - unfold mbind at 1. unfold cmd_bind at 1.
    unfold sorted_copy, mbind at 1. unfold cmd_bind at 1.
    unfold read at 1. rewrite Hr1. unfold new_list at 1. fold s r2 h2.
    unfold mbind at 1. unfold cmd_bind at 1.
    unfold new_integers at 1. fold r3 h3.
    unfold mbind at 1. unfold cmd_bind at 1.
    unfold slice_from_1_copy, mbind at 1. unfold cmd_bind at 1.
    unfold read at 1.
    assert (h3 !! r2 = Some (Records s)) as Hh3.
    { unfold h3, h2. rewrite lookup_insert_ne by done.
      by rewrite lookup_insert_eq. }
    rewrite Hh3. unfold new_list at 1. fold r4 h4.
    unfold mbind at 1. unfold cmd_bind at 1. unfold for_zip.
    rewrite (for_zip_from_append_integer
               (λ a1 a2, days_between (date_of (fechahora a2))
                                      (date_of (fechahora a1)))
               r2 r4 r3 s (drop 1 s) (λ E, H32 (eq_sym E))
               H43 fuel 0 [] h4).
    + rewrite app_nil_l. fold g. fold h5.
      unfold mbind at 1. unfold cmd_bind at 1. unfold read_integers.
      unfold h5 at 1. rewrite lookup_insert_eq.
      unfold mret, cmd_ret. do 2 f_equal.
      by rewrite (foldl_append_map g), app_nil_l.
    + unfold h4. by rewrite lookup_insert_ne.
    + unfold h4. by rewrite lookup_insert_eq.
    + unfold h4, h3. rewrite lookup_insert_ne by done.
      by rewrite lookup_insert_eq.
    + assert (length s = length sel) as Hs
        by (unfold s; by rewrite (sorted_perm _ false sel)).
      lia.
  - unfold h5, h4, h3, h2.
    repeat (apply preserves_insert_fresh; [|done]).
    apply preserves_refl.
Qed.

Lemma media_dias_heap_spec fuel src avs anyo h :
  h !! src = Some (Records avs) → (length avs < fuel)%nat →
  returns_unchanged
    (media_dias_entre_avistamientos_heap Coordenadas_lt fuel src anyo) h
    (media_dias_entre_avistamientos Coordenadas_lt avs anyo).
Proof.
  intros Hsrc Hlen. unfold media_dias_entre_avistamientos_heap.
  destruct anyo as [y|].
  - set (r1 := fresh (dom h)).
    assert (h !! r1 = None) as Hr1 by apply fresh_lookup.
    set (sel := filter (λ a, year (fechahora a) = y) avs).
    destruct (media_dias_tail fuel r1 sel (<[r1 := Records sel]> h))
      as (h' & Hrun & Hpres).
    { by rewrite lookup_insert_eq. }
    { pose proof (length_filter (λ a, year (fechahora a) = y) avs).
      unfold sel. lia. }
    exists h'. split.
    + unfold mbind at 1. unfold cmd_bind at 1.
      unfold mbind at 1. unfold cmd_bind at 1.
      unfold new_list at 1. fold r1.
      unfold mbind at 1. unfold cmd_bind at 1.
      rewrite (for_in_append_filter
                 (λ a, bool_decide (year (fechahora a) = y))
                 src r1 avs []).
      * unfold mret at 1. unfold cmd_ret at 1.
        rewrite insert_insert_eq, app_nil_l, filter_bool_decide.
        fold sel. exact Hrun.
      * intros ->. congruence.
      * rewrite lookup_insert_ne; [done|]. intros ->. congruence.
      * by rewrite lookup_insert_eq.
      * done.
    + intros r o Ho. apply Hpres. rewrite lookup_insert_ne; [done|].
      intros ->. congruence.
  - destruct (media_dias_tail fuel src avs h Hsrc Hlen)
      as (h' & Hrun & Hpres).
    exists h'. split; [|done].
    unfold mbind at 1. unfold cmd_bind at 1.
    unfold mret at 1. unfold cmd_ret at 1. exact Hrun.
Qed.

(** *** The loop that groups by state *)

Lemma filter_snoc {B} (P : B → Prop) `{∀ x, Decision (P x)} (l : list B) x :
  filter P (l ++ [x]) = filter P l ++ (if decide (P x) then [x] else []).
Proof.
  rewrite filter_app, filter_cons, filter_nil. by destruct (decide (P x)).
Qed.

Section Grouping.

(** What a list object of the dictionary holds of the records of its
    state, how such an object is made, and how a record is added. *)
Variable content : list (Avistamiento Coordenadas)
                   → object (Avistamiento Coordenadas).
Variable make : cmd (Avistamiento Coordenadas) loc.
Variable push : loc → Avistamiento Coordenadas
                → cmd (Avistamiento Coordenadas) unit.
Hypothesis make_spec :
  ∀ h, make h = Some (fresh (dom h), <[fresh (dom h) := content []]> h).
Hypothesis push_spec :
  ∀ r a l h, h !! r = Some (content l) →
             push r a h = Some ((), <[r := content (l ++ [a])]> h).

Lemma grouped_step h0 seen av d h :
  grouped_as content h0 seen d h →
  ∃ d' h',
    match d !! estado av with
    | Some r => _ ← push r av; mret d
    | None =>
        r ← make;
        _ ← push r av;
        mret (<[estado av := r]> d)
    end h = Some (d', h')
    ∧ grouped_as content h0 (seen ++ [av]) d' h'.
Proof.
  intros (Hpres & Hsome & Hnone & Hinj).
  destruct (d !! estado av) as [r|] eqn:Hd.
  - destruct (Hsome _ _ Hd) as (Hr0 & Hr & Hne).
    exists d,
      (<[r := content (filter (λ a, estado a = estado av) seen ++ [av])]> h).
    split.
    { unfold mbind, cmd_bind. by rewrite (push_spec _ _ _ _ Hr). }
    split; [by apply preserves_insert_fresh|]. split; [|split; [|done]].
    + intros e r' He. destruct (Hsome _ _ He) as (Hr0' & Hr' & Hne').
      rewrite filter_snoc. split; [done|].
      destruct (decide (estado av = e)) as [<-|Hav].
      * assert (r' = r) as -> by congruence.
        rewrite lookup_insert_eq. split; [done|].
        by destruct (filter _ seen).
      * rewrite app_nil_r. split; [|done].
        rewrite lookup_insert_ne; [done|]. intros ->.
        apply Hav. by apply (Hinj _ _ r').
    + intros e He. rewrite filter_snoc, (Hnone _ He).
      destruct (decide (estado av = e)) as [<-|Hav]; [congruence|done].
  - set (r := fresh (dom h)).
    assert (h !! r = None) as Hr by apply fresh_lookup.
    assert (h0 !! r = None) as Hr0 by (by eapply preserves_fresh_None).
    exists (<[estado av := r]> d), (<[r := content [av]]> h). split.
    { unfold mbind, cmd_bind. rewrite make_spec. fold r.
      rewrite (push_spec r av []) by (by rewrite lookup_insert_eq).
      unfold mret, cmd_ret. by rewrite insert_insert_eq. }
    split; [by apply preserves_insert_fresh|]. split; [|split].
    + intros e r' He. rewrite filter_snoc.
      destruct (decide (estado av = e)) as [<-|Hav].
      * rewrite lookup_insert_eq in He. injection He as <-.
        rewrite lookup_insert_eq, (Hnone _ Hd). done.
      * rewrite lookup_insert_ne in He by done.
        destruct (Hsome _ _ He) as (Hr0' & Hr' & Hne').
        rewrite app_nil_r. split; [done|]. split; [|done].
        rewrite lookup_insert_ne; [done|]. intros ->. congruence.
    + intros e He. rewrite filter_snoc.
      destruct (decide (estado av = e)) as [<-|Hav].
      * by rewrite lookup_insert_eq in He.
      * rewrite lookup_insert_ne in He by done.
        by rewrite (Hnone _ He).
    + intros e1 e2 r' H1 H2.
      destruct (decide (estado av = e1)) as [<-|Hav1],
               (decide (estado av = e2)) as [<-|Hav2]; [done|..].
      * rewrite lookup_insert_eq in H1. injection H1 as <-.
        rewrite lookup_insert_ne in H2 by done.
        destruct (Hsome _ _ H2) as (_ & Hr' & _). congruence.
      * rewrite lookup_insert_eq in H2. injection H2 as <-.
        rewrite lookup_insert_ne in H1 by done.
        destruct (Hsome _ _ H1) as (_ & Hr' & _). congruence.
      * rewrite lookup_insert_ne in H1, H2 by done. by apply (Hinj _ _ r').
Qed.

Lemma grouped_loop h0 src avs :
  h0 !! src = Some (Records avs) →
  ∀ fuel i d h,
    grouped_as content h0 (take i avs) d h →
    (i ≤ length avs < fuel + i)%nat →
    ∃ d' h',
      for_from fuel src i
        (λ av (d : gmap string loc),
           match d !! estado av with
           | Some r => _ ← push r av; mret d
           | None =>
               r ← make;
               _ ← push r av;
               mret (<[estado av := r]> d)
           end)
        d h = Some (d', h')
      ∧ grouped_as content h0 avs d' h'.
Proof.
  intros Hsrc. induction fuel as [|fuel IH]; intros i d h Hg Hlen.
  - exfalso. lia.
  - simpl. rewrite (proj1 Hg _ _ Hsrc).
    destruct (avs !! i) as [av|] eqn:Hi.
    + pose proof (lookup_lt_Some _ _ _ Hi) as Hlt.
      destruct (grouped_step h0 (take i avs) av d h Hg)
        as (d' & h' & Hbody & Hg').
      rewrite Hbody. apply IH; [|lia].
      by rewrite (take_S_r _ _ _ Hi).
    + apply lookup_ge_None in Hi. exists d, h. split; [done|].
      by rewrite take_ge in Hg by done.
Qed.

Lemma grouped_start h0 : grouped_as content h0 [] ∅ h0.
Proof.
  split; [apply preserves_refl|]. split; [|split]; [| |done].
  - intros e r He. by rewrite lookup_empty in He.
  - done.
Qed.

End Grouping.

Lemma NoDup_snd_of_injective {K V} (l : list (K * V)) :
  NoDup l.*1 →
  (∀ k1 k2 v, (k1, v) ∈ l → (k2, v) ∈ l → k1 = k2) →
  NoDup l.*2.
Proof.
  induction l as [|[k v] l IH]; csimpl; intros Hnd Hinj; [constructor|].
  apply NoDup_cons in Hnd as [Hk Hnd]. apply NoDup_cons. split.
  - intros Hv. apply list_elem_of_fmap in Hv as ([k' v'] & Hv' & Hin).
    simpl in Hv'. subst v'. apply Hk.
    assert (k = k') as ->.
    { apply (Hinj k k' v); [by left|by right]. }
    apply list_elem_of_fmap. by exists (k', v).
  - apply IH; [done|]. intros k1 k2 v' H1 H2.
    apply (Hinj k1 k2 v'); by right.
Qed.

(** *** 4.9 over the heap *)

Lemma sliced_loop h0 avs n (todo : list (string * loc)) :
  NoDup todo.*1 → NoDup todo.*2 →
  ∀ d h,
    sliced h0 avs n todo d h →
    ∃ d' h',
      for_items todo
        (λ '(estado, avistamientos_estado) (d : gmap string loc),
           _ ← sort_in_place (λ a b, duracion a <? duracion b) true
                 avistamientos_estado;
           r ← slice_to_copy avistamientos_estado n;
           mret (<[estado := r]> d))
        d h = Some (d', h')
      ∧ sliced h0 avs n [] d' h'.
Proof.
  induction todo as [|[e r] todo IH]; intros Hnd1 Hnd2 d h Hs.
  - exists d, h. done.
  - rewrite fmap_cons in Hnd1. rewrite fmap_cons in Hnd2.
    simpl in Hnd1, Hnd2.
    apply NoDup_cons in Hnd1 as [He Hnd1].
    apply NoDup_cons in Hnd2 as [Hr Hnd2].
    destruct Hs as (Hpres & Htodo & Hdone).
    destruct (Htodo e r) as (Hr0 & Hde & Hhr & Hne); [by left|].
    set (f := filter (λ a, estado a = e) avs) in *.
    set (s := sorted (λ a b, duracion a <? duracion b) true f).
    set (h1 := <[r := Records s]> h).
    set (r' := fresh (dom h1)).
    set (h2 := <[r' := Records (slice_to s n)]> h1).
    assert (h1 !! r' = None) as Hr' by apply fresh_lookup.
    assert (r' ≠ r) as Hrr'.
    { intros E. rewrite E in Hr'. unfold h1 in Hr'.
      by rewrite lookup_insert_eq in Hr'. }
    assert (h !! r' = None) as Hhr'.
    { unfold h1 in Hr'. by rewrite lookup_insert_ne in Hr'. }
    assert (preserves h0 h2) as Hpres2.
    { unfold h2, h1. apply preserves_insert_fresh.
      - by apply preserves_insert_fresh.
      - by eapply preserves_fresh_None. }
    simpl. unfold mbind at 1. unfold cmd_bind at 1.
    unfold mbind at 1. unfold cmd_bind at 1.
    unfold sort_in_place. rewrite Hhr. fold f s h1.
    unfold mbind at 1. unfold cmd_bind at 1.
    unfold slice_to_copy, mbind, cmd_bind, read, new_list.
    unfold h1 at 1. rewrite lookup_insert_eq. fold h1 r' h2.
    unfold mret, cmd_ret.
    apply (IH Hnd1 Hnd2). split; [done|]. split.
    + intros e2 r2 Hin. destruct (Htodo e2 r2) as (H0 & Hd2 & Hh2 & Hne2);
        [by right|].
      assert (e2 ≠ e) as Hee.
      { intros ->. apply He. apply list_elem_of_fmap. by exists (e, r2). }
      assert (r2 ≠ r) as Hrr.
      { intros ->. apply Hr. apply list_elem_of_fmap. by exists (e2, r). }
      assert (r2 ≠ r') as Hrr2 by (intros ->; congruence).
      split; [done|]. split; [by rewrite lookup_insert_ne|].
      split; [|done]. unfold h2, h1. by rewrite !lookup_insert_ne.
    + intros e2 He2. destruct (decide (e2 = e)) as [->|Hee].
      * rewrite lookup_insert_eq. simpl. unfold records_at, h2.
        rewrite lookup_insert_eq, mayor_duracion_por_estado_lookup.
        fold f. split.
        -- destruct f; [done|]. done.
        -- intros r3 [= <-]. split; [|by rewrite lookup_insert_eq].
           intros Hin. apply list_elem_of_fmap in Hin as ([e3 r3] & E & Hin).
           simpl in E. subst r3.
           destruct (Htodo e3 r') as (_ & _ & Hh3 & _); [by right|].
           congruence.
      * rewrite lookup_insert_ne by done.
        destruct (Hdone e2) as (Hval & Hloc).
        { intros Hin. apply elem_of_cons in Hin as [?|?]; done. }
        assert (∀ r3, d !! e2 = Some r3 → h2 !! r3 = h !! r3) as Hsame.
        { intros r3 H3. destruct (Hloc _ H3) as (Hnot & [l3 Hl3]).
          unfold h2, h1. rewrite !lookup_insert_ne; [done| |].
          - intros ->. apply Hnot. csimpl. by left.
          - intros ->. congruence. }
        split.
        -- rewrite <- Hval. destruct (d !! e2) as [r3|] eqn:E3; [|done].
           simpl. unfold records_at. by rewrite (Hsame _ eq_refl).
        -- intros r3 H3. destruct (Hloc _ H3) as (Hnot & Hsome).
           split.
           ++ intros Hin. apply Hnot. csimpl. by right.
           ++ by rewrite (Hsame _ H3).
Qed.

Lemma append_push r (a : Avistamiento Coordenadas) l h :
  h !! r = Some (Records l) →
  append r a h = Some ((), <[r := Records (l ++ [a])]> h).
Proof. intros Hr. unfold append. by rewrite Hr. Qed.

Lemma mayor_duracion_por_estado_heap_spec fuel src avs n h :
  h !! src = Some (Records avs) → (length avs < fuel)%nat →
  ∃ d h',
    avistamientos_mayor_duracion_por_estado_heap fuel src n h = Some (d, h')
    ∧ (∀ e, (d !! e) ≫= records_at h'
            = avistamientos_mayor_duracion_por_estado avs n !! e)
    ∧ preserves h h'.
Proof.
  intros Hsrc Hlen.
  destruct (grouped_loop Records (new_list []) append (λ _, eq_refl)
              append_push h src avs Hsrc fuel 0 ∅ h)
    as (d1 & h1 & Hloop1 & Hpres1 & Hsome & Hnone & Hinj).
  { apply grouped_start. }
  { lia. }
  destruct (sliced_loop h avs n (items d1)) with (d := d1) (h := h1)
    as (d2 & h2 & Hloop2 & Hpres2 & _ & Hdone).
  { apply NoDup_fst_map_to_list. }
  { apply NoDup_snd_of_injective; [apply NoDup_fst_map_to_list|].
    intros k1 k2 v H1 H2. apply elem_of_map_to_list in H1, H2.
    by apply (Hinj k1 k2 v). }
  { split; [done|]. split.
    - intros e r Hin. apply elem_of_map_to_list in Hin.
      destruct (Hsome _ _ Hin) as (? & ? & ?). done.
    - intros e He.
      assert (d1 !! e = None) as Hd.
      { destruct (d1 !! e) as [r|] eqn:E; [|done]. exfalso. apply He.
        apply list_elem_of_fmap. exists (e, r). split; [done|].
        by apply elem_of_map_to_list. }
      rewrite Hd. split; [|done]. simpl.
      rewrite mayor_duracion_por_estado_lookup. by rewrite (Hnone _ Hd). }
  exists d2, h2. split; [|split; [|done]].
  - unfold avistamientos_mayor_duracion_por_estado_heap.
    unfold mbind at 1. unfold cmd_bind at 1. unfold for_in.
    rewrite Hloop1. exact Hloop2.
  - intros e. apply Hdone. intros Hin. by apply elem_of_nil in Hin.
Qed.

(** *** 4.7 over the heap *)

Lemma longitud_media_heap_spec fuel src avs h :
  h !! src = Some (Records avs) → (length avs < fuel)%nat →
  returns_unchanged
    (longitud_media_comentarios_por_estado_heap fuel src) h
    (longitud_media_comentarios_por_estado avs).
Proof.
  intros Hsrc Hlen.
  set (lenf := λ a : Avistamiento Coordenadas, len_str (comentarios a)).
  destruct (grouped_loop
              (λ l, Integers (fmap (M := list) lenf l))
              new_integers
              (λ r a, append_integer r (lenf a)) (λ _, eq_refl))
    with (h0 := h) (src := src) (avs := avs) (fuel := fuel) (i := 0%nat)
         (d := (∅ : gmap string loc)) (h := h)
    as (d1 & h1 & Hloop1 & Hpres1 & Hsome & Hnone & Hinj).
  { intros r a l h' Hr. unfold append_integer. rewrite Hr.
    by rewrite fmap_app. }
  { done. }
  { apply grouped_start. }
  { lia. }
  unfold lenf in Hloop1. cbv beta in Hloop1.
  set (val := λ r : loc,
         match h1 !! r with
         | Some (Integers L) => (Qc_of_Z (sum L) / Qc_of_Z (len L))%Qc
         | _ => 0%Qc
         end).
  exists h1. split; [|done].
  unfold longitud_media_comentarios_por_estado_heap.
  unfold mbind at 1. unfold cmd_bind at 1. unfold for_in.
  rewrite Hloop1.
  rewrite (for_items_result_pure (items d1) _
             (λ (res : gmap string Qc) '(e, r), <[e := val r]> res) h1).
  - rewrite longitud_media_Return. do 3 f_equal.
    apply map_eq. intros e.
    rewrite (foldl_insert_items val), lookup_empty, lookup_fmap.
    rewrite longitudes_lookup.
    destruct (d1 !! e) as [r|] eqn:Hd.
    + destruct (Hsome _ _ Hd) as (_ & Hr & Hne).
      unfold val. rewrite Hr.
      destruct (filter (λ a, estado a = e) avs) as [|x f]; [done|].
      done.
    + by rewrite (Hnone _ Hd).
  - intros [e r] res Hin. apply elem_of_map_to_list in Hin.
    destruct (Hsome _ _ Hin) as (_ & Hr & Hne).
    unfold mbind at 1. unfold cmd_bind at 1. unfold read_integers.
    rewrite Hr. unfold mret, cmd_ret. unfold val. rewrite Hr.
    unfold truediv.
    destruct (len (lenf <$> filter (λ a, estado a = e) avs) =? 0) eqn:E;
      [|done].
    exfalso. apply Hne. unfold len in E. rewrite length_fmap in E.
    apply length_zero_iff_nil. lia.
Qed.

(** *** 4.13 over the heap *)

Lemma mas_reciente_heap_spec fuel src avs h :
  h !! src = Some (Records avs) → (length avs < fuel)%nat →
  ∃ d h' m,
    avistamiento_mas_reciente_por_estado_heap fuel src h
    = Some (Return d, h')
    ∧ avistamiento_mas_reciente_por_estado avs = Return m
    ∧ (∀ e, (d !! e) ≫= dereferenced h' = m !! e)
    ∧ preserves h h'.
Proof.
  intros Hsrc Hlen.
  destruct (grouped_loop Records (new_list []) append (λ _, eq_refl)
              append_push h src avs Hsrc fuel 0 ∅ h)
    as (d1 & h1 & Hloop1 & Hpres1 & Hsome & Hnone & Hinj).
  { apply grouped_start. }
  { lia. }
  set (gt := λ y m : Avistamiento Coordenadas,
               datetime_gt (fechahora y) (fechahora m)).
  set (tsv := λ r : loc,
         match records_at h1 r with
         | Some l => match max_by gt l with
                     | Return m => inr (fechahora m)
                     | Raise _ => inl r
                     end
         | None => inl r
         end : loc + datetime).
  eexists _, h1, _. split; [|split; [apply mas_reciente_Return|split]];
    [| |done].
  - unfold avistamiento_mas_reciente_por_estado_heap.
    unfold mbind at 1. unfold cmd_bind at 1. unfold for_in.
    rewrite Hloop1.
    apply (for_items_result_pure (items d1) _
             (λ (d : gmap string (loc + datetime)) '(e, r),
                <[e := tsv r]> d) h1).
    intros [e r] d Hin. apply elem_of_map_to_list in Hin.
    destruct (Hsome _ _ Hin) as (_ & Hr & Hne).
    unfold mbind at 1. unfold cmd_bind at 1. unfold read.
    rewrite Hr. unfold mret, cmd_ret. unfold tsv, records_at. rewrite Hr.
    fold gt.
    destruct (filter (λ a, estado a = e) avs) as [|x f]; [done|].
    done.
  - intros e. rewrite (foldl_insert_items tsv), !lookup_fmap.
    rewrite por_estados_lookup.
    destruct (d1 !! e) as [r|] eqn:Hd.
    + destruct (Hsome _ _ Hd) as (_ & Hr & Hne).
      simpl. unfold tsv, records_at. rewrite Hr. fold gt.
      destruct (filter (λ a, estado a = e) avs) as [|x f]; [done|].
      done.
    + simpl. by rewrite (Hnone _ Hd).
Qed.

(** C9.  Run on a heap in which the argument refers to the list
    [avs], with fuel above its length, every query returns what it
    returns on the value [avs], and every list object of the heap at
    the call, the argument among them, holds afterwards the elements it
    held, in the same order.  The queries that count, add up or collect
    into sets, dictionaries and counters only read the argument and
    leave the whole heap as it is; the lists that are appended to,
    sorted in place or sliced are objects allocated during the call
    (the list of [None]s of 2.1, the selections of 3.1, 3.3, 3.4 and
    3.5, the sorted copy, its tail and the day differences of 3.5, the
    lists per state of 4.7, 4.9 and 4.13); the placeholders of 4.2 and
    4.10 to 4.12 do nothing. *)
Theorem every_query_leaves_the_input_unchanged
    fuel src avs h fecha estados e u radio f fi ff anyo año palabra n :
  h !! src = Some (Records avs) → (length avs < fuel)%nat →
  (∀ X (c : cmd (Avistamiento Coordenadas) X) x,
      returns_unchanged c h x →
      ∃ h', c h = Some (x, h') ∧ h' !! src = Some (Records avs))
  ∧ returns_unchanged (numero_avistamientos_fecha_heap fuel src fecha) h
      (numero_avistamientos_fecha avs fecha)
  ∧ returns_unchanged (numero_avistamientos_fecha2_heap fuel src fecha) h
      (numero_avistamientos_fecha2 avs fecha)
  ∧ returns_unchanged (formas_estados_heap fuel src estados) h
      (formas_estados avs estados)
  ∧ returns_unchanged (formas_estados2_heap fuel src estados) h
      (formas_estados2 avs estados)
  ∧ returns_unchanged (duracion_total_heap fuel src e) h
      (duracion_total avs e)
  ∧ returns_unchanged (duracion_total2_heap fuel src e) h
      (duracion_total2 avs e)
  ∧ returns_unchanged
      (avistamientos_cercanos_ubicacion_heap distancia fuel src u radio) h
      (avistamientos_cercanos_ubicacion distancia avs u radio)
  ∧ returns_unchanged
      (avistamientos_cercanos_ubicacion2_heap distancia fuel src u radio) h
      (avistamientos_cercanos_ubicacion2 distancia avs u radio)
  ∧ returns_unchanged (avistamiento_mayor_duracion_heap fuel src f) h
      (avistamiento_mayor_duracion avs f)
  ∧ returns_unchanged (avistamiento_mayor_duracion2_heap fuel src f) h
      (avistamiento_mayor_duracion2 avs f)
  ∧ returns_unchanged
      (avistamiento_cercano_mayor_duracion_heap distancia fuel src u radio)
      h (avistamiento_cercano_mayor_duracion distancia avs u radio)
  ∧ (∃ r h', avistamientos_fechas_heap fuel src fi ff h = Some (r, h')
             ∧ h' !! r = Some (Records (avistamientos_fechas avs fi ff))
             ∧ r ≠ src ∧ preserves h h')
  ∧ returns_unchanged (comentario_mas_largo_heap lower fuel src año palabra)
      h (comentario_mas_largo lower avs año palabra)
  ∧ returns_unchanged
      (media_dias_entre_avistamientos_heap Coordenadas_lt fuel src anyo) h
      (media_dias_entre_avistamientos Coordenadas_lt avs anyo)
  ∧ returns_unchanged (avistamientos_por_fecha_heap fuel src) h
      (avistamientos_por_fecha avs)
  ∧ returns_unchanged (avistamientos_por_fecha2_heap fuel src) h
      (avistamientos_por_fecha2 avs)
  ∧ returns_unchanged (formas_por_mes_heap fuel src) h (formas_por_mes avs)
  ∧ returns_unchanged (formas_por_mes2_heap src) h ()
  ∧ returns_unchanged (numero_avistamientos_por_año_heap fuel src) h
      (numero_avistamientos_por_año avs)
  ∧ returns_unchanged (numero_avistamientos_por_año2_heap fuel src) h
      (numero_avistamientos_por_año2 avs)
  ∧ returns_unchanged (numero_avistamientos_por_año3_heap fuel src) h
      (numero_avistamientos_por_año3 avs)
  ∧ returns_unchanged (num_avistamientos_por_mes_heap fuel src) h
      (num_avistamientos_por_mes avs)
  ∧ returns_unchanged (estado_mas_avistamientos_heap fuel src) h
      (estado_mas_avistamientos avs)
  ∧ returns_unchanged (hora_mas_avistamientos_heap fuel src) h
      (hora_mas_avistamientos avs)
  ∧ returns_unchanged
      (longitud_media_comentarios_por_estado_heap fuel src) h
      (longitud_media_comentarios_por_estado avs)
  ∧ returns_unchanged (porc_avistamientos_por_forma_heap fuel src) h
      (porc_avistamientos_por_forma avs)
  ∧ returns_unchanged (porc_avistamientos_por_forma_bis_heap fuel src año) h
      (porc_avistamientos_por_forma_bis avs año)
  ∧ (∃ d h', avistamientos_mayor_duracion_por_estado_heap fuel src n h
             = Some (d, h')
             ∧ (∀ e, (d !! e) ≫= records_at h'
                     = avistamientos_mayor_duracion_por_estado avs n !! e)
             ∧ preserves h h')
  ∧ returns_unchanged (año_mas_avistamientos_forma_heap src f) h ()
  ∧ returns_unchanged (estados_mas_avistamientos_heap src n) h ()
  ∧ returns_unchanged (duracion_total_avistamientos_año_heap src e) h ()
  ∧ (∃ d h' m, avistamiento_mas_reciente_por_estado_heap fuel src h
               = Some (Return d, h')
               ∧ avistamiento_mas_reciente_por_estado avs = Return m
               ∧ (∀ e, (d !! e) ≫= dereferenced h' = m !! e)
               ∧ preserves h h').
Proof.
  intros Hsrc Hlen.
  split.
  { intros X c x (h' & Hc & Hp). exists h'. split; [done|]. by apply Hp. }
  repeat split;
    try (apply returns_same; first
      [ by apply numero_avistamientos_fecha_heap_spec
      | by apply formas_estados_heap_spec
      | by apply formas_estados2_heap_spec
      | by apply duracion_total_heap_spec
      | by apply duracion_total2_heap_spec
      | by apply avistamientos_cercanos_ubicacion_heap_spec
      | by apply avistamientos_cercanos_ubicacion2_heap_spec
      | by apply avistamiento_mayor_duracion2_heap_spec
      | by apply avistamiento_cercano_mayor_duracion_heap_spec
      | by apply avistamientos_por_fecha_heap_spec
      | by apply avistamientos_por_fecha2_heap_spec
      | by apply formas_por_mes_heap_spec
      | by apply numero_avistamientos_por_año_heap_spec
      | by apply numero_avistamientos_por_año2_heap_spec
      | by apply numero_avistamientos_por_año3_heap_spec
      | by apply num_avistamientos_por_mes_heap_spec
      | by apply estado_mas_avistamientos_heap_spec
      | by apply hora_mas_avistamientos_heap_spec
      | by apply porc_avistamientos_por_forma_heap_spec
      | by apply porc_avistamientos_por_forma_bis_heap_spec
      | reflexivity ]).
  - destruct (numero_avistamientos_fecha2_heap_spec fuel src avs h Hsrc Hlen
                fecha) as (r & o & Hrun & Hr).
    by apply (returns_fresh _ _ _ r o).
  - destruct (avistamiento_mayor_duracion_heap_spec fuel src avs h Hsrc Hlen
                f) as (r & o & Hrun & Hr).
    by apply (returns_fresh _ _ _ r o).
  - destruct (avistamientos_fechas_heap_spec fuel src avs h Hsrc Hlen fi ff)
      as (r & Hrun & Hr).
    eexists _, _. split; [exact Hrun|].
    split; [by rewrite lookup_insert_eq|]. split; [congruence|].
    apply preserves_insert_fresh; [apply preserves_refl|done].
  - destruct (comentario_mas_largo_heap_spec fuel src avs h Hsrc Hlen año
                palabra) as (r & o & Hrun & Hr).
    by apply (returns_fresh _ _ _ r o).
  - by apply media_dias_heap_spec.
  - by apply longitud_media_heap_spec.
  - by apply mayor_duracion_por_estado_heap_spec.
  - by apply mas_reciente_heap_spec.
Qed.

End Heap_queries.

(** ** The statements on the example records *)

Section Examples.

Import Coordenadas_ejemplo.
Import Heap.

(** On the empty list both extremal queries raise [ValueError]: the
    outcome is an exception of [max], not a value that stands for the
    absence of a result. *)
Lemma extremal_queries_raise_on_empty_list :
  avistamiento_mayor_duracion (Coordenadas := Coordenadas) [] "disk"
  = Raise ValueError
  ∧ avistamiento_mayor_duracion2 (Coordenadas := Coordenadas) [] "disk"
    = Raise ValueError
  ∧ comentario_mas_largo (Coordenadas := Coordenadas) lower_ascii [] 2020
      "light"
    = Raise ValueError.
Proof. repeat split; reflexivity. Qed.

Lemma extremal_queries_on_empty_selection_witness :
  (avistamiento_mayor_duracion ejemplo "disk" = Raise ValueError
   ∧ avistamiento_mayor_duracion2 ejemplo "disk" = Raise ValueError)
  ∧ comentario_mas_largo lower_ascii ejemplo 2020 "Disk" = Raise ValueError.
Proof.
  destruct (extremal_queries_on_empty_selection lower_ascii ejemplo "disk"
              2020 "Disk")
    as (H1 & H2 & _).
  split.
  - apply H1. apply Forall_forall. repeat constructor; discriminate.
  - apply H2. apply Forall_forall.
    repeat constructor; intros [_ Hc]; vm_compute in Hc; discriminate.
Defined.

(** [len_str] counts code points, not bytes. *)
Lemma len_str_counts_code_points :
  len_str "ñandú ovni" = 10 ∧ len_str "ovni grande" = 11
  ∧ len_str "€€€" = 3 ∧ len_str "" = 0.
Proof. repeat split; reflexivity. Qed.

Lemma avistamientos_fechas_sorted_range_witness :
  avistamientos_fechas ejemplo None None ≡ₚ ejemplo.
Proof.
  apply (avistamientos_fechas_sorted_range ejemplo None None); reflexivity.
Defined.

(** The mean of the day differences 9 and 10 is 9.5; that of 3, 3 and
    4 is the binary64 value next to 10/3, 3.3333333333333335. *)
Lemma media_dias_is_mean_of_gaps_witness :
  (∃ x, media_dias_entre_avistamientos Coordenadas_lt [a3; a1; a2] None
        = Return (Some x)
        ∧ value_of x = Some (Q2Qc (19 # 2)))
  ∧ media_dias_entre_avistamientos Coordenadas_lt
      [visto 7; visto 1; visto 11; visto 4] None
    = (q ← mean_float [3; 3; 4]; Return (Some q))
  ∧ mean_float [3; 3; 4]
    = Return (S754_finite false 7505999378950827 (-51)).
Proof.
  destruct (media_dias_is_mean_of_gaps Coordenadas_lt [a3; a1; a2] None)
    as (_ & _ & _ & H4).
  destruct (media_dias_is_mean_of_gaps Coordenadas_lt
              [visto 7; visto 1; visto 11; visto 4] None)
    as (H1 & _).
  split; [|split].
  - apply (H4 a1 a2 a3); [reflexivity|reflexivity|reflexivity|].
    apply (Permutation_cons_append [a1; a2] a3).
  - apply (H1 [visto 1; visto 4; visto 7; visto 11]).
    + symmetry.
      apply (Permutation_cons_app [visto 1; visto 4] [visto 11] (visto 7)).
      apply perm_skip. apply perm_swap.
    + repeat constructor; vm_compute; discriminate.
  - reflexivity.
Defined.

Lemma cercanos_ubicacion_characterised_witness :
  SFltb radio_por_defecto (float_of_Z 2) = true
  ∧ avistamientos_cercanos_ubicacion distancia ejemplo (en 37 (-121))
      radio_por_defecto
    ⊆ avistamientos_cercanos_ubicacion distancia ejemplo (en 37 (-121))
        (float_of_Z 2).
Proof.
  assert (SFltb radio_por_defecto (float_of_Z 2) = true) as Hr
    by (vm_compute; reflexivity).
  split; [exact Hr|].
  apply (cercanos_ubicacion_characterised distancia ejemplo (en 37 (-121))).
  exact Hr.
Defined.

Lemma mayor_duracion_por_estado_top_n_witness :
  0 ≤ 1
  ∧ avistamientos_mayor_duracion_por_estado ejemplo 1 !! "ca" = Some [a2]
  ∧ Z.of_nat (length [a2]) ≤ 1
  ∧ Forall (λ a, estado a = "ca" ∧ a ∈ ejemplo) [a2].
Proof.
  assert (0 ≤ 1) as Hn by lia.
  assert (avistamientos_mayor_duracion_por_estado ejemplo 1 !! "ca"
          = Some [a2]) as Hl by (vm_compute; reflexivity).
  split; [exact Hn|]. split; [exact Hl|].
  destruct (mayor_duracion_por_estado_top_n ejemplo 1 "ca" [a2] Hn Hl)
    as (_ & Hlen & Hall & _).
  split; [exact Hlen|exact Hall].
Defined.

Lemma porcentajes_sum_100_witness :
  (∃ m, porc_avistamientos_por_forma ejemplo = Return m
        ∧ sum_values m = Qc_of_Z 100)
  ∧ (∃ m, porc_avistamientos_por_forma_bis ejemplo 2020 = Return m
          ∧ sum_values m = Qc_of_Z 100).
Proof.
  destruct (porcentajes_sum_100 ejemplo 2020) as (H1 & H2).
  split.
  - destruct H1 as (m & Hm & Hs & _); [discriminate|].
    exists m. split; [exact Hm|exact Hs].
  - destruct H2 as (m & Hm & Hs & _); [vm_compute; discriminate|].
    exists m. split; [exact Hm|exact Hs].
Defined.

Lemma every_query_leaves_the_input_unchanged_witness :
  ({[1%positive := Records ejemplo]} : gmap positive _) !! 1%positive
  = Some (Records ejemplo)
  ∧ (length ejemplo < 4)%nat
  ∧ (∃ r h', avistamientos_fechas_heap 4 1%positive None None
               ({[1%positive := Records ejemplo]} : gmap positive _)
             = Some (r, h')
             ∧ h' !! r
               = Some (Records (avistamientos_fechas ejemplo None None))
             ∧ r ≠ 1%positive
             ∧ preserves {[1%positive := Records ejemplo]} h')
  ∧ (∃ h', media_dias_entre_avistamientos_heap Coordenadas_lt 4 1%positive
             None ({[1%positive := Records ejemplo]} : gmap positive _)
           = Some (media_dias_entre_avistamientos Coordenadas_lt ejemplo None,
                   h')
           ∧ h' !! 1%positive = Some (Records ejemplo)).
Proof.
  assert (({[1%positive := Records ejemplo]} : gmap positive _) !! 1%positive
          = Some (Records ejemplo)) as Hsrc by reflexivity.
  assert (length ejemplo < 4)%nat as Hlen by (simpl; lia).
  split; [exact Hsrc|]. split; [exact Hlen|].
  destruct (every_query_leaves_the_input_unchanged Coordenadas_lt distancia
              lower_ascii 4 1%positive ejemplo
              {[1%positive := Records ejemplo]} (mk_date 2020 1 1) ∅ "ca"
              (en 37 (-121)) radio_por_defecto "light" None None None 2020
              "light" n_por_defecto Hsrc Hlen)
    as (Hun & _ & _ & _ & _ & _ & _ & _ & _ & _ & _ & _ & Hfechas & _
        & Hmedia & _).
  split; [exact Hfechas|]. exact (Hun _ _ _ Hmedia).
Defined.

Lemma groupings_have_the_keys_of_the_input_witness :
  0 < 1
  ∧ avistamientos_mayor_duracion_por_estado ejemplo 1 !! "nv" = Some [a1]
  ∧ [a1] ≠ [].
Proof.
  assert (0 < 1) as Hn by lia.
  assert (avistamientos_mayor_duracion_por_estado ejemplo 1 !! "nv"
          = Some [a1]) as Hl by (vm_compute; reflexivity).
  split; [exact Hn|]. split; [exact Hl|].
  destruct (groupings_have_the_keys_of_the_input ejemplo 1)
    as (_ & _ & _ & (_ & H) & _).
  exact (H Hn "nv" [a1] Hl).
Defined.

(** With [n = 0] the state [ca], which has two records, is mapped to
    the empty list. *)
Lemma mayor_duracion_por_estado_maps_to_empty_list :
  avistamientos_mayor_duracion_por_estado ejemplo 0 !! "ca" = Some [].
Proof. vm_compute. reflexivity. Qed.

(** On the empty list the percentages and the means are the empty
    dictionary, an ordinary return value: no guard is met and nothing
    marks the result as undefined. *)
Lemma percentages_and_means_of_nothing_are_empty :
  porc_avistamientos_por_forma (Coordenadas := Coordenadas) [] = Return ∅
  ∧ porc_avistamientos_por_forma_bis (Coordenadas := Coordenadas) [] 2020
    = Return ∅
  ∧ longitud_media_comentarios_por_estado (Coordenadas := Coordenadas) []
    = Return ∅.
Proof. repeat split; vm_compute; reflexivity. Qed.

End Examples.

(** ** The further statements on the example records *)

Section More_examples.

Import Coordenadas_ejemplo.

Lemma avistamientos_por_fecha_sizes_witness :
  avistamientos_por_fecha ejemplo = Return (avistamientos_por_fecha2 ejemplo)
  ∧ (avistamientos_por_fecha2 ejemplo !! mk_date 2020 1 2 = None
     ↔ numero_avistamientos_fecha ejemplo (mk_date 2020 1 2) = 0).
Proof.
  assert (avistamientos_por_fecha ejemplo
          = Return (avistamientos_por_fecha2 ejemplo)) as Hm
    by apply por_fecha_Return.
  split; [exact Hm|].
  exact (proj1 (avistamientos_por_fecha_sizes ejemplo _ (mk_date 2020 1 2) Hm)).
Defined.

Lemma mayor_duracion_por_estado_is_top_witness :
  0 ≤ 1
  ∧ avistamientos_mayor_duracion_por_estado ejemplo 1 !! "ca" = Some [a2]
  ∧ ∃ rest, filter (λ a, estado a = "ca") ejemplo ≡ₚ [a2] ++ rest
            ∧ ∀ a b, a ∈ [a2] → b ∈ rest → duracion b ≤ duracion a.
Proof.
  assert (0 ≤ 1) as Hn by lia.
  assert (avistamientos_mayor_duracion_por_estado ejemplo 1 !! "ca"
          = Some [a2]) as Hl by (vm_compute; reflexivity).
  split; [exact Hn|]. split; [exact Hl|].
  exact (mayor_duracion_por_estado_is_top ejemplo 1 "ca" [a2] Hn Hl).
Defined.

Lemma mayor_duracion_por_estado_length_witness :
  avistamientos_mayor_duracion_por_estado ejemplo (-1) !! "ca" = Some [a2]
  ∧ len [a2]
    = Z.max 0 (len (filter (λ a, estado a = "ca") ejemplo) + -1).
Proof.
  assert (avistamientos_mayor_duracion_por_estado ejemplo (-1) !! "ca"
          = Some [a2]) as Hl by (vm_compute; reflexivity).
  split; [exact Hl|].
  exact (mayor_duracion_por_estado_length ejemplo (-1) "ca" [a2] Hl).
Defined.

Lemma mayor_duracion_por_estado_total_witness :
  len (filter (λ a, estado a = "ca") ejemplo) ≤ 5
  ∧ avistamientos_mayor_duracion_por_estado ejemplo 5 !! "ca"
    = Some [a2; a3]
  ∧ [a2; a3] ≡ₚ filter (λ a, estado a = "ca") ejemplo
  ∧ sum (duracion <$> [a2; a3]) = duracion_total ejemplo "ca".
Proof.
  assert (len (filter (λ a, estado a = "ca") ejemplo) ≤ 5) as Hn
    by (vm_compute; discriminate).
  assert (avistamientos_mayor_duracion_por_estado ejemplo 5 !! "ca"
          = Some [a2; a3]) as Hl by (vm_compute; reflexivity).
  split; [exact Hn|]. split; [exact Hl|].
  exact (mayor_duracion_por_estado_total ejemplo 5 "ca" [a2; a3] Hn Hl).
Defined.

Lemma avistamientos_fechas_narrowing_witness :
  avistamientos_fechas
    (avistamientos_fechas ejemplo (Some (mk_date 2020 1 5)) None)
    (Some (mk_date 2020 1 15)) None
  = avistamientos_fechas ejemplo (Some (mk_date 2020 1 15)) None.
Proof.
  refine (proj1 (avistamientos_fechas_narrowing ejemplo
                   (Some (mk_date 2020 1 15)) None
                   (Some (mk_date 2020 1 5)) None _)).
  intros d [Hi _]. split; [|discriminate].
  intros i [= <-]. specialize (Hi _ eq_refl).
  unfold date_leq, date_cmp in *.
  eapply cmp_fields_le_trans; [|exact Hi]. vm_compute. discriminate.
Defined.

Lemma media_dias_is_span_over_count_witness :
  media_dias_entre_avistamientos Coordenadas_lt [a3; a1; a2] None
  = (q ← truediv_float (days_between (date_of (fechahora a3))
                                      (date_of (fechahora a1)))
                        (len [a3; a1; a2] - 1);
     Return (Some q)).
Proof.
  refine (media_dias_is_span_over_count Coordenadas_lt [a3; a1; a2] None
            a1 a3 _ _ _ _).
  - right. by left.
  - by left.
  - intros c Hc. repeat (apply elem_of_cons in Hc as [->|Hc]);
      [split; vm_compute; discriminate..|].
    by apply elem_of_nil in Hc.
  - simpl. lia.
Defined.

Lemma num_avistamientos_por_mes_counts_witness :
  Forall (λ a, 1 ≤ month (fechahora a) ≤ 12) ejemplo
  ∧ ∃ res, num_avistamientos_por_mes ejemplo = Indexed res
           ∧ res !! "Enero" = Some 3
           ∧ sum (items res).*2 = len ejemplo.
Proof.
  assert (Forall (λ a : Avistamiento Coordenadas,
                    1 ≤ month (fechahora a) ≤ 12) ejemplo) as Hv
    by (repeat constructor; simpl; lia).
  split; [exact Hv|].
  destruct (num_avistamientos_por_mes_counts ejemplo Hv)
    as (res & Hres & Hk & _ & Hsum).
  exists res. split; [exact Hres|]. split; [|exact Hsum].
  exact (Hk 1 ltac:(lia)).
Defined.

Lemma formas_por_mes_sets_witness :
  Forall (λ a, 1 ≤ month (fechahora a) ≤ 12) ejemplo
  ∧ ∃ res, formas_por_mes ejemplo = Indexed res
           ∧ res !! "Enero" = Some (list_to_set (forma <$> ejemplo))
           ∧ res !! "Febrero" = None.
Proof.
  assert (Forall (λ a : Avistamiento Coordenadas,
                    1 ≤ month (fechahora a) ≤ 12) ejemplo) as Hv
    by (repeat constructor; simpl; lia).
  split; [exact Hv|].
  destruct (formas_por_mes_sets ejemplo Hv) as (res & Hres & Hk & _).
  exists res. split; [exact Hres|]. split.
  - exact (Hk 1 ltac:(lia)).
  - exact (Hk 2 ltac:(lia)).
Defined.

End More_examples.
